(** * Session manager and supervisor scope filter

    A shallow embedding of [AuthContext] (session restore, [login],
    [logout], [updateUser]) and of the snapshot listeners of
    [SupervisorDashboard], followed by the properties proved about them.

    JavaScript values are modelled dynamically, as the code sees them: what
    comes back from [dbGet], from [JSON.parse] and from the listeners is an
    arbitrary JSON value, and [undefined] is the absence of a value
    ([None]).  A property whose value is [undefined] is represented as an
    absent property: the code only ever reads properties, spreads objects
    and serialises them, and none of the three tells the two apart. *)

From Stdlib Require Import String Ascii List ZArith NArith Bool Lia.
From Stdlib Require Import Permutation Sorted DecimalString.
Import ListNotations.

Local Open Scope string_scope.
Local Open Scope list_scope.
Local Infix "+++" := String.append (right associativity, at level 60).
Set Warnings "-register-all".

(** ** JavaScript values *)

Module JS.

(** Strings are byte strings holding the UTF-8 form of the text.
    [JNum m e] is the number whose decimal value is [m * 10^e]. *)
Inductive json : Type :=
| JNull
| JBool (b : bool)
| JNum (m e : Z)
| JStr (s : string)
| JArr (l : list json)
| JObj (props : list (string * json)).

(** A value or [undefined] ([None]). *)
Definition value := option json.

Inductive error : Type :=
| TypeError
| SyntaxError
| StoreError
| QuotaExceededError.

(** Outcome of an evaluation that may throw. *)
Inductive exc (A : Type) : Type :=
| Ok (a : A)
| Throw (e : error).
Arguments Ok {A} a.
Arguments Throw {A} e.

Definition exc_bind {A B} (c : exc A) (k : A -> exc B) : exc B :=
  match c with
  | Ok a => k a
  | Throw e => Throw e
  end.

(** A decimal [m * 10^e] denotes a non-zero double exactly when it lies
    above half of the smallest subnormal, [2^-1075]. *)
Definition num_nonzero (m e : Z) : bool :=
  if (0 <=? e)%Z then negb (m =? 0)%Z
  else (10 ^ (- e) <? Z.abs m * 2 ^ 1075)%Z.

(** ToBoolean. *)
Definition truthy (v : json) : bool :=
  match v with
  | JNull => false
  | JBool b => b
  | JNum m e => num_nonzero m e
  | JStr s => negb (s =? "")
  | JArr _ | JObj _ => true
  end.

Definition truthy_v (v : value) : bool :=
  match v with
  | Some j => truthy j
  | None => false
  end.

Fixpoint lookup (k : string) (props : list (string * json)) : value :=
  match props with
  | [] => None
  | (k', v) :: rest => if k =? k' then Some v else lookup k rest
  end.

(** Property read [v.k], for the property names the code reads
    (none of them is [length] or an index, so only objects answer).
    Reading a property of [null] throws. *)
Definition get_prop (v : json) (k : string) : exc value :=
  match v with
  | JNull => Throw TypeError
  | JObj props => Ok (lookup k props)
  | _ => Ok None
  end.

(** [v === s] for a string [s]. *)
Definition strict_eq_str (v : value) (s : string) : bool :=
  match v with
  | Some (JStr s') => s' =? s
  | _ => false
  end.

(** Exact comparison of two decimals. *)
Definition num_eqb (m1 e1 m2 e2 : Z) : bool :=
  if (e1 <=? e2)%Z then (m1 =? m2 * 10 ^ (e2 - e1))%Z
  else (m1 * 10 ^ (e1 - e2) =? m2)%Z.

(** SameValueZero between an argument and an element of a parsed array.
    Objects and arrays are compared by identity, and two values that were
    built separately are never the same object. *)
Definition same_value_zero (x : value) (y : json) : bool :=
  match x, y with
  | Some JNull, JNull => true
  | Some (JBool a), JBool b => Bool.eqb a b
  | Some (JNum m1 e1), JNum m2 e2 => num_eqb m1 e1 m2 e2
  | Some (JStr a), JStr b => a =? b
  | _, _ => false
  end.

(** *** Ordinary objects: key order and property definition *)

Definition is_digit (c : ascii) : bool :=
  let n := N_of_ascii c in ((48 <=? n) && (n <=? 57))%N.

Fixpoint all_digits (s : string) : bool :=
  match s with
  | EmptyString => true
  | String c r => is_digit c && all_digits r
  end.

Fixpoint digits_value (acc : N) (s : string) : N :=
  match s with
  | EmptyString => acc
  | String c r => digits_value (acc * 10 + (N_of_ascii c - 48))%N r
  end.

(** An array index is a canonical decimal numeral below [2^32 - 1]. *)
Definition array_index (k : string) : option N :=
  match k with
  | EmptyString => None
  | String c r =>
      if all_digits k && (negb (N_of_ascii c =? 48)%N || (r =? ""))
      then let n := digits_value 0 k in
           if (n <? 4294967295)%N then Some n else None
      else None
  end.

Fixpoint has_key (k : string) (props : list (string * json)) : bool :=
  match props with
  | [] => false
  | (k', _) :: rest => (k =? k') || has_key k rest
  end.

Fixpoint replace_key (k : string) (v : json) (props : list (string * json))
  : list (string * json) :=
  match props with
  | [] => []
  | (k', v') :: rest =>
      if k =? k' then (k', v) :: rest else (k', v') :: replace_key k v rest
  end.

(** A new index key goes among the index keys, in ascending order. *)
Fixpoint insert_index (n : N) (k : string) (v : json)
  (props : list (string * json)) : list (string * json) :=
  match props with
  | [] => [(k, v)]
  | (k', v') :: rest =>
      match array_index k' with
      | Some n' =>
          if (n <? n')%N then (k, v) :: props
          else (k', v') :: insert_index n k v rest
      | None => (k, v) :: props
      end
  end.

(** CreateDataProperty on an ordinary object whose properties are listed
    in enumeration order: an existing key keeps its place, a new index key
    is placed by value, any other new key goes last. *)
Definition obj_set (k : string) (v : json) (props : list (string * json))
  : list (string * json) :=
  if has_key k props then replace_key k v props
  else match array_index k with
       | Some n => insert_index n k v props
       | None => props ++ [(k, v)]
       end.

Fixpoint remove_key (k : string) (props : list (string * json))
  : list (string * json) :=
  match props with
  | [] => []
  | (k', v') :: rest =>
      if k =? k' then remove_key k rest else (k', v') :: remove_key k rest
  end.

(** Defining a property whose value may be [undefined]. *)
Definition obj_assign (props : list (string * json)) (kv : string * value)
  : list (string * json) :=
  match snd kv with
  | Some v => obj_set (fst kv) v props
  | None => remove_key (fst kv) props
  end.

(** An object literal or a sequence of spreads: properties are defined
    from left to right. *)
Definition obj_of (kvs : list (string * value)) : list (string * json) :=
  fold_left obj_assign kvs [].

Definition string_of_N (n : N) : string :=
  NilZero.string_of_uint (N.to_uint n).

Fixpoint indexed {A} (i : N) (l : list A) : list (string * A) :=
  match l with
  | [] => []
  | x :: rest => (string_of_N i, x) :: indexed (N.succ i) rest
  end.

Fixpoint chars (s : string) : list json :=
  match s with
  | EmptyString => []
  | String c r => JStr (String c EmptyString) :: chars r
  end.

(** Own enumerable string-keyed properties, in enumeration order, as
    [Object.entries] and object spread see them.  Primitive strings
    expose their characters (accurate for ASCII text). *)
Definition own_props (v : json) : list (string * json) :=
  match v with
  | JObj props => props
  | JArr l => indexed 0 l
  | JStr s => indexed 0 (chars s)
  | _ => []
  end.

Definition as_values (props : list (string * json)) : list (string * value) :=
  map (fun kv => (fst kv, Some (snd kv))) props.

End JS.

(** ** JSON.stringify and JSON.parse *)

Module JSON.
Import JS.

Definition dquote : ascii := ascii_of_N 34.
Definition backslash : ascii := ascii_of_N 92.

Definition hex_digit (n : N) : ascii :=
  if (n <? 10)%N then ascii_of_N (48 + n) else ascii_of_N (87 + n).

(** QuoteJSONString, one code unit at a time. *)
Definition escape_char (c : ascii) : string :=
  let n := N_of_ascii c in
  if (n =? 34)%N then String backslash (String dquote "")
  else if (n =? 92)%N then String backslash (String backslash "")
  else if (n =? 8)%N then String backslash "b"
  else if (n =? 12)%N then String backslash "f"
  else if (n =? 10)%N then String backslash "n"
  else if (n =? 13)%N then String backslash "r"
  else if (n =? 9)%N then String backslash "t"
  else if (n <? 32)%N then
    String backslash
      (String "u" (String "0" (String "0"
         (String (hex_digit (n / 16)) (String (hex_digit (n mod 16)) "")))))
  else String c "".

Fixpoint escape (s : string) : string :=
  match s with
  | EmptyString => ""
  | String c r => escape_char c +++ escape r
  end.

Definition quote (s : string) : string :=
  String dquote (escape s +++ String dquote "").

Definition string_of_Z (z : Z) : string :=
  NilZero.string_of_int (Z.to_int z).

Fixpoint zeros (n : nat) : string :=
  match n with
  | O => ""
  | S n' => String "0" (zeros n')
  end.

(** The digits without the zeros that end them, and how many zeros that
    were. *)
Fixpoint drop_trailing_zeros (s : string) : string * Z :=
  match s with
  | EmptyString => ("", 0%Z)
  | String c r =>
      let (r', z) := drop_trailing_zeros r in
      if (r' =? "") && Ascii.eqb c "0" then ("", (z + 1)%Z) else (String c r', z)
  end.

Fixpoint take_chars (n : nat) (s : string) : string :=
  match n, s with
  | S n', String c r => String c (take_chars n' r)
  | _, _ => ""
  end.

Fixpoint drop_chars (n : nat) (s : string) : string :=
  match n, s with
  | S n', String _ r => drop_chars n' r
  | _, _ => s
  end.

(** [Number::toString] on the decimal [m * 10^e]: with [s] the
    significant digits, [k] their count and [n] the position of the
    decimal point, so that the value is [0.s * 10^n], the digits are
    written out in full for [-6 < n <= 21] and in exponent form
    otherwise.  A decimal below half of the smallest subnormal is zero.
    The digits are those of the decimal, which are the digits JavaScript
    prints for every number written with at most fifteen significant
    digits that a double holds in its normal range. *)
Definition number_to_string (m e : Z) : string :=
  if negb (num_nonzero m e) then "0"
  else
    let (digits, z) := drop_trailing_zeros (string_of_Z (Z.abs m)) in
    let k := Z.of_nat (String.length digits) in
    let n := (k + z + e)%Z in
    (if (m <? 0)%Z then "-" else "") +++
    (if ((k <=? n) && (n <=? 21))%Z then digits +++ zeros (Z.to_nat (n - k))
     else if ((0 <? n) && (n <=? 21))%Z
     then take_chars (Z.to_nat n) digits +++ "." +++ drop_chars (Z.to_nat n) digits
     else if ((-6 <? n) && (n <=? 0))%Z
     then "0." +++ zeros (Z.to_nat (- n)) +++ digits
     else
       let x := (if (n - 1 <? 0)%Z then "-" else "+") +++ string_of_Z (Z.abs (n - 1)) in
       if (k =? 1)%Z then digits +++ "e" +++ x
       else take_chars 1 digits +++ "." +++ drop_chars 1 digits +++ "e" +++ x).

(** [JSON.stringify] of a value (no replacer, no indentation). *)
Fixpoint stringify (v : json) : string :=
  match v with
  | JNull => "null"
  | JBool true => "true"
  | JBool false => "false"
  | JNum m e => number_to_string m e
  | JStr s => quote s
  | JArr l => "[" +++ String.concat "," (map stringify l) +++ "]"
  | JObj props =>
      "{" +++ String.concat ","
                (map (fun kv => quote (fst kv) +++ ":" +++ stringify (snd kv)) props)
          +++ "}"
  end.

Definition is_ws (c : ascii) : bool :=
  let n := N_of_ascii c in
  ((n =? 32) || (n =? 9) || (n =? 10) || (n =? 13))%N.

Fixpoint skip_ws (s : string) : string :=
  match s with
  | EmptyString => s
  | String c r => if is_ws c then skip_ws r else s
  end.

Definition hex_value (c : ascii) : option N :=
  let n := N_of_ascii c in
  if ((48 <=? n) && (n <=? 57))%N then Some (n - 48)%N
  else if ((65 <=? n) && (n <=? 70))%N then Some (n - 55)%N
  else if ((97 <=? n) && (n <=? 102))%N then Some (n - 87)%N
  else None.

Definition hex4 (a b c d : ascii) : option N :=
  match hex_value a, hex_value b, hex_value c, hex_value d with
  | Some x, Some y, Some z, Some w => Some (((x * 16 + y) * 16 + z) * 16 + w)%N
  | _, _, _, _ => None
  end.

(** A code unit of a string literal: written as is, or through [\u]. *)
Inductive code_unit : Type :=
| Raw (c : ascii)
| Esc (u : N).

Definition cons_unit (x : code_unit) (r : option (list code_unit * string))
  : option (list code_unit * string) :=
  match r with
  | Some (l, t) => Some (x :: l, t)
  | None => None
  end.

(** The characters of a string literal after its opening quote, up to and
    including the closing quote. *)
Fixpoint parse_chars (s : string) : option (list code_unit * string) :=
  match s with
  | EmptyString => None
  | String c r =>
      let n := N_of_ascii c in
      if (n =? 34)%N then Some ([], r)
      else if (n <? 32)%N then None
      else if (n =? 92)%N then
        match r with
        | EmptyString => None
        | String e r1 =>
            let k := N_of_ascii e in
            if (k =? 34)%N then cons_unit (Raw dquote) (parse_chars r1)
            else if (k =? 92)%N then cons_unit (Raw backslash) (parse_chars r1)
            else if (k =? 47)%N then cons_unit (Raw "/") (parse_chars r1)
            else if (k =? 98)%N then cons_unit (Raw (ascii_of_N 8)) (parse_chars r1)
            else if (k =? 102)%N then cons_unit (Raw (ascii_of_N 12)) (parse_chars r1)
            else if (k =? 110)%N then cons_unit (Raw (ascii_of_N 10)) (parse_chars r1)
            else if (k =? 114)%N then cons_unit (Raw (ascii_of_N 13)) (parse_chars r1)
            else if (k =? 116)%N then cons_unit (Raw (ascii_of_N 9)) (parse_chars r1)
            else if (k =? 117)%N then
              match r1 with
              | String h1 (String h2 (String h3 (String h4 r5))) =>
                  match hex4 h1 h2 h3 h4 with
                  | Some u => cons_unit (Esc u) (parse_chars r5)
                  | None => None
                  end
              | _ => None
              end
            else None
        end
      else cons_unit (Raw c) (parse_chars r)
  end.

Definition utf8 (cp : N) : string :=
  if (cp <? 128)%N then String (ascii_of_N cp) ""
  else if (cp <? 2048)%N then
    String (ascii_of_N (192 + cp / 64))
      (String (ascii_of_N (128 + cp mod 64)) "")
  else if (cp <? 65536)%N then
    String (ascii_of_N (224 + cp / 4096))
      (String (ascii_of_N (128 + (cp / 64) mod 64))
         (String (ascii_of_N (128 + cp mod 64)) ""))
  else
    String (ascii_of_N (240 + cp / 262144))
      (String (ascii_of_N (128 + (cp / 4096) mod 64))
         (String (ascii_of_N (128 + (cp / 64) mod 64))
            (String (ascii_of_N (128 + cp mod 64)) ""))).

Definition is_high (u : N) : bool := ((55296 <=? u) && (u <? 56320))%N.
Definition is_low (u : N) : bool := ((56320 <=? u) && (u <? 57344))%N.

(** The text denoted by a sequence of code units; an escaped surrogate
    pair denotes one code point. *)
Fixpoint text_of_units (l : list code_unit) : string :=
  match l with
  | [] => ""
  | Raw c :: rest => String c (text_of_units rest)
  | Esc hi :: rest =>
      match rest with
      | Esc lo :: rest' =>
          if is_high hi && is_low lo
          then utf8 (65536 + (hi - 55296) * 1024 + (lo - 56320)) +++ text_of_units rest'
          else utf8 hi +++ text_of_units rest
      | _ => utf8 hi +++ text_of_units rest
      end
  end.

Definition parse_string (s : string) : option (string * string) :=
  match parse_chars s with
  | Some (l, r) => Some (text_of_units l, r)
  | None => None
  end.

Fixpoint take_digits (s : string) : string * string :=
  match s with
  | EmptyString => ("", "")
  | String c r =>
      if is_digit c
      then let (d, t) := take_digits r in (String c d, t)
      else ("", s)
  end.

Definition starts_with_zero (d : string) : bool :=
  match d with
  | String c (String _ _) => (N_of_ascii c =? 48)%N
  | _ => false
  end.

Definition parse_fraction (s : string) : option (string * string) :=
  match s with
  | String "." r =>
      let (d, t) := take_digits r in
      if d =? "" then None else Some (d, t)
  | _ => Some ("", s)
  end.

Definition parse_exp_digits (neg : bool) (s : string) : option (Z * string) :=
  let (d, t) := take_digits s in
  if d =? "" then None
  else let x := Z.of_N (digits_value 0 d) in
       Some (if neg then (- x)%Z else x, t).

Definition parse_exponent (s : string) : option (Z * string) :=
  match s with
  | String c r =>
      if ((N_of_ascii c =? 101) || (N_of_ascii c =? 69))%N then
        match r with
        | String "+" r' => parse_exp_digits false r'
        | String "-" r' => parse_exp_digits true r'
        | _ => parse_exp_digits false r
        end
      else Some (0%Z, s)
  | EmptyString => Some (0%Z, s)
  end.

(** A JSON numeral: optional minus, integer part without leading zero,
    optional fraction, optional exponent. *)
Definition parse_number (s : string) : option (json * string) :=
  let (neg, s1) := match s with
                   | String "-" r => (true, r)
                   | _ => (false, s)
                   end in
  let (ip, s2) := take_digits s1 in
  if (ip =? "") || starts_with_zero ip then None
  else
    match parse_fraction s2 with
    | None => None
    | Some (fp, s3) =>
        match parse_exponent s3 with
        | None => None
        | Some (x, s4) =>
            let m := Z.of_N (digits_value 0 (ip +++ fp)) in
            Some (JNum (if neg then (- m)%Z else m)
                       (x - Z.of_nat (String.length fp)), s4)
        end
    end.

Fixpoint strip_prefix (p s : string) : option string :=
  match p, s with
  | EmptyString, _ => Some s
  | String a p', String b s' => if Ascii.eqb a b then strip_prefix p' s' else None
  | String _ _, EmptyString => None
  end.

Definition parse_literal (s : string) : option (json * string) :=
  match strip_prefix "true" s with
  | Some r => Some (JBool true, r)
  | None =>
      match strip_prefix "false" s with
      | Some r => Some (JBool false, r)
      | None =>
          match strip_prefix "null" s with
          | Some r => Some (JNull, r)
          | None => parse_number s
          end
      end
  end.

(** The recursive-descent parser; [n] bounds the number of nested and
    consecutive values, and the length of the text always suffices. *)
Fixpoint parse_value (n : nat) (s : string) {struct n} : option (json * string) :=
  match n with
  | O => None
  | S n' =>
      match skip_ws s with
      | EmptyString => None
      | String c r =>
          let k := N_of_ascii c in
          if (k =? 123)%N then
            match skip_ws r with
            | EmptyString => None
            | String c2 r2 =>
                if (N_of_ascii c2 =? 125)%N then Some (JObj [], r2)
                else parse_members n' [] r
            end
          else if (k =? 91)%N then
            match skip_ws r with
            | EmptyString => None
            | String c2 r2 =>
                if (N_of_ascii c2 =? 93)%N then Some (JArr [], r2)
                else parse_elements n' [] r
            end
          else if (k =? 34)%N then
            match parse_string r with
            | Some (t, r') => Some (JStr t, r')
            | None => None
            end
          else parse_literal (String c r)
      end
  end
with parse_members (n : nat) (acc : list (string * json)) (s : string) {struct n}
  : option (json * string) :=
  match n with
  | O => None
  | S n' =>
      match skip_ws s with
      | EmptyString => None
      | String c r =>
          if (N_of_ascii c =? 34)%N then
            match parse_string r with
            | None => None
            | Some (key, r1) =>
                match skip_ws r1 with
                | EmptyString => None
                | String c1 r2 =>
                    if (N_of_ascii c1 =? 58)%N then
                      match parse_value n' r2 with
                      | None => None
                      | Some (v, r3) =>
                          let acc' := obj_set key v acc in
                          match skip_ws r3 with
                          | EmptyString => None
                          | String c3 r4 =>
                              if (N_of_ascii c3 =? 44)%N then parse_members n' acc' r4
                              else if (N_of_ascii c3 =? 125)%N then Some (JObj acc', r4)
                              else None
                          end
                      end
                    else None
                end
            end
          else None
      end
  end
with parse_elements (n : nat) (acc : list json) (s : string) {struct n}
  : option (json * string) :=
  match n with
  | O => None
  | S n' =>
      match parse_value n' s with
      | None => None
      | Some (v, r) =>
          match skip_ws r with
          | EmptyString => None
          | String c r' =>
              if (N_of_ascii c =? 44)%N then parse_elements n' (acc ++ [v]) r'
              else if (N_of_ascii c =? 93)%N then Some (JArr (acc ++ [v]), r')
              else None
          end
      end
  end.

(** [JSON.parse]: one value, surrounded by white space only. *)
Definition parse (s : string) : exc json :=
  match parse_value (S (String.length s)) s with
  | Some (v, r) => if skip_ws r =? "" then Ok v else Throw SyntaxError
  | None => Throw SyntaxError
  end.

End JSON.

(** ** AuthContext: the session manager *)

Module Auth.
Import JS.

(** What the provider holds and touches: the two [useState] cells, the
    [localStorage] slot named [crescentUser], and the sequence of paths
    handed to [dbGet] so far. *)
Record World : Type := {
  user : json;
  isLoading : bool;
  crescentUser : option string;
  db_reads : list string
}.

(** What the provider cannot control: the answer of the remote store to a
    read ([Throw] for a rejected promise, [JNull] for no data), and whether
    [localStorage.setItem] refuses the write. *)
Record Env : Type := {
  dbGet_response : string -> exc json;
  setItem_throws : bool
}.

(** A fresh process: no session, loading, nothing read yet. *)
Definition initial_world (slot : option string) : World :=
  {| user := JNull; isLoading := true; crescentUser := slot; db_reads := [] |}.

(** Computations over the world that may throw; what was written before
    the throw stays written. *)
Definition M (A : Type) : Type := World -> exc A * World.

Definition ret {A} (a : A) : M A := fun w => (Ok a, w).

Definition bind {A B} (c : M A) (k : A -> M B) : M B :=
  fun w =>
    match c w with
    | (Ok a, w') => k a w'
    | (Throw e, w') => (Throw e, w')
    end.

Definition lift {A} (r : exc A) : M A := fun w => (r, w).

Definition try_catch {A} (c : M A) (handler : error -> M A) : M A :=
  fun w =>
    match c w with
    | (Ok a, w') => (Ok a, w')
    | (Throw e, w') => handler e w'
    end.

Declare Scope auth_scope.
Delimit Scope auth_scope with auth.
Notation "x <- c ;; k" := (bind c (fun x => k))
  (at level 61, c at next level, right associativity) : auth_scope.
Notation "c ;;; k" := (bind c (fun _ => k))
  (at level 61, right associativity) : auth_scope.
Local Open Scope auth_scope.

Definition setUser (v : json) : M unit :=
  fun w => (Ok tt, {| user := v; isLoading := isLoading w;
                      crescentUser := crescentUser w; db_reads := db_reads w |}).

Definition setIsLoading (b : bool) : M unit :=
  fun w => (Ok tt, {| user := user w; isLoading := b;
                      crescentUser := crescentUser w; db_reads := db_reads w |}).

Definition getUser : M json := fun w => (Ok (user w), w).

(** [localStorage.getItem('crescentUser')] *)
Definition getItem : M (option string) := fun w => (Ok (crescentUser w), w).

(** [localStorage.setItem('crescentUser', s)] *)
Definition setItem (env : Env) (s : string) : M unit :=
  fun w =>
    if setItem_throws env then (Throw QuotaExceededError, w)
    else (Ok tt, {| user := user w; isLoading := isLoading w;
                    crescentUser := Some s; db_reads := db_reads w |}).

(** [localStorage.removeItem('crescentUser')] *)
Definition removeItem : M unit :=
  fun w => (Ok tt, {| user := user w; isLoading := isLoading w;
                      crescentUser := None; db_reads := db_reads w |}).

(** [await dbGet(path)] *)
Definition dbGet (env : Env) (path : string) : M json :=
  fun w =>
    (dbGet_response env path,
     {| user := user w; isLoading := isLoading w;
        crescentUser := crescentUser w; db_reads := db_reads w ++ [path] |}).

(** The session-restore effect, run once when the provider mounts. *)
Definition restoreSession : M unit :=
  savedUser <- getItem ;;
  (match savedUser with
   | Some s =>
       if negb (s =? "")
       then (v <- lift (JSON.parse s) ;; setUser v)
       else ret tt
   | None => ret tt
   end) ;;;
  setIsLoading false.

Record LoginResult : Type := {
  success : bool;
  error_message : option string
}.

Definition login_ok : LoginResult :=
  {| success := true; error_message := None |}.
Definition invalid_credentials : LoginResult :=
  {| success := false; error_message := Some "Invalid username or password" |}.
Definition login_failed : LoginResult :=
  {| success := false; error_message := Some "Login failed. Please try again." |}.

(** [r.username === username && r.password === password] *)
Definition credentials_match (r : json) (username password : string) : M bool :=
  u <- lift (get_prop r "username") ;;
  if strict_eq_str u username
  then (p <- lift (get_prop r "password") ;; ret (strict_eq_str p password))
  else ret false.

(** [setUser(userData); localStorage.setItem('crescentUser', JSON.stringify(userData))] *)
Definition install (env : Env) (userData : json) : M unit :=
  setUser userData ;;;
  setItem env (JSON.stringify userData).

Definition admin_session (adminData : json) : M json :=
  i <- lift (get_prop adminData "id") ;;
  u <- lift (get_prop adminData "username") ;;
  n <- lift (get_prop adminData "name") ;;
  ret (JObj (obj_of [("id", i); ("username", u); ("name", n);
                     ("role", Some (JStr "admin"))])).

Definition teacher_session (key : string) (teacher : json) : M json :=
  u <- lift (get_prop teacher "username") ;;
  n <- lift (get_prop teacher "name") ;;
  ret (JObj (obj_of [("id", Some (JStr key)); ("username", u); ("name", n);
                     ("role", Some (JStr "teacher"))])).

(** [x || false] *)
Definition or_false (x : value) : value :=
  if truthy_v x then x else Some (JBool false).

Definition student_session (key : string) (student : json) : M json :=
  u <- lift (get_prop student "username") ;;
  n <- lift (get_prop student "name") ;;
  c <- lift (get_prop student "classId") ;;
  cn <- lift (get_prop student "className") ;;
  pc <- lift (get_prop student "passwordChanged") ;;
  ret (JObj (obj_of [("id", Some (JStr key)); ("username", u); ("name", n);
                     ("role", Some (JStr "student")); ("classId", c);
                     ("className", cn); ("passwordChanged", or_false pc)])).

(** The [for (const [key, r] of Object.entries(...))] loops: the first
    entry that matches is installed and ends the login. *)
Fixpoint scan (env : Env) (session : string -> json -> M json)
  (username password : string) (entries : list (string * json))
  : M (option LoginResult) :=
  match entries with
  | [] => ret None
  | (key, r) :: rest =>
      hit <- credentials_match r username password ;;
      if hit
      then (userData <- session key r ;;
            install env userData ;;;
            ret (Some login_ok))
      else scan env session username password rest
  end.

Definition scan_collection (env : Env) (session : string -> json -> M json)
  (username password : string) (collection : json) : M (option LoginResult) :=
  if truthy collection
  then scan env session username password (own_props collection)
  else ret None.

Definition login_body (env : Env) (username password : string) : M LoginResult :=
  adminData <- dbGet env "users/admin" ;;
  hit <- (if truthy adminData
          then credentials_match adminData username password
          else ret false) ;;
  if hit
  then (userData <- admin_session adminData ;;
        install env userData ;;;
        ret login_ok)
  else
    teachers <- dbGet env "teachers" ;;
    found <- scan_collection env teacher_session username password teachers ;;
    match found with
    | Some r => ret r
    | None =>
        students <- dbGet env "students" ;;
        found' <- scan_collection env student_session username password students ;;
        match found' with
        | Some r => ret r
        | None => ret invalid_credentials
        end
    end.

(** [login]: the body runs inside [try], and whatever it throws is turned
    into the generic failure (after a [console.error]). *)
Definition login (env : Env) (username password : string) : M LoginResult :=
  try_catch (login_body env username password) (fun _ => ret login_failed).

Definition logout : M unit :=
  setUser JNull ;;;
  removeItem.

(** [{ ...user, ...data }] *)
Definition spread_merge (u : json) (data : list (string * value)) : json :=
  JObj (obj_of (as_values (own_props u) ++ data)).

(** [updateUser(data)], where [data] lists the properties of the partial
    record, each with its value (possibly [undefined]). *)
Definition updateUser (env : Env) (data : list (string * value)) : M unit :=
  u <- getUser ;;
  if truthy u
  then (let updatedUser := spread_merge u data in
        setUser updatedUser ;;;
        setItem env (JSON.stringify updatedUser))
  else ret tt.

End Auth.

(** ** SupervisorDashboard: the snapshot listeners *)

Module Dashboard.
Import JS.

(** [Object.entries(data).map(([id, c]) => ({ id, ...c }))] *)
Definition with_id (kv : string * json) : json :=
  JObj (obj_of (("id", Some (JStr (fst kv))) :: as_values (own_props (snd kv)))).

(** [data ? Object.entries(data).map(...) : []] *)
Definition entities (data : json) : list json :=
  if truthy data then map with_id (own_props data) else [].

(** ToString of an argument. *)
Fixpoint to_string (v : json) : string :=
  match v with
  | JNull => "null"
  | JBool true => "true"
  | JBool false => "false"
  | JNum m e => JSON.number_to_string m e
  | JStr s => s
  | JArr l =>
      String.concat "," (map (fun x => match x with
                                   | JNull => ""
                                   | _ => to_string x
                                   end) l)
  | JObj _ => "[object Object]"
  end.

Definition to_string_v (v : value) : string :=
  match v with
  | Some j => to_string j
  | None => "undefined"
  end.

Fixpoint is_prefix (p s : string) : bool :=
  match p, s with
  | EmptyString, _ => true
  | String a p', String b s' => Ascii.eqb a b && is_prefix p' s'
  | String _ _, EmptyString => false
  end.

(** [String.prototype.includes] *)
Fixpoint contains (needle s : string) : bool :=
  is_prefix needle s ||
  match s with
  | EmptyString => false
  | String _ r => contains needle r
  end.

(** [target.includes(x)]: the method of arrays, the method of strings, and
    a TypeError for a value that has no [includes] to call. *)
Definition includes_method (target : json) (x : value) : exc value :=
  match target with
  | JArr l => Ok (Some (JBool (existsb (same_value_zero x) l)))
  | JStr s => Ok (Some (JBool (contains (to_string_v x) s)))
  | _ => Throw TypeError
  end.

(** [user?.assignedClassIds?.includes(arg)]: [undefined] when the chain is
    cut short, in which case the argument is not evaluated. *)
Definition assigned_includes (user : json) (arg : exc value) : exc value :=
  match user with
  | JNull => Ok None
  | _ =>
      match get_prop user "assignedClassIds" with
      | Throw e => Throw e
      | Ok None => Ok None
      | Ok (Some JNull) => Ok None
      | Ok (Some target) => exc_bind arg (includes_method target)
      end
  end.

(** [Array.prototype.filter] with a callback that may throw. *)
Fixpoint filter_exc {A} (p : A -> exc value) (l : list A) : exc (list A) :=
  match l with
  | [] => Ok []
  | x :: rest =>
      match p x with
      | Throw e => Throw e
      | Ok b =>
          match filter_exc p rest with
          | Throw e => Throw e
          | Ok r => Ok (if truthy_v b then x :: r else r)
          end
      end
  end.

(** [c => user?.assignedClassIds?.includes(c.id)] *)
Definition class_visible (user : json) (c : json) : exc value :=
  assigned_includes user (get_prop c "id").

(** [s => user?.assignedClassIds?.includes(s.classId)] *)
Definition student_visible (user : json) (s : json) : exc value :=
  assigned_includes user (get_prop s "classId").

(** [a => !a.classId || user?.assignedClassIds?.includes(a.classId)] *)
Definition announcement_visible (user : json) (a : json) : exc value :=
  exc_bind (get_prop a "classId")
    (fun cid =>
       if negb (truthy_v cid) then Ok (Some (JBool true))
       else assigned_includes user (get_prop a "classId")).

(** *** Dates *)

Definition digit_value (c : ascii) : option Z :=
  if is_digit c then Some (Z.of_N (N_of_ascii c) - 48)%Z else None.

Fixpoint read_digits (n : nat) (acc : Z) (s : string) : option (Z * string) :=
  match n with
  | O => Some (acc, s)
  | S n' =>
      match s with
      | EmptyString => None
      | String c r =>
          match digit_value c with
          | Some d => read_digits n' (acc * 10 + d)%Z r
          | None => None
          end
      end
  end.

Definition expect (c : ascii) (s : string) : option string :=
  match s with
  | String c' r => if Ascii.eqb c c' then Some r else None
  | EmptyString => None
  end.

Definition is_leap (y : Z) : bool :=
  ((y mod 4 =? 0) && (negb (y mod 100 =? 0) || (y mod 400 =? 0)))%Z.

Definition days_in_month (y m : Z) : Z :=
  if (m =? 2)%Z then (if is_leap y then 29 else 28)%Z
  else if ((m =? 4) || (m =? 6) || (m =? 9) || (m =? 11))%Z then 30%Z
  else 31%Z.

(** Days between 1970-01-01 and the given civil date. *)
Definition days_from_civil (y m d : Z) : Z :=
  let y' := (if m <=? 2 then y - 1 else y)%Z in
  let era := (y' / 400)%Z in
  let yoe := (y' - era * 400)%Z in
  let mp := (if 2 <? m then m - 3 else m + 9)%Z in
  let doy := ((153 * mp + 2) / 5 + d - 1)%Z in
  let doe := (yoe * 365 + yoe / 4 - yoe / 100 + doy)%Z in
  (era * 146097 + doe - 719468)%Z.

Definition parse_date (s : string) : option (Z * string) :=
  match read_digits 4 0 s with
  | None => None
  | Some (y, s1) =>
  match expect "-" s1 with
  | None => None
  | Some s2 =>
  match read_digits 2 0 s2 with
  | None => None
  | Some (m, s3) =>
  match expect "-" s3 with
  | None => None
  | Some s4 =>
  match read_digits 2 0 s4 with
  | None => None
  | Some (d, s5) =>
      if ((1 <=? m) && (m <=? 12) && (1 <=? d) && (d <=? days_in_month y m))%Z
      then Some (days_from_civil y m d * 86400000, s5)%Z
      else None
  end end end end end.

(** [YYYY] or [YYYY-MM]: the first day of the year or of the month. *)
Definition parse_year_month (s : string) : option Z :=
  match read_digits 4 0 s with
  | None => None
  | Some (y, EmptyString) => Some (days_from_civil y 1 1 * 86400000)%Z
  | Some (y, s1) =>
  match expect "-" s1 with
  | None => None
  | Some s2 =>
  match read_digits 2 0 s2 with
  | Some (m, EmptyString) =>
      if ((1 <=? m) && (m <=? 12))%Z
      then Some (days_from_civil y m 1 * 86400000)%Z
      else None
  | _ => None
  end end end.

(** [HH:mm], [HH:mm:ss] or [HH:mm:ss.sss]: the milliseconds since the
    start of the day, and what follows. *)
Definition parse_time (s : string) : option (Z * string) :=
  match read_digits 2 0 s with
  | None => None
  | Some (h, s1) =>
  match expect ":" s1 with
  | None => None
  | Some s2 =>
  match read_digits 2 0 s2 with
  | None => None
  | Some (mi, s3) =>
  if negb ((h <=? 23) && (mi <=? 59))%Z then None
  else
  match expect ":" s3 with
  | None => Some (h * 3600000 + mi * 60000, s3)%Z
  | Some s4 =>
  match read_digits 2 0 s4 with
  | None => None
  | Some (sec, s5) =>
  if negb (sec <=? 59)%Z then None
  else
  match expect "." s5 with
  | None => Some (h * 3600000 + mi * 60000 + sec * 1000, s5)%Z
  | Some s6 =>
  match read_digits 3 0 s6 with
  | None => None
  | Some (ms, s7) => Some (h * 3600000 + mi * 60000 + sec * 1000 + ms, s7)%Z
  end end end end end end end.

(** [Z] or [+HH:mm] or [-HH:mm], up to the end of the string: how far the
    written time is ahead of UTC, in milliseconds. *)
Definition parse_offset (s : string) : option Z :=
  match s with
  | String "Z" EmptyString => Some 0%Z
  | String c r =>
      if Ascii.eqb c "+" || Ascii.eqb c "-" then
        match read_digits 2 0 r with
        | None => None
        | Some (h, r1) =>
        match expect ":" r1 with
        | None => None
        | Some r2 =>
        match read_digits 2 0 r2 with
        | Some (mi, EmptyString) =>
            if ((h <=? 23) && (mi <=? 59))%Z
            then Some (if Ascii.eqb c "-"
                       then - (h * 3600000 + mi * 60000)
                       else h * 3600000 + mi * 60000)%Z
            else None
        | _ => None
        end end end
      else None
  | EmptyString => None
  end.

(** The strings of the ECMAScript date-time format whose reading the
    standard fixes, whatever the engine and the time zone of the machine:
    a date alone ([YYYY], [YYYY-MM], [YYYY-MM-DD], read as UTC), and a full
    date followed by [T], a time and an offset, which is what
    [toISOString] writes.  [None] on every other string: a time without
    offset is local time, and the reading of a string outside the format
    (or with an element out of range) is left to the engine. *)
Definition ecma_date (s : string) : option Z :=
  match parse_date s with
  | Some (day, EmptyString) => Some day
  | Some (day, String "T" r1) =>
      match parse_time r1 with
      | None => None
      | Some (t, z) =>
          match parse_offset z with
          | Some ahead => Some (day + t - ahead)%Z
          | None => None
          end
      end
  | Some _ => None
  | None => parse_year_month s
  end.

(** What the JavaScript engine decides: [Date.parse], the time value of
    a string, [None] for NaN. *)
Record Engine : Type := {
  Date_parse : string -> option Z
}.

(** An engine that reads the strings the standard fixes and no other. *)
Definition ecma : Engine := {| Date_parse := ecma_date |}.

(** TimeClip of the decimal [m * 10^e]: NaN beyond 8.64e15, and the
    integer part otherwise. *)
Definition time_clip (m e : Z) : option Z :=
  if (0 <=? e)%Z
  then (if (Z.abs (m * 10 ^ e) <=? 8640000000000000)%Z
        then Some (m * 10 ^ e)%Z else None)
  else (if (Z.abs m <=? 8640000000000000 * 10 ^ (- e))%Z
        then Some (Z.quot m (10 ^ (- e))) else None).

(** [new Date(v).getTime()]; [None] is NaN.  [undefined] gives NaN; a
    string is parsed; an array or an object is first converted to a
    string, and that string is parsed; [null], booleans and numbers are
    converted to a number, which is clipped. *)
Definition Date_getTime (engine : Engine) (v : value) : option Z :=
  match v with
  | None => None
  | Some JNull => Some 0%Z
  | Some (JBool b) => Some (if b then 1 else 0)%Z
  | Some (JNum m e) => time_clip m e
  | Some (JStr s) => Date_parse engine s
  | Some (JArr l) => Date_parse engine (to_string (JArr l))
  | Some (JObj props) => Date_parse engine (to_string (JObj props))
  end.

Definition createdAt (a : json) : value :=
  match get_prop a "createdAt" with
  | Ok v => v
  | Throw _ => None
  end.

(** [(a, b) => new Date(b.createdAt).getTime() - new Date(a.createdAt).getTime()] *)
Definition by_date_desc (engine : Engine) (a b : json) : option Z :=
  match Date_getTime engine (createdAt b), Date_getTime engine (createdAt a) with
  | Some tb, Some ta => Some (tb - ta)%Z
  | _, _ => None
  end.

(** *** Array.prototype.sort *)

(** The comparator's answer as the sort reads it: NaN counts as zero. *)
Definition compare_with {A} (cmp : A -> A -> option Z) (a b : A) : Z :=
  match cmp a b with
  | Some d => d
  | None => 0%Z
  end.

Fixpoint insert_sorted {A} (cmp : A -> A -> option Z) (x : A) (l : list A) : list A :=
  match l with
  | [] => [x]
  | y :: rest =>
      if (compare_with cmp x y <=? 0)%Z then x :: l
      else y :: insert_sorted cmp x rest
  end.

(** [Array.prototype.sort(cmp)]: a stable sort, here by insertion from the
    right, so that an element only moves past the later elements that the
    comparator puts strictly before it.  With a comparator that orders
    the elements consistently every stable sort gives this list; with one
    that does not (a NaN among the answers), the standard leaves the order
    to the engine, and this is one of the orders it allows. *)
Fixpoint sort {A} (cmp : A -> A -> option Z) (l : list A) : list A :=
  match l with
  | [] => []
  | x :: rest => insert_sorted cmp x (sort cmp rest)
  end.

(** *** The three listeners *)

(** The classes listener: what it hands to [setClasses]. *)
Definition classes_listener (user data : json) : exc (list json) :=
  filter_exc (class_visible user) (entities data).

(** The students listener: what it hands to [setStudents]. *)
Definition students_listener (user data : json) : exc (list json) :=
  filter_exc (student_visible user) (entities data).

(** The announcements listener: what it hands to [setAnnouncements]. *)
Definition announcements_listener (engine : Engine) (user data : json) :
  exc (list json) :=
  match filter_exc (announcement_visible user) (entities data) with
  | Ok l => Ok (sort (by_date_desc engine) l)
  | Throw e => Throw e
  end.

End Dashboard.

(** ** SupervisorDashboard: the forms, their handlers, and what is shown *)

Module Panel.
Import JS Dashboard.

(** The four [new...] state objects.  Their fields are the strings the
    inputs hand over ([e.target.value]). *)
Record TeacherForm : Type := {
  tf_name : string; tf_username : string; tf_password : string; tf_subject : string
}.

Record ClassForm : Type := {
  cf_name : string; cf_grade : string; cf_teacherId : string
}.

Record StudentForm : Type := {
  sf_name : string; sf_username : string; sf_password : string; sf_classId : string
}.

Record AnnouncementForm : Type := {
  af_title : string; af_content : string; af_priority : string; af_classId : string
}.

Definition empty_teacher : TeacherForm :=
  {| tf_name := ""; tf_username := ""; tf_password := ""; tf_subject := "" |}.
Definition empty_class : ClassForm :=
  {| cf_name := ""; cf_grade := ""; cf_teacherId := "" |}.
Definition empty_student : StudentForm :=
  {| sf_name := ""; sf_username := ""; sf_password := ""; sf_classId := "" |}.
Definition empty_announcement : AnnouncementForm :=
  {| af_title := ""; af_content := ""; af_priority := "normal"; af_classId := "" |}.

Record Toast : Type := {
  title : string;
  description : string;
  variant : option string
}.

(** The state of the component: the four lists the listeners fill, the
    open panel, the four forms; and, of what it does to the outside, the
    toasts it raised and the calls to [dbPush] it made, in order. *)
Record Dash : Type := {
  teachers : list json;
  classes : list json;
  students : list json;
  announcements : list json;
  showPanel : option string;
  newTeacher : TeacherForm;
  newClass : ClassForm;
  newStudent : StudentForm;
  newAnnouncement : AnnouncementForm;
  toasts : list Toast;
  db_pushes : list (string * value)
}.

(** A component that has just mounted. *)
Definition initial_dash : Dash :=
  {| teachers := []; classes := []; students := []; announcements := [];
     showPanel := None;
     newTeacher := empty_teacher; newClass := empty_class;
     newStudent := empty_student; newAnnouncement := empty_announcement;
     toasts := []; db_pushes := [] |}.

(** What the component cannot control: what [dbPush] answers ([Throw]
    for a rejected promise), and what [new Date().toISOString()] reads. *)
Record Remote : Type := {
  dbPush_response : string -> value -> exc value;
  now : string
}.

Definition H (A : Type) : Type := Dash -> exc A * Dash.

Definition ret {A} (a : A) : H A := fun d => (Ok a, d).

Definition bind {A B} (c : H A) (k : A -> H B) : H B :=
  fun d =>
    match c d with
    | (Ok a, d') => k a d'
    | (Throw e, d') => (Throw e, d')
    end.

Definition lift {A} (r : exc A) : H A := fun d => (r, d).

Declare Scope panel_scope.
Delimit Scope panel_scope with panel.
Notation "x <- c ;; k" := (bind c (fun x => k))
  (at level 61, c at next level, right associativity) : panel_scope.
Notation "c ;;; k" := (bind c (fun _ => k))
  (at level 61, right associativity) : panel_scope.
Local Open Scope panel_scope.

Definition setTeachers (l : list json) : H unit :=
  fun d => (Ok tt,
    {| teachers := l; classes := classes d; students := students d;
       announcements := announcements d; showPanel := showPanel d;
       newTeacher := newTeacher d; newClass := newClass d;
       newStudent := newStudent d; newAnnouncement := newAnnouncement d;
       toasts := toasts d; db_pushes := db_pushes d |}).

Definition setClasses (l : list json) : H unit :=
  fun d => (Ok tt,
    {| teachers := teachers d; classes := l; students := students d;
       announcements := announcements d; showPanel := showPanel d;
       newTeacher := newTeacher d; newClass := newClass d;
       newStudent := newStudent d; newAnnouncement := newAnnouncement d;
       toasts := toasts d; db_pushes := db_pushes d |}).

Definition setStudents (l : list json) : H unit :=
  fun d => (Ok tt,
    {| teachers := teachers d; classes := classes d; students := l;
       announcements := announcements d; showPanel := showPanel d;
       newTeacher := newTeacher d; newClass := newClass d;
       newStudent := newStudent d; newAnnouncement := newAnnouncement d;
       toasts := toasts d; db_pushes := db_pushes d |}).

Definition setAnnouncements (l : list json) : H unit :=
  fun d => (Ok tt,
    {| teachers := teachers d; classes := classes d; students := students d;
       announcements := l; showPanel := showPanel d;
       newTeacher := newTeacher d; newClass := newClass d;
       newStudent := newStudent d; newAnnouncement := newAnnouncement d;
       toasts := toasts d; db_pushes := db_pushes d |}).

Definition setShowPanel (p : option string) : H unit :=
  fun d => (Ok tt,
    {| teachers := teachers d; classes := classes d; students := students d;
       announcements := announcements d; showPanel := p;
       newTeacher := newTeacher d; newClass := newClass d;
       newStudent := newStudent d; newAnnouncement := newAnnouncement d;
       toasts := toasts d; db_pushes := db_pushes d |}).

Definition setNewTeacher (f : TeacherForm) : H unit :=
  fun d => (Ok tt,
    {| teachers := teachers d; classes := classes d; students := students d;
       announcements := announcements d; showPanel := showPanel d;
       newTeacher := f; newClass := newClass d;
       newStudent := newStudent d; newAnnouncement := newAnnouncement d;
       toasts := toasts d; db_pushes := db_pushes d |}).

Definition setNewClass (f : ClassForm) : H unit :=
  fun d => (Ok tt,
    {| teachers := teachers d; classes := classes d; students := students d;
       announcements := announcements d; showPanel := showPanel d;
       newTeacher := newTeacher d; newClass := f;
       newStudent := newStudent d; newAnnouncement := newAnnouncement d;
       toasts := toasts d; db_pushes := db_pushes d |}).

Definition setNewStudent (f : StudentForm) : H unit :=
  fun d => (Ok tt,
    {| teachers := teachers d; classes := classes d; students := students d;
       announcements := announcements d; showPanel := showPanel d;
       newTeacher := newTeacher d; newClass := newClass d;
       newStudent := f; newAnnouncement := newAnnouncement d;
       toasts := toasts d; db_pushes := db_pushes d |}).

Definition setNewAnnouncement (f : AnnouncementForm) : H unit :=
  fun d => (Ok tt,
    {| teachers := teachers d; classes := classes d; students := students d;
       announcements := announcements d; showPanel := showPanel d;
       newTeacher := newTeacher d; newClass := newClass d;
       newStudent := newStudent d; newAnnouncement := f;
       toasts := toasts d; db_pushes := db_pushes d |}).

(** [toast({...})] *)
Definition toast (t : Toast) : H unit :=
  fun d => (Ok tt,
    {| teachers := teachers d; classes := classes d; students := students d;
       announcements := announcements d; showPanel := showPanel d;
       newTeacher := newTeacher d; newClass := newClass d;
       newStudent := newStudent d; newAnnouncement := newAnnouncement d;
       toasts := toasts d ++ [t]; db_pushes := db_pushes d |}).

(** [await dbPush(path, payload)] *)
Definition dbPush (remote : Remote) (path : string) (payload : value) : H value :=
  fun d => (dbPush_response remote path payload,
    {| teachers := teachers d; classes := classes d; students := students d;
       announcements := announcements d; showPanel := showPanel d;
       newTeacher := newTeacher d; newClass := newClass d;
       newStudent := newStudent d; newAnnouncement := newAnnouncement d;
       toasts := toasts d; db_pushes := db_pushes d ++ [(path, payload)] |}).

Definition fill_all_fields : Toast :=
  {| title := "Error"; description := "Please fill all fields";
     variant := Some "destructive" |}.

Definition fill_and_select : Toast :=
  {| title := "Error"; description := "Please fill all fields and select a class";
     variant := Some "destructive" |}.

Definition success_toast (text : string) : Toast :=
  {| title := "Success"; description := text; variant := None |}.

(** [!s] for a string. *)
Definition blank (s : string) : bool := s =? "".

(** [l.find(x => x.id === id)] *)
Fixpoint find_by_id (id : string) (l : list json) : exc value :=
  match l with
  | [] => Ok None
  | x :: rest =>
      match get_prop x "id" with
      | Throw e => Throw e
      | Ok v => if strict_eq_str v id then Ok (Some x) else find_by_id id rest
      end
  end.

(** [v?.k] *)
Definition optional_prop (v : value) (k : string) : exc value :=
  match v with
  | None | Some JNull => Ok None
  | Some j => get_prop j k
  end.

(** [v || 'Unassigned'] *)
Definition or_unassigned (v : value) : value :=
  if truthy_v v then v else Some (JStr "Unassigned").

(** [{ ...newTeacher, createdAt: new Date().toISOString() }] *)
Definition teacher_payload (remote : Remote) (f : TeacherForm) : json :=
  JObj (obj_of [("name", Some (JStr (tf_name f)));
                ("username", Some (JStr (tf_username f)));
                ("password", Some (JStr (tf_password f)));
                ("subject", Some (JStr (tf_subject f)));
                ("createdAt", Some (JStr (now remote)))]).

Definition handleAddTeacher (remote : Remote) : H unit :=
  fun d =>
    let f := newTeacher d in
    (if blank (tf_name f) || blank (tf_username f)
        || blank (tf_password f) || blank (tf_subject f)
     then toast fill_all_fields
     else
       dbPush remote "teachers" (Some (teacher_payload remote f)) ;;;
       setNewTeacher empty_teacher ;;;
       setShowPanel None ;;;
       toast (success_toast "Teacher added successfully")) d.

(** [{ ...newClass, teacherName: teacher?.name || 'Unassigned', createdAt: ... }] *)
Definition class_payload (remote : Remote) (f : ClassForm) (teacherName : value) : json :=
  JObj (obj_of [("name", Some (JStr (cf_name f)));
                ("grade", Some (JStr (cf_grade f)));
                ("teacherId", Some (JStr (cf_teacherId f)));
                ("teacherName", teacherName);
                ("createdAt", Some (JStr (now remote)))]).

(** ['supervisors/' + id + '/assignedClassIds'] *)
Definition assignment_path (id : json) : string :=
  "supervisors/" +++ to_string id +++ "/assignedClassIds".

Definition handleAddClass (remote : Remote) (user : json) : H unit :=
  fun d =>
    let f := newClass d in
    (if blank (cf_name f) || blank (cf_grade f) || blank (cf_teacherId f)
     then toast fill_all_fields
     else
       teacher <- lift (find_by_id (cf_teacherId f) (teachers d)) ;;
       name <- lift (optional_prop teacher "name") ;;
       result <- dbPush remote "classes"
                   (Some (class_payload remote f (or_unassigned name))) ;;
       uid <- lift (optional_prop (Some user) "id") ;;
       (match result, uid with
        | Some r, Some i =>
            if truthy r && truthy i
            then (key <- lift (get_prop r "name") ;;
                  dbPush remote (assignment_path i) key ;;;
                  ret tt)
            else ret tt
        | _, _ => ret tt
        end) ;;;
       setNewClass empty_class ;;;
       setShowPanel None ;;;
       toast (success_toast "Class created and assigned to you")) d.

(** [{ ...newStudent, className: cls?.name || 'Unassigned', createdAt: ... }] *)
Definition student_payload (remote : Remote) (f : StudentForm) (className : value) : json :=
  JObj (obj_of [("name", Some (JStr (sf_name f)));
                ("username", Some (JStr (sf_username f)));
                ("password", Some (JStr (sf_password f)));
                ("classId", Some (JStr (sf_classId f)));
                ("className", className);
                ("createdAt", Some (JStr (now remote)))]).

Definition handleAddStudent (remote : Remote) : H unit :=
  fun d =>
    let f := newStudent d in
    (if blank (sf_name f) || blank (sf_username f)
        || blank (sf_password f) || blank (sf_classId f)
     then toast fill_all_fields
     else
       cls <- lift (find_by_id (sf_classId f) (classes d)) ;;
       name <- lift (optional_prop cls "name") ;;
       dbPush remote "students"
         (Some (student_payload remote f (or_unassigned name))) ;;;
       setNewStudent empty_student ;;;
       setShowPanel None ;;;
       toast (success_toast "Student enrolled successfully")) d.

(** [`Supervisor (${user?.name})`] *)
Definition author (user : json) : exc string :=
  exc_bind (optional_prop (Some user) "name")
    (fun n => Ok ("Supervisor (" +++ to_string_v n +++ ")")).

(** [{ ...newAnnouncement, author: ..., createdAt: ... }] *)
Definition announcement_payload (remote : Remote) (f : AnnouncementForm)
  (by_whom : string) : json :=
  JObj (obj_of [("title", Some (JStr (af_title f)));
                ("content", Some (JStr (af_content f)));
                ("priority", Some (JStr (af_priority f)));
                ("classId", Some (JStr (af_classId f)));
                ("author", Some (JStr by_whom));
                ("createdAt", Some (JStr (now remote)))]).

Definition handleAddAnnouncement (remote : Remote) (user : json) : H unit :=
  fun d =>
    let f := newAnnouncement d in
    (if blank (af_title f) || blank (af_content f) || blank (af_classId f)
     then toast fill_and_select
     else
       a <- lift (author user) ;;
       dbPush remote "announcements" (Some (announcement_payload remote f a)) ;;;
       setNewAnnouncement empty_announcement ;;;
       setShowPanel None ;;;
       toast (success_toast "Announcement posted to class")) d.

(** The callbacks handed to [dbListen]: each sets one list. *)
Definition on_teachers (data : json) : H unit :=
  setTeachers (entities data).

Definition on_classes (user data : json) : H unit :=
  l <- lift (classes_listener user data) ;; setClasses l.

Definition on_students (user data : json) : H unit :=
  l <- lift (students_listener user data) ;; setStudents l.

Definition on_announcements (engine : Engine) (user data : json) : H unit :=
  l <- lift (announcements_listener engine user data) ;; setAnnouncements l.

(** [announcements.slice(0, 4)]: the entries of the "Recent
    Announcements" card. *)
Definition recent_announcements (d : Dash) : list json :=
  firstn 4 (announcements d).

(** The values of the four stat cards: students, teachers, classes,
    announcements. *)
Definition stat_values (d : Dash) : nat * nat * nat * nat :=
  (List.length (students d), List.length (teachers d),
   List.length (classes d), List.length (announcements d)).

End Panel.

(** ** Vocabulary of the properties *)

Module Spec.
Import JS Auth Dashboard.

(** The value of property [k] of a record that is not [null]. *)
Definition field (r : json) (k : string) : value :=
  match get_prop r k with
  | Ok v => v
  | Throw _ => None
  end.

(** The record carries exactly the given user name and password. *)
Definition matches (r : json) (username password : string) : bool :=
  strict_eq_str (field r "username") username
  && strict_eq_str (field r "password") password.

(** Outcome of looking for credentials in one collection. *)
Inductive probe_result : Type :=
| Found (key : string) (r : json)
| NotFound
| Faulted.

(** The first entry, in enumeration order, that matches; a [null] entry
    met before it is a malformed record. *)
Fixpoint find_match (username password : string) (entries : list (string * json))
  : probe_result :=
  match entries with
  | [] => NotFound
  | (key, r) :: rest =>
      match r with
      | JNull => Faulted
      | _ => if matches r username password then Found key r
             else find_match username password rest
      end
  end.

Definition probe_admin (env : Env) (username password : string) : probe_result :=
  match dbGet_response env "users/admin" with
  | Throw _ => Faulted
  | Ok a => if truthy a && matches a username password then Found "users/admin" a
            else NotFound
  end.

Definition probe (env : Env) (path username password : string) : probe_result :=
  match dbGet_response env path with
  | Throw _ => Faulted
  | Ok c => if truthy c then find_match username password (own_props c) else NotFound
  end.

(** The sessions [login] builds from a matched record. *)
Definition admin_user (a : json) : json :=
  JObj (obj_of [("id", field a "id"); ("username", field a "username");
                ("name", field a "name"); ("role", Some (JStr "admin"))]).

Definition teacher_user (key : string) (t : json) : json :=
  JObj (obj_of [("id", Some (JStr key)); ("username", field t "username");
                ("name", field t "name"); ("role", Some (JStr "teacher"))]).

Definition student_user (key : string) (s : json) : json :=
  JObj (obj_of [("id", Some (JStr key)); ("username", field s "username");
                ("name", field s "name"); ("role", Some (JStr "student"));
                ("classId", field s "classId"); ("className", field s "className");
                ("passwordChanged", or_false (field s "passwordChanged"))]).

(** World updates. *)
Definition with_user (v : json) (w : World) : World :=
  {| user := v; isLoading := isLoading w;
     crescentUser := crescentUser w; db_reads := db_reads w |}.

Definition with_slot (s : option string) (w : World) : World :=
  {| user := user w; isLoading := isLoading w;
     crescentUser := s; db_reads := db_reads w |}.

Definition with_loading (b : bool) (w : World) : World :=
  {| user := user w; isLoading := b;
     crescentUser := crescentUser w; db_reads := db_reads w |}.

Definition with_reads (paths : list string) (w : World) : World :=
  {| user := user w; isLoading := isLoading w;
     crescentUser := crescentUser w; db_reads := db_reads w ++ paths |}.

(** What happens once a record has matched: the session is installed,
    then written to the slot unless the write is refused. *)
Definition finish (env : Env) (userData : json) (w : World) : exc LoginResult * World :=
  if setItem_throws env
  then (Ok login_failed, with_user userData w)
  else (Ok login_ok, with_slot (Some (JSON.stringify userData)) (with_user userData w)).

(** The decision table of [login]. *)
Definition login_table (env : Env) (username password : string) (w : World)
  : exc LoginResult * World :=
  match probe_admin env username password with
  | Found _ a => finish env (admin_user a) (with_reads ["users/admin"] w)
  | Faulted => (Ok login_failed, with_reads ["users/admin"] w)
  | NotFound =>
      match probe env "teachers" username password with
      | Found key t =>
          finish env (teacher_user key t) (with_reads ["users/admin"; "teachers"] w)
      | Faulted => (Ok login_failed, with_reads ["users/admin"; "teachers"] w)
      | NotFound =>
          match probe env "students" username password with
          | Found key s =>
              finish env (student_user key s)
                (with_reads ["users/admin"; "teachers"; "students"] w)
          | Faulted =>
              (Ok login_failed, with_reads ["users/admin"; "teachers"; "students"] w)
          | NotFound =>
              (Ok invalid_credentials,
               with_reads ["users/admin"; "teachers"; "students"] w)
          end
      end
  end.

(** *** The scope filter *)

(** [!a.classId]: the announcement names no class.  The property is
    absent, or holds a falsy value such as the empty string the forms
    start from. *)
Definition classId_unset (a : json) : bool := negb (truthy_v (field a "classId")).

(** The time an announcement was created, when its [createdAt] is a
    valid date. *)
Definition created (engine : Engine) (a : json) : Z :=
  match Date_getTime engine (createdAt a) with
  | Some t => t
  | None => 0%Z
  end.

(** The [createdAt] of the announcement is a valid date for the engine:
    [new Date(a.createdAt).getTime()] is not NaN. *)
Definition dated (engine : Engine) (a : json) : Prop :=
  Date_getTime engine (createdAt a) <> None.

(** The engine reads the strings whose reading the standard fixes as the
    standard says; on the others it is free. *)
Definition standard (engine : Engine) : Prop :=
  forall s t, ecma_date s = Some t -> Date_parse engine s = Some t.

(** The [createdAt] of the announcement is a date whose reading the
    standard fixes, or a value that is no string and has a time. *)
Definition plainly_dated (a : json) : Prop := dated ecma a.

(** The chain [user?.assignedClassIds?.includes] can be evaluated: the
    session is absent, or its [assignedClassIds] is absent, [null], an
    array or a string. *)
Definition scope_callable (u : json) : bool :=
  match u with
  | JNull => true
  | _ => match field u "assignedClassIds" with
         | None | Some JNull | Some (JArr _) | Some (JStr _) => true
         | Some _ => false
         end
  end.

(** *** Typed stores *)

Definition string_or_absent (v : value) : Prop :=
  match v with
  | None | Some (JStr _) => True
  | Some _ => False
  end.

Definition bool_or_absent (v : value) : Prop :=
  match v with
  | None | Some (JBool _) => True
  | Some _ => False
  end.

(** The records hold, in the fields that [login] copies, what their
    interfaces declare: strings, and a boolean for [passwordChanged]. *)
Definition store_typed (env : Env) : Prop :=
  (forall a, dbGet_response env "users/admin" = Ok a ->
     string_or_absent (field a "id") /\ string_or_absent (field a "name"))
  /\ (forall c, dbGet_response env "teachers" = Ok c ->
     Forall (fun kv => string_or_absent (field (snd kv) "name")) (own_props c))
  /\ (forall c, dbGet_response env "students" = Ok c ->
     Forall (fun kv => string_or_absent (field (snd kv) "name")
                       /\ string_or_absent (field (snd kv) "classId")
                       /\ string_or_absent (field (snd kv) "className")
                       /\ bool_or_absent (field (snd kv) "passwordChanged"))
            (own_props c)).

(** *** Well-formed sessions *)

Definition is_string (v : value) : bool :=
  match v with
  | Some (JStr _) => true
  | _ => false
  end.

(** The property holds a value: it is neither absent nor [null]. *)
Definition populated (u : json) (k : string) : bool :=
  match field u k with
  | None | Some JNull => false
  | Some _ => true
  end.

(** The role decides which of the class fields a session carries:
    [classId] and [className] for a student, [assignedClassIds] for a
    supervisor, none of them for an admin or a teacher. *)
Definition role_fields_ok (u : json) : bool :=
  match field u "role" with
  | Some (JStr r) =>
      if (r =? "admin") || (r =? "teacher") then
        negb (populated u "classId") && negb (populated u "className")
        && negb (populated u "assignedClassIds")
      else if r =? "student" then
        populated u "classId" && populated u "className"
        && negb (populated u "assignedClassIds")
      else if r =? "supervisor" then
        populated u "assignedClassIds"
        && negb (populated u "classId") && negb (populated u "className")
      else false
  | _ => false
  end.

Definition well_formed_session (u : json) : bool :=
  match u with
  | JObj _ =>
      is_string (field u "id") && is_string (field u "username")
      && is_string (field u "name") && role_fields_ok u
  | _ => false
  end.

(** The session a successful [login] installs, by the collection that
    matched. *)
Inductive installed_by (env : Env) (username password : string) : json -> Prop :=
| by_admin k a :
    probe_admin env username password = Found k a ->
    installed_by env username password (admin_user a)
| by_teacher key t :
    probe_admin env username password = NotFound ->
    probe env "teachers" username password = Found key t ->
    installed_by env username password (teacher_user key t)
| by_student key s :
    probe_admin env username password = NotFound ->
    probe env "teachers" username password = NotFound ->
    probe env "students" username password = Found key s ->
    installed_by env username password (student_user key s).


(** *** Objects *)

(** The value a list of definitions gives to [k], the last one winning. *)
Fixpoint supplied (k : string) (kvs : list (string * value)) : option value :=
  match kvs with
  | [] => None
  | (k', v) :: rest =>
      match supplied k rest with
      | Some x => Some x
      | None => if k =? k' then Some v else None
      end
  end.

(** *** The decision table, piece by piece *)

(** The outcome of a scan, in the shape in which [login] consumes it. *)
Definition scan_outcome (env : Env) (username password : string)
  (user_of : string -> json -> json)
  (entries : list (string * json)) (w : World) : exc (option LoginResult) * World :=
  match find_match username password entries with
  | Found key r =>
      if setItem_throws env
      then (Throw QuotaExceededError, with_user (user_of key r) w)
      else (Ok (Some login_ok),
            with_slot (Some (JSON.stringify (user_of key r)))
              (with_user (user_of key r) w))
  | NotFound => (Ok None, w)
  | Faulted => (Throw TypeError, w)
  end.

(** The students collection, probed last. *)
Definition students_table (env : Env) (username password : string) (w : World)
  : exc LoginResult * World :=
  match probe env "students" username password with
  | Found key s => finish env (student_user key s) (with_reads ["students"] w)
  | Faulted => (Ok login_failed, with_reads ["students"] w)
  | NotFound => (Ok invalid_credentials, with_reads ["students"] w)
  end.

(** The teachers collection, probed second, then the students. *)
Definition teachers_table (env : Env) (username password : string) (w : World)
  : exc LoginResult * World :=
  match probe env "teachers" username password with
  | Found key t => finish env (teacher_user key t) (with_reads ["teachers"] w)
  | Faulted => (Ok login_failed, with_reads ["teachers"] w)
  | NotFound => students_table env username password (with_reads ["teachers"] w)
  end.

(** *** JSON texts *)

Import JSON.

(** The code units that reading back an escaped character yields:
    control characters without a short escape come back through [\u]. *)
Definition char_units (c : ascii) : list code_unit :=
  let n := N_of_ascii c in
  if ((n <? 32) && negb ((n =? 8) || (n =? 9) || (n =? 10) || (n =? 12) || (n =? 13)))%N
  then [Esc n] else [Raw c].

Fixpoint escaped_units (s : string) : list code_unit :=
  match s with
  | EmptyString => []
  | String c r => char_units c ++ escaped_units r
  end.

(** Values written without nesting and without numerals. *)
Definition flat (v : json) : bool :=
  match v with
  | JNull | JBool _ | JStr _ => true
  | _ => false
  end.

(** One member of an object, as [stringify] writes it. *)
Definition member_text (kv : string * json) : string :=
  quote (fst kv) +++ ":" +++ stringify (snd kv).

Definition define (acc : list (string * json)) (kv : string * json)
  : list (string * json) :=
  obj_set (fst kv) (snd kv) acc.

Definition all_flat (props : list (string * json)) : Prop :=
  Forall (fun kv => flat (snd kv) = true) props.

(** One level of the parser, over whatever reads the nested values. *)
Definition value_step
  (members : list (string * json) -> string -> option (json * string))
  (elements : list json -> string -> option (json * string))
  (s : string) : option (json * string) :=
  match skip_ws s with
  | EmptyString => None
  | String c r =>
      let k := N_of_ascii c in
      if (k =? 123)%N then
        match skip_ws r with
        | EmptyString => None
        | String c2 r2 =>
            if (N_of_ascii c2 =? 125)%N then Some (JObj [], r2)
            else members [] r
        end
      else if (k =? 91)%N then
        match skip_ws r with
        | EmptyString => None
        | String c2 r2 =>
            if (N_of_ascii c2 =? 93)%N then Some (JArr [], r2)
            else elements [] r
        end
      else if (k =? 34)%N then
        match parse_string r with
        | Some (t, r') => Some (JStr t, r')
        | None => None
        end
      else parse_literal (String c r)
  end.

Definition members_step
  (value : string -> option (json * string))
  (members : list (string * json) -> string -> option (json * string))
  (acc : list (string * json)) (s : string) : option (json * string) :=
  match skip_ws s with
  | EmptyString => None
  | String c r =>
      if (N_of_ascii c =? 34)%N then
        match parse_string r with
        | None => None
        | Some (key, r1) =>
            match skip_ws r1 with
            | EmptyString => None
            | String c1 r2 =>
                if (N_of_ascii c1 =? 58)%N then
                  match value r2 with
                  | None => None
                  | Some (v, r3) =>
                      let acc' := obj_set key v acc in
                      match skip_ws r3 with
                      | EmptyString => None
                      | String c3 r4 =>
                          if (N_of_ascii c3 =? 44)%N then members acc' r4
                          else if (N_of_ascii c3 =? 125)%N then Some (JObj acc', r4)
                          else None
                      end
                  end
                else None
            end
        end
      else None
  end.

Definition elements_step
  (value : string -> option (json * string))
  (elements : list json -> string -> option (json * string))
  (acc : list json) (s : string) : option (json * string) :=
  match value s with
  | None => None
  | Some (v, r) =>
      match skip_ws r with
      | EmptyString => None
      | String c r' =>
          if (N_of_ascii c =? 44)%N then elements (acc ++ [v]) r'
          else if (N_of_ascii c =? 93)%N then Some (JArr (acc ++ [v]), r')
          else None
      end
  end.

(** A result of a parser does not depend on the fuel, as soon as the
    fuel covers the characters it consumed. *)
Definition settled {A : Type} (parser : nat -> A -> string -> option (json * string))
  (n : nat) : Prop :=
  forall a s v r,
    parser n a s = Some (v, r) ->
    String.length r < String.length s
    /\ forall m, String.length s - String.length r <= m ->
                 parser m a s = Some (v, r).

(** *** Order *)

(** Ordered by a key, largest first. *)
Definition key_desc {A : Type} (key : A -> Z) (a b : A) : Prop := (key b <= key a)%Z.

(** The callback's answer as [filter] reads it. *)
Definition keeps {A : Type} (p : A -> exc value) (x : A) : bool :=
  match p x with
  | Ok v => truthy_v v
  | Throw _ => false
  end.

(** Order-preserving selection. *)
Inductive subsequence {A : Type} : list A -> list A -> Prop :=
| sub_nil : subsequence [] []
| sub_keep x l1 l2 : subsequence l1 l2 -> subsequence (x :: l1) (x :: l2)
| sub_drop x l1 l2 : subsequence l1 l2 -> subsequence l1 (x :: l2).

End Spec.

(** ** A small school, for the concrete runs *)

Module School.
Import JS Auth.

Definition admin_record : json :=
  JObj [("id", JStr "admin"); ("username", JStr "root");
        ("password", JStr "pw"); ("name", JStr "Root")].

Definition teachers : json :=
  JObj [("t1", JObj [("username", JStr "ann"); ("password", JStr "x");
                     ("name", JStr "Ann"); ("subject", JStr "Maths")]);
        ("t2", JObj [("username", JStr "root"); ("password", JStr "pw");
                     ("name", JStr "Shadow"); ("subject", JStr "Art")])].

Definition students : json :=
  JObj [("s1", JObj [("username", JStr "bob"); ("password", JStr "b0b");
                     ("name", JStr "Bob"); ("classId", JStr "c1");
                     ("className", JStr "Grade 1")]);
        ("s2", JObj [("username", JStr "eve"); ("password", JStr "e");
                     ("name", JStr "Eve"); ("classId", JStr "c2");
                     ("className", JStr "Grade 2");
                     ("passwordChanged", JBool true)])].

Definition store (path : string) : exc json :=
  if path =? "users/admin" then Ok admin_record
  else if path =? "teachers" then Ok teachers
  else if path =? "students" then Ok students
  else Ok JNull.

(** The store with a browser that accepts writes to [localStorage]. *)
Definition env : Env := {| dbGet_response := store; setItem_throws := false |}.

(** The same store with a browser whose [localStorage] refuses writes. *)
Definition env_storage_full : Env :=
  {| dbGet_response := store; setItem_throws := true |}.

(** The world after Ann, a teacher, has logged in. *)
Definition ann_logged_in : World :=
  snd (login env "ann" "x" (initial_world None)).


(** The world after Bob, a student, has logged in. *)
Definition bob_logged_in : World :=
  snd (login env "bob" "b0b" (initial_world None)).

Definition supervisor : json :=
  JObj [("id", JStr "sv1"); ("username", JStr "sue"); ("name", JStr "Sue");
        ("role", JStr "supervisor");
        ("assignedClassIds", JArr [JStr "c1"; JStr "c3"])].

(** A snapshot whose entries name classes [c1], [c2] and a class [c9]
    that no collection holds. *)
Definition some_announcements : json :=
  JObj [("a1", JObj [("title", JStr "Welcome"); ("createdAt", JStr "2024-01-01")]);
        ("a2", JObj [("title", JStr "Trip"); ("createdAt", JStr "2024-03-01");
                     ("classId", JStr "c1")]);
        ("a3", JObj [("title", JStr "Exam"); ("createdAt", JStr "2024-02-01");
                     ("classId", JStr "c2")]);
        ("a4", JObj [("title", JStr "Lost"); ("createdAt", JStr "2024-02-02");
                     ("classId", JStr "c9")])].

(** The snapshot of the third property of the specification: three
    announcements for everyone, created in January, March and February. *)
Definition three_announcements : json :=
  JObj [("a1", JObj [("title", JStr "first"); ("createdAt", JStr "2024-01-01")]);
        ("a2", JObj [("title", JStr "second"); ("createdAt", JStr "2024-03-01")]);
        ("a3", JObj [("title", JStr "third"); ("createdAt", JStr "2024-02-01")])].

End School.

(** ** Vocabulary of the further properties *)

Module Further.
Import JS Auth Dashboard Spec.

(** Some record of the store carries exactly this user name and this
    password, as strings: the admin record, or an entry of the teachers
    or of the students collection. *)
Definition holds_credentials (env : Env) (username password : string) : Prop :=
  (exists a, dbGet_response env "users/admin" = Ok a
             /\ field a "username" = Some (JStr username)
             /\ field a "password" = Some (JStr password))
  \/ (exists path c key r,
        (path = "teachers" \/ path = "students")
        /\ dbGet_response env path = Ok c
        /\ In (key, r) (own_props c)
        /\ field r "username" = Some (JStr username)
        /\ field r "password" = Some (JStr password)).

(** [updateUser({passwordChanged: true})] *)
Definition password_changed : list (string * value) :=
  [("passwordChanged", Some (JBool true))].

(** Two arrays hold the same values. *)
Definition same_elements (l l' : list json) : Prop :=
  forall x, In x l <-> In x l'.

End Further.

(** ** Vocabulary of the properties of the forms *)

Module PanelSpec.
Import JS Dashboard Spec Panel.

(** The first entity whose [id] is exactly the given string. *)
Fixpoint first_with_id (id : string) (l : list json) : option json :=
  match l with
  | [] => None
  | x :: rest =>
      if strict_eq_str (field x "id") id then Some x else first_with_id id rest
  end.

(** The name the handlers write beside an id: the [name] of the first
    entity with that id, or ['Unassigned'] when there is no such entity or
    its name is falsy. *)
Definition resolved_name (id : string) (l : list json) : value :=
  or_unassigned (match first_with_id id l with
                 | Some x => field x "name"
                 | None => None
                 end).

(** The author the announcement handler writes. *)
Definition author_text (user : json) : string :=
  "Supervisor (" +++ to_string_v (field user "name") +++ ")".

(** The state after further calls to [dbPush]. *)
Definition pushed (l : list (string * value)) (d : Dash) : Dash :=
  {| teachers := teachers d; classes := classes d; students := students d;
     announcements := announcements d; showPanel := showPanel d;
     newTeacher := newTeacher d; newClass := newClass d;
     newStudent := newStudent d; newAnnouncement := newAnnouncement d;
     toasts := toasts d; db_pushes := db_pushes d ++ l |}.

(** The state after one more toast. *)
Definition toasted (t : Toast) (d : Dash) : Dash :=
  {| teachers := teachers d; classes := classes d; students := students d;
     announcements := announcements d; showPanel := showPanel d;
     newTeacher := newTeacher d; newClass := newClass d;
     newStudent := newStudent d; newAnnouncement := newAnnouncement d;
     toasts := toasts d ++ [t]; db_pushes := db_pushes d |}.

(** The state once a handler has finished: its form is empty again, the
    panel is closed and the success toast is up. *)
Definition teacher_done (d : Dash) : Dash :=
  {| teachers := teachers d; classes := classes d; students := students d;
     announcements := announcements d; showPanel := None;
     newTeacher := empty_teacher; newClass := newClass d;
     newStudent := newStudent d; newAnnouncement := newAnnouncement d;
     toasts := toasts d ++ [success_toast "Teacher added successfully"];
     db_pushes := db_pushes d |}.

Definition class_done (d : Dash) : Dash :=
  {| teachers := teachers d; classes := classes d; students := students d;
     announcements := announcements d; showPanel := None;
     newTeacher := newTeacher d; newClass := empty_class;
     newStudent := newStudent d; newAnnouncement := newAnnouncement d;
     toasts := toasts d ++ [success_toast "Class created and assigned to you"];
     db_pushes := db_pushes d |}.

Definition student_done (d : Dash) : Dash :=
  {| teachers := teachers d; classes := classes d; students := students d;
     announcements := announcements d; showPanel := None;
     newTeacher := newTeacher d; newClass := newClass d;
     newStudent := empty_student; newAnnouncement := newAnnouncement d;
     toasts := toasts d ++ [success_toast "Student enrolled successfully"];
     db_pushes := db_pushes d |}.

Definition announcement_done (d : Dash) : Dash :=
  {| teachers := teachers d; classes := classes d; students := students d;
     announcements := announcements d; showPanel := None;
     newTeacher := newTeacher d; newClass := newClass d;
     newStudent := newStudent d; newAnnouncement := empty_announcement;
     toasts := toasts d ++ [success_toast "Announcement posted to class"];
     db_pushes := db_pushes d |}.

(** What the handlers push, read off the forms. *)
Definition class_pushed (remote : Remote) (d : Dash) : json :=
  class_payload remote (newClass d)
    (resolved_name (cf_teacherId (newClass d)) (teachers d)).

Definition student_pushed (remote : Remote) (d : Dash) : json :=
  student_payload remote (newStudent d)
    (resolved_name (sf_classId (newStudent d)) (classes d)).

Definition announcement_pushed (remote : Remote) (user : json) (d : Dash) : json :=
  announcement_payload remote (newAnnouncement d) (author_text user).

(** The forms with every required field filled. *)
Definition teacher_complete (f : TeacherForm) : Prop :=
  tf_name f <> "" /\ tf_username f <> "" /\ tf_password f <> "" /\ tf_subject f <> "".

Definition class_complete (f : ClassForm) : Prop :=
  cf_name f <> "" /\ cf_grade f <> "" /\ cf_teacherId f <> "".

Definition student_complete (f : StudentForm) : Prop :=
  sf_name f <> "" /\ sf_username f <> "" /\ sf_password f <> "" /\ sf_classId f <> "".

Definition announcement_complete (f : AnnouncementForm) : Prop :=
  af_title f <> "" /\ af_content f <> "" /\ af_classId f <> "".

(** The lists hold entities, as the listeners build them: no [null]. *)
Definition no_null (l : list json) : Prop := Forall (fun x => x <> JNull) l.

(** The state with the announcements the listener handed over. *)
Definition with_announcements (l : list json) (d : Dash) : Dash :=
  {| teachers := teachers d; classes := classes d; students := students d;
     announcements := l; showPanel := showPanel d;
     newTeacher := newTeacher d; newClass := newClass d;
     newStudent := newStudent d; newAnnouncement := newAnnouncement d;
     toasts := toasts d; db_pushes := db_pushes d |}.

(** A remote store that accepts every push and answers with one key, at
    a fixed time of day. *)
Definition accepting : Remote :=
  {| dbPush_response := fun _ _ => Ok (Some (JObj [("name", JStr "-Nk1")]));
     now := "2024-05-01T08:30:00.000Z" |}.

(** A remote store that rejects every push. *)
Definition rejecting : Remote :=
  {| dbPush_response := fun _ _ => Throw StoreError;
     now := "2024-05-01T08:30:00.000Z" |}.

(** A remote store that accepts the class and rejects its assignment. *)
Definition half_accepting : Remote :=
  {| dbPush_response := fun path _ =>
       if path =? "classes" then Ok (Some (JObj [("name", JStr "-Nk1")]))
       else Throw StoreError;
     now := "2024-05-01T08:30:00.000Z" |}.

(** A dashboard with one teacher, one visible class, and the four forms
    filled in. *)
Definition filled : Dash :=
  {| teachers := [JObj [("id", JStr "t1"); ("name", JStr "Ann")]];
     classes := [JObj [("id", JStr "c1"); ("name", JStr "Grade 1")]];
     students := []; announcements := [];
     showPanel := Some "class";
     newTeacher := {| tf_name := "Tom"; tf_username := "tom";
                      tf_password := "t0m"; tf_subject := "Art" |};
     newClass := {| cf_name := "Grade 2"; cf_grade := "2"; cf_teacherId := "t1" |};
     newStudent := {| sf_name := "Zoe"; sf_username := "zoe";
                      sf_password := "z"; sf_classId := "c1" |};
     newAnnouncement := {| af_title := "Trip"; af_content := "Friday";
                           af_priority := "normal"; af_classId := "c1" |};
     toasts := []; db_pushes := [] |}.

(** A snapshot of six announcements, five of which the supervisor of the
    examples sees. *)
Definition six_announcements : json :=
  JObj [("a1", JObj [("title", JStr "Welcome"); ("createdAt", JStr "2024-01-01")]);
        ("a2", JObj [("title", JStr "Trip"); ("createdAt", JStr "2024-03-01");
                     ("classId", JStr "c1")]);
        ("a3", JObj [("title", JStr "Exam"); ("createdAt", JStr "2024-02-01");
                     ("classId", JStr "c2")]);
        ("a4", JObj [("title", JStr "Fair"); ("createdAt", JStr "2024-02-02");
                     ("classId", JStr "c3")]);
        ("a5", JObj [("title", JStr "Play"); ("createdAt", JStr "2024-04-01")]);
        ("a6", JObj [("title", JStr "Choir"); ("createdAt", JStr "2023-12-01");
                     ("classId", JStr "c1")])].

End PanelSpec.

Import JS Auth Dashboard Spec Further.
Local Open Scope auth_scope.

(** ** The monadic code against its decision table *)

Section LoginRefinement.

Variable env : Env.
Variables username password : string.

Lemma credentials_match_run (r : json) (w : World) :
  r <> JNull ->
  credentials_match r username password w = (Ok (matches r username password), w).
Proof.
  intros Hr. unfold credentials_match, matches, field, bind, lift, ret.
  destruct r; try congruence; simpl;
    try reflexivity.
  destruct (strict_eq_str (lookup "username" props) username); reflexivity.
Qed.

Lemma credentials_match_null (w : World) :
  credentials_match JNull username password w = (Throw TypeError, w).
Proof. reflexivity. Qed.

Lemma admin_session_run (a : json) (w : World) :
  a <> JNull -> admin_session a w = (Ok (admin_user a), w).
Proof. intros Ha. destruct a; try congruence; reflexivity. Qed.

Lemma teacher_session_run (key : string) (t : json) (w : World) :
  t <> JNull -> teacher_session key t w = (Ok (teacher_user key t), w).
Proof. intros Ht. destruct t; try congruence; reflexivity. Qed.

Lemma student_session_run (key : string) (s : json) (w : World) :
  s <> JNull -> student_session key s w = (Ok (student_user key s), w).
Proof. intros Hs. destruct s; try congruence; reflexivity. Qed.

Lemma truthy_not_null (v : json) : truthy v = true -> v <> JNull.
Proof. destruct v; simpl; congruence. Qed.


Lemma null_or_not (r : json) : r = JNull \/ r <> JNull.
Proof. destruct r; (left; reflexivity) || (right; discriminate). Qed.

Lemma find_match_cons (key : string) (r : json) (rest : list (string * json)) :
  r <> JNull ->
  find_match username password ((key, r) :: rest)
  = if matches r username password then Found key r
    else find_match username password rest.
Proof. intros Hr. destruct r; try congruence; reflexivity. Qed.

Lemma install_run (userData : json) (w : World) :
  install env userData w
  = if setItem_throws env
    then (Throw QuotaExceededError, with_user userData w)
    else (Ok tt, with_slot (Some (JSON.stringify userData)) (with_user userData w)).
Proof.
  unfold install, bind, setUser, setItem, with_user, with_slot. simpl.
  destruct (setItem_throws env); reflexivity.
Qed.

Lemma scan_run (session : string -> json -> M json) (user_of : string -> json -> json)
  (Hsession : forall key r w, r <> JNull -> session key r w = (Ok (user_of key r), w))
  (entries : list (string * json)) (w : World) :
  scan env session username password entries w
  = scan_outcome env username password user_of entries w.
Proof.
  unfold scan_outcome.
  induction entries as [|[key r] rest IH]; [reflexivity|].
  destruct (null_or_not r) as [->|Hr]; [reflexivity|].
  rewrite (find_match_cons key r rest Hr).
  cbn [scan]. unfold bind at 1.
  rewrite (credentials_match_run r w Hr).
  destruct (matches r username password).
  - unfold bind. rewrite (Hsession key r w Hr), install_run.
    destruct (setItem_throws env); reflexivity.
  - exact IH.
Qed.

Lemma dbGet_run (path : string) (w : World) :
  dbGet env path w = (dbGet_response env path, with_reads [path] w).
Proof. reflexivity. Qed.

Lemma with_reads_app (p q : list string) (w : World) :
  with_reads q (with_reads p w) = with_reads (p ++ q) w.
Proof. unfold with_reads. simpl. rewrite <- app_assoc. reflexivity. Qed.

Lemma scan_collection_run (session : string -> json -> M json)
  (user_of : string -> json -> json)
  (Hsession : forall key r w, r <> JNull -> session key r w = (Ok (user_of key r), w))
  (c : json) (w : World) :
  scan_collection env session username password c w
  = if truthy c then scan_outcome env username password user_of (own_props c) w
    else (Ok None, w).
Proof.
  unfold scan_collection. destruct (truthy c); [|reflexivity].
  apply scan_run, Hsession.
Qed.


Lemma students_run (w : World) :
  try_catch
    (students <- dbGet env "students" ;;
     found' <- scan_collection env student_session username password students ;;
     match found' with
     | Some r => ret r
     | None => ret invalid_credentials
     end) (fun _ => ret login_failed) w
  = students_table env username password w.
Proof.
  unfold students_table, probe, try_catch.
  unfold bind at 1. rewrite dbGet_run.
  destruct (dbGet_response env "students") as [c|e]; [|reflexivity].
  unfold bind.
  rewrite (scan_collection_run student_session student_user student_session_run).
  destruct (truthy c); [|reflexivity].
  unfold scan_outcome, finish.
  destruct (find_match username password (own_props c)); try reflexivity.
  destruct (setItem_throws env); reflexivity.
Qed.


Lemma teachers_run (w : World) :
  try_catch
    (teachers <- dbGet env "teachers" ;;
     found <- scan_collection env teacher_session username password teachers ;;
     match found with
     | Some r => ret r
     | None =>
         students <- dbGet env "students" ;;
         found' <- scan_collection env student_session username password students ;;
         match found' with
         | Some r => ret r
         | None => ret invalid_credentials
         end
     end) (fun _ => ret login_failed) w
  = teachers_table env username password w.
Proof.
  unfold teachers_table, probe.
  unfold try_catch. unfold bind at 1. rewrite dbGet_run.
  destruct (dbGet_response env "teachers") as [c|e]; [|reflexivity].
  unfold bind at 1.
  rewrite (scan_collection_run teacher_session teacher_user teacher_session_run).
  assert (Hmiss : forall w0,
    (let (e0, w') :=
       (students <- dbGet env "students" ;;
        found' <- scan_collection env student_session username password students ;;
        match found' with
        | Some r => ret r
        | None => ret invalid_credentials
        end) w0 in
     match e0 with
     | Ok a0 => (Ok a0, w')
     | Throw _ => ret login_failed w'
     end) = students_table env username password w0).
  { intros w0. rewrite <- students_run. reflexivity. }
  destruct (truthy c).
  - unfold scan_outcome, finish.
    destruct (find_match username password (own_props c)).
    + destruct (setItem_throws env); reflexivity.
    + apply Hmiss.
    + reflexivity.
  - apply Hmiss.
Qed.

(** [login] computes exactly its decision table. *)
Lemma login_run (w : World) :
  login env username password w = login_table env username password w.
Proof.
  assert (Htail : forall w0,
    (let (e0, w') :=
       (teachers <- dbGet env "teachers" ;;
        found <- scan_collection env teacher_session username password teachers ;;
        match found with
        | Some r => ret r
        | None =>
            students <- dbGet env "students" ;;
            found' <- scan_collection env student_session username password students ;;
            match found' with
            | Some r => ret r
            | None => ret invalid_credentials
            end
        end) w0 in
     match e0 with
     | Ok a0 => (Ok a0, w')
     | Throw _ => ret login_failed w'
     end) = teachers_table env username password w0).
  { intros w0. rewrite <- teachers_run. reflexivity. }
  assert (Htable : teachers_table env username password (with_reads ["users/admin"] w)
    = match probe env "teachers" username password with
      | Found key t =>
          finish env (teacher_user key t) (with_reads ["users/admin"; "teachers"] w)
      | Faulted => (Ok login_failed, with_reads ["users/admin"; "teachers"] w)
      | NotFound =>
          match probe env "students" username password with
          | Found key s =>
              finish env (student_user key s)
                (with_reads ["users/admin"; "teachers"; "students"] w)
          | Faulted =>
              (Ok login_failed, with_reads ["users/admin"; "teachers"; "students"] w)
          | NotFound =>
              (Ok invalid_credentials,
               with_reads ["users/admin"; "teachers"; "students"] w)
          end
      end).
  { unfold teachers_table, students_table.
    rewrite !with_reads_app. reflexivity. }
  unfold login, try_catch, login_body, login_table, probe_admin.
  unfold bind at 1. rewrite dbGet_run.
  destruct (dbGet_response env "users/admin") as [a|e]; [|reflexivity].
  unfold bind at 1.
  destruct (truthy a) eqn:Ta; cbn [andb].
  - rewrite (credentials_match_run a _ (truthy_not_null a Ta)).
    destruct (matches a username password).
    + unfold bind. rewrite (admin_session_run a _ (truthy_not_null a Ta)), install_run.
      unfold finish, ret. destruct (setItem_throws env); reflexivity.
    + rewrite <- Htable. apply Htail.
  - rewrite <- Htable. apply Htail.
Qed.

End LoginRefinement.

(** ** Objects: reading after defining *)

Section Objects.

Lemma has_key_lookup (k : string) (ps : list (string * json)) :
  has_key k ps = false <-> lookup k ps = None.
Proof.
  induction ps as [|[k' v'] rest IH]; simpl; [tauto|].
  destruct (k =? k'); simpl; [split; discriminate | exact IH].
Qed.

Lemma lookup_replace_key (k k' : string) (v : json) (ps : list (string * json)) :
  has_key k' ps = true ->
  lookup k (replace_key k' v ps) = if k =? k' then Some v else lookup k ps.
Proof.
  induction ps as [|[k1 v1] rest IH]; simpl; [discriminate|].
  destruct (k' =? k1) eqn:E1; simpl.
  - apply String.eqb_eq in E1; subst k1. intros _.
    destruct (k =? k'); reflexivity.
  - intros H. destruct (k =? k1) eqn:E2.
    + apply String.eqb_eq in E2; subst k1.
      rewrite String.eqb_sym, E1. reflexivity.
    + apply IH, H.
Qed.

Lemma lookup_insert_index (k k' : string) (n : N) (v : json) (ps : list (string * json)) :
  has_key k' ps = false ->
  lookup k (insert_index n k' v ps) = if k =? k' then Some v else lookup k ps.
Proof.
  induction ps as [|[k1 v1] rest IH]; simpl; [reflexivity|].
  destruct (k' =? k1) eqn:E1; simpl; [discriminate|]. intros H.
  assert (Hhead : lookup k ((k', v) :: (k1, v1) :: rest)
                  = if k =? k' then Some v else lookup k ((k1, v1) :: rest))
    by reflexivity.
  destruct (array_index k1) as [n'|]; [|exact Hhead].
  destruct (n <? n')%N; [exact Hhead|].
  simpl. destruct (k =? k1) eqn:E2.
  - apply String.eqb_eq in E2; subst k1.
    rewrite String.eqb_sym, E1. reflexivity.
  - apply IH, H.
Qed.

Lemma lookup_app_last (k k' : string) (v : json) (ps : list (string * json)) :
  has_key k' ps = false ->
  lookup k (ps ++ [(k', v)]) = if k =? k' then Some v else lookup k ps.
Proof.
  induction ps as [|[k1 v1] rest IH]; simpl; [reflexivity|].
  destruct (k' =? k1) eqn:E1; simpl; [discriminate|]. intros H.
  destruct (k =? k1) eqn:E2.
  - apply String.eqb_eq in E2; subst k1.
    rewrite String.eqb_sym, E1. reflexivity.
  - apply IH, H.
Qed.

Lemma lookup_obj_set (k k' : string) (v : json) (ps : list (string * json)) :
  lookup k (obj_set k' v ps) = if k =? k' then Some v else lookup k ps.
Proof.
  unfold obj_set. destruct (has_key k' ps) eqn:H.
  - apply lookup_replace_key, H.
  - destruct (array_index k').
    + apply lookup_insert_index, H.
    + apply lookup_app_last, H.
Qed.

Lemma lookup_remove_key (k k' : string) (ps : list (string * json)) :
  lookup k (remove_key k' ps) = if k =? k' then None else lookup k ps.
Proof.
  induction ps as [|[k1 v1] rest IH]; simpl.
  - destruct (k =? k'); reflexivity.
  - destruct (k' =? k1) eqn:E1.
    + apply String.eqb_eq in E1; subst k1. rewrite IH.
      destruct (k =? k'); reflexivity.
    + simpl. destruct (k =? k1) eqn:E2; [|exact IH].
      apply String.eqb_eq in E2; subst k1.
      rewrite String.eqb_sym, E1. reflexivity.
Qed.

Lemma lookup_obj_assign (k : string) (kv : string * value) (ps : list (string * json)) :
  lookup k (obj_assign ps kv) = if k =? fst kv then snd kv else lookup k ps.
Proof.
  destruct kv as [k' [v|]]; unfold obj_assign; simpl.
  - apply lookup_obj_set.
  - apply lookup_remove_key.
Qed.


Lemma lookup_fold_assign (k : string) (kvs : list (string * value))
  (ps : list (string * json)) :
  lookup k (fold_left obj_assign kvs ps)
  = match supplied k kvs with
    | Some x => x
    | None => lookup k ps
    end.
Proof.
  revert ps. induction kvs as [|[k' v] rest IH]; intros ps; simpl; [reflexivity|].
  rewrite IH. destruct (supplied k rest); [reflexivity|].
  rewrite lookup_obj_assign. simpl. destruct (k =? k'); reflexivity.
Qed.

Lemma supplied_app (k : string) (a b : list (string * value)) :
  supplied k (a ++ b)
  = match supplied k b with
    | Some x => Some x
    | None => supplied k a
    end.
Proof.
  induction a as [|[k' v] rest IH]; simpl.
  - destruct (supplied k b); reflexivity.
  - rewrite IH. destruct (supplied k b); reflexivity.
Qed.

Lemma supplied_as_values (k : string) (ps : list (string * json)) :
  NoDup (map fst ps) ->
  supplied k (as_values ps) = option_map Some (lookup k ps).
Proof.
  induction ps as [|[k' v] rest IH]; simpl; [reflexivity|].
  intros Hnd. inversion Hnd as [|? ? Hnotin Hnd']; subst.
  rewrite (IH Hnd').
  destruct (k =? k') eqn:E.
  - apply String.eqb_eq in E; subst k'.
    assert (Hnone : lookup k rest = None).
    { clear - Hnotin. induction rest as [|[k1 v1] r IHr]; simpl; [reflexivity|].
      destruct (k =? k1) eqn:E1.
      - apply String.eqb_eq in E1; subst k1. exfalso. apply Hnotin. left. reflexivity.
      - apply IHr. intros Hin. apply Hnotin. right. exact Hin. }
    rewrite Hnone. reflexivity.
  - destruct (lookup k rest); reflexivity.
Qed.









End Objects.

(** ** JSON: reading back what was written *)

Section JsonRoundTrip.
Import JSON.

Lemma append_assoc (a b c : string) : (a +++ b) +++ c = a +++ (b +++ c).
Proof. induction a as [|x a IH]; simpl; [reflexivity|]. rewrite IH. reflexivity. Qed.

Lemma length_append (a b : string) :
  String.length (a +++ b) = String.length a + String.length b.
Proof. induction a as [|x a IH]; simpl; [reflexivity|]. rewrite IH. reflexivity. Qed.


Lemma parse_chars_escape_char (c : ascii) (t : string) :
  parse_chars (escape_char c +++ t)
  = match parse_chars t with
    | Some (l, r) => Some (char_units c ++ l, r)
    | None => None
    end.
Proof. destruct c as [[] [] [] [] [] [] [] []]; reflexivity. Qed.

Lemma text_of_char_units (c : ascii) (l : list code_unit) :
  text_of_units (char_units c ++ l) = String c (text_of_units l).
Proof.
  destruct c as [[] [] [] [] [] [] [] []]; try reflexivity;
    destruct l as [|[c'|u] l']; reflexivity.
Qed.

Lemma text_of_escaped_units (s : string) : text_of_units (escaped_units s) = s.
Proof.
  induction s as [|c r IH]; simpl; [reflexivity|].
  rewrite text_of_char_units, IH. reflexivity.
Qed.

Lemma parse_chars_escape (s rest : string) :
  parse_chars (escape s +++ String dquote rest) = Some (escaped_units s, rest).
Proof.
  induction s as [|c r IH]; [reflexivity|].
  cbn [escape escaped_units]. rewrite append_assoc, parse_chars_escape_char, IH.
  reflexivity.
Qed.

(** A quoted string reads back as the string. *)
Lemma parse_string_quote (s rest : string) :
  parse_string (escape s +++ String dquote rest) = Some (s, rest).
Proof.
  unfold parse_string. rewrite parse_chars_escape, text_of_escaped_units.
  reflexivity.
Qed.

Lemma quote_append (s rest : string) :
  quote s +++ rest = String dquote (escape s +++ String dquote rest).
Proof. unfold quote. simpl. rewrite append_assoc. reflexivity. Qed.

Lemma parse_value_string (n : nat) (t : string) :
  parse_value (S n) (String dquote t)
  = match parse_string t with
    | Some (x, r) => Some (JStr x, r)
    | None => None
    end.
Proof. reflexivity. Qed.


Lemma parse_value_flat (v : json) (n : nat) (rest : string) :
  flat v = true ->
  parse_value (S n) (stringify v +++ rest) = Some (v, rest).
Proof.
  destruct v as [|[]| | s | |]; try discriminate; intros _; try reflexivity.
  cbn [stringify]. rewrite quote_append, parse_value_string, parse_string_quote.
  reflexivity.
Qed.


Lemma parse_members_step (n : nat) (acc : list (string * json))
  (kv : string * json) (tail : string) :
  flat (snd kv) = true ->
  parse_members (S (S n)) acc (member_text kv +++ tail)
  = match skip_ws tail with
    | EmptyString => None
    | String c r =>
        if (N_of_ascii c =? 44)%N then parse_members (S n) (define acc kv) r
        else if (N_of_ascii c =? 125)%N then Some (JObj (define acc kv), r)
        else None
    end.
Proof.
  intros Hflat. destruct kv as [k v]. unfold member_text, define. cbn [fst snd] in *.
  rewrite append_assoc, quote_append.
  change (parse_members (S (S n)) acc (String dquote ?t))
    with (match parse_string t with
          | None => None
          | Some (key, r1) =>
              match skip_ws r1 with
              | EmptyString => None
              | String c1 r2 =>
                  if (N_of_ascii c1 =? 58)%N then
                    match parse_value (S n) r2 with
                    | None => None
                    | Some (v, r3) =>
                        let acc' := obj_set key v acc in
                        match skip_ws r3 with
                        | EmptyString => None
                        | String c3 r4 =>
                            if (N_of_ascii c3 =? 44)%N then parse_members (S n) acc' r4
                            else if (N_of_ascii c3 =? 125)%N then Some (JObj acc', r4)
                            else None
                        end
                    end
                  else None
              end
          end).
  rewrite parse_string_quote.
  rewrite append_assoc.
  change (skip_ws (":" +++ ?t)) with (String ":" t).
  cbv iota beta.
  change (N_of_ascii ":" =? 58)%N with true. cbv iota.
  rewrite (parse_value_flat v n tail Hflat).
  reflexivity.
Qed.


Lemma parse_members_flat (props : list (string * json)) :
  props <> [] -> all_flat props ->
  forall (n : nat) (acc : list (string * json)) (rest : string),
    List.length props <= n ->
    parse_members (S n) acc
      (String.concat "," (map member_text props) +++ String "}" rest)
    = Some (JObj (fold_left define props acc), rest).
Proof.
  induction props as [|kv [|kv2 more] IH]; intros Hne Hflat n acc rest Hn.
  - congruence.
  - inversion Hflat as [|? ? Hkv _]; subst.
    destruct n as [|n]; [simpl in Hn; lia|].
    cbn [map String.concat]. rewrite (parse_members_step n acc kv _ Hkv).
    reflexivity.
  - inversion Hflat as [|? ? Hkv Hrest]; subst.
    destruct n as [|n]; [simpl in Hn; lia|].
    change (String.concat "," (map member_text (kv :: kv2 :: more)))
      with (member_text kv +++ "," +++ String.concat "," (map member_text (kv2 :: more))).
    rewrite !append_assoc.
    rewrite (parse_members_step n acc kv _ Hkv).
    change (skip_ws ("," +++ ?t)) with (String "," t).
    cbv iota beta. change (N_of_ascii "," =? 44)%N with true. cbv iota.
    rewrite (IH ltac:(discriminate) Hrest n (define acc kv) rest
               ltac:(simpl in *; lia)).
    reflexivity.
Qed.

Lemma member_text_cons (kv : string * json) :
  exists t, member_text kv = String dquote t.
Proof. unfold member_text, quote. simpl. eexists. reflexivity. Qed.

Lemma length_members (props : list (string * json)) :
  List.length props <= String.length (String.concat "," (map member_text props)).
Proof.
  induction props as [|kv [|kv2 more] IH]; [simpl; lia| |].
  - destruct (member_text_cons kv) as [t Ht]. cbn [map String.concat].
    rewrite Ht. simpl. lia.
  - change (String.concat "," (map member_text (kv :: kv2 :: more)))
      with (member_text kv +++ "," +++ String.concat "," (map member_text (kv2 :: more))).
    remember (String.concat "," (map member_text (kv2 :: more))) as body eqn:Eb.
    destruct (member_text_cons kv) as [t Ht]. rewrite Ht.
    rewrite !length_append. cbn [List.length String.length] in *. lia.
Qed.

(** A non-empty object of flat values reads back as the object that
    defining its properties in order builds. *)
Lemma parse_stringify_flat_object (props : list (string * json)) :
  props <> [] -> all_flat props ->
  parse (stringify (JObj props)) = Ok (JObj (fold_left define props [])).
Proof.
  intros Hne Hflat. unfold parse.
  change (stringify (JObj props))
    with (String "{" (String.concat "," (map member_text props) +++ "}")).
  set (body := String.concat "," (map member_text props) +++ "}").
  assert (Hstart : exists t, body = String dquote t).
  { unfold body. destruct props as [|kv [|kv2 more]]; [congruence| |].
    - destruct (member_text_cons kv) as [t Ht]. cbn [map String.concat].
      rewrite Ht. eexists. reflexivity.
    - change (String.concat "," (map member_text (kv :: kv2 :: more)))
        with (member_text kv +++ "," +++ String.concat "," (map member_text (kv2 :: more))).
      destruct (member_text_cons kv) as [t Ht]. rewrite Ht. eexists. reflexivity. }
  assert (Hlen : List.length props <= String.length body - 1).
  { unfold body. rewrite length_append. pose proof (length_members props).
    simpl String.length. lia. }
  destruct Hstart as [t Ht].
  assert (Hbody : parse_members (String.length (String "{" body)) [] body
                  = Some (JObj (fold_left define props []), "")).
  { cbn [String.length].
    destruct (String.length body) as [|n] eqn:En.
    - rewrite Ht in En. discriminate.
    - unfold body. apply parse_members_flat; [exact Hne | exact Hflat | lia]. }
  change (parse_value (S (String.length (String "{" body))) (String "{" body))
    with (match skip_ws body with
          | EmptyString => None
          | String c2 r2 =>
              if (N_of_ascii c2 =? 125)%N then Some (JObj [], r2)
              else parse_members (String.length (String "{" body)) [] body
          end).
  rewrite Ht at 1.
  change (skip_ws (String dquote t)) with (String dquote t).
  cbv iota. change (N_of_ascii dquote =? 125)%N with false. cbv iota.
  rewrite Hbody. reflexivity.
Qed.

End JsonRoundTrip.

(** ** JSON: the fuel of the parser *)

Section ParserFuel.
Import JSON.

Lemma parse_value_S (n : nat) (s : string) :
  parse_value (S n) s = value_step (parse_members n) (parse_elements n) s.
Proof. reflexivity. Qed.

Lemma parse_members_S (n : nat) (acc : list (string * json)) (s : string) :
  parse_members (S n) acc s = members_step (parse_value n) (parse_members n) acc s.
Proof. reflexivity. Qed.

Lemma parse_elements_S (n : nat) (acc : list json) (s : string) :
  parse_elements (S n) acc s = elements_step (parse_value n) (parse_elements n) acc s.
Proof. reflexivity. Qed.

Lemma skip_ws_length (s : string) : String.length (skip_ws s) <= String.length s.
Proof.
  induction s as [|c r IH]; simpl; [lia|].
  destruct (is_ws c); simpl; lia.
Qed.

Lemma skip_ws_cons (s : string) (c : ascii) (r : string) :
  skip_ws s = String c r -> String.length r < String.length s.
Proof.
  intros H. pose proof (skip_ws_length s) as Hl. rewrite H in Hl. simpl in Hl. lia.
Qed.

Lemma cons_unit_Some (x : code_unit) (q : option (list code_unit * string))
  (l : list code_unit) (r : string) :
  cons_unit x q = Some (l, r) -> exists l', q = Some (l', r).
Proof.
  destruct q as [[l' t]|]; simpl; [|discriminate].
  intros H. inversion H; subst. exists l'. reflexivity.
Qed.

Lemma parse_chars_length (s : string) :
  forall l r, parse_chars s = Some (l, r) -> String.length r < String.length s.
Proof.
  induction s as [s IH] using (well_founded_induction
    (Wf_nat.well_founded_ltof _ String.length)).
  unfold Wf_nat.ltof in IH.
  intros l r H. destruct s as [|c t]; [discriminate|].
  cbn [parse_chars] in H.
  destruct (N_of_ascii c =? 34)%N.
  { inversion H; subst. simpl. lia. }
  destruct (N_of_ascii c <? 32)%N; [discriminate|].
  destruct (N_of_ascii c =? 92)%N.
  2:{ apply cons_unit_Some in H. destruct H as [l' H].
      apply IH in H; simpl in *; lia. }
  destruct t as [|e r1]; [discriminate|].
  assert (Hsimple : forall x, cons_unit x (parse_chars r1) = Some (l, r) ->
                    String.length r < String.length (String c (String e r1))).
  { intros x Hx. apply cons_unit_Some in Hx. destruct Hx as [l' Hx].
    apply IH in Hx; simpl in *; lia. }
  repeat match type of H with
         | (if ?b then _ else _) = _ => destruct b; [eapply Hsimple; exact H|]
         end.
  destruct (N_of_ascii e =? 117)%N; [|discriminate].
  destruct r1 as [|h1 [|h2 [|h3 [|h4 r5]]]]; try discriminate.
  destruct (hex4 h1 h2 h3 h4); [|discriminate].
  apply cons_unit_Some in H. destruct H as [l' H].
  apply IH in H; simpl in *; lia.
Qed.

Lemma parse_string_length (s t r : string) :
  parse_string s = Some (t, r) -> String.length r < String.length s.
Proof.
  unfold parse_string. destruct (parse_chars s) as [[l r']|] eqn:E; [|discriminate].
  intros H. inversion H; subst. eapply parse_chars_length, E.
Qed.

Lemma strip_prefix_length (p s r : string) :
  strip_prefix p s = Some r -> String.length s = String.length p + String.length r.
Proof.
  revert s. induction p as [|a p IH]; intros s H; simpl in *.
  - inversion H; subst. reflexivity.
  - destruct s as [|b s]; [discriminate|]. destruct (Ascii.eqb a b); [|discriminate].
    simpl. rewrite (IH s H). reflexivity.
Qed.

Lemma take_digits_length (s d t : string) :
  take_digits s = (d, t) -> String.length s = String.length d + String.length t.
Proof.
  revert d t. induction s as [|c r IH]; intros d t H; simpl in H.
  - inversion H; subst. reflexivity.
  - destruct (is_digit c).
    + destruct (take_digits r) as [d' t'] eqn:E. inversion H; subst.
      simpl. rewrite (IH d' t eq_refl). reflexivity.
    + inversion H; subst. reflexivity.
Qed.

Lemma parse_fraction_length (s d t : string) :
  parse_fraction s = Some (d, t) -> String.length t <= String.length s.
Proof.
  unfold parse_fraction.
  destruct s as [|c r]; [intros H; inversion H; subst; simpl; lia|].
  destruct (Ascii.eqb c ".") eqn:E.
  - apply Ascii.eqb_eq in E. subst c.
    destruct (take_digits r) as [d' t'] eqn:Et.
    destruct (d' =? ""); [discriminate|]. intros H. inversion H; subst.
    apply take_digits_length in Et. simpl. lia.
  - destruct c as [[] [] [] [] [] [] [] []]; try discriminate;
      intros H; inversion H; subst; simpl; lia.
Qed.

Lemma parse_exp_digits_length (neg : bool) (s : string) (x : Z) (t : string) :
  parse_exp_digits neg s = Some (x, t) -> String.length t <= String.length s.
Proof.
  unfold parse_exp_digits. destruct (take_digits s) as [d t'] eqn:E.
  destruct (d =? ""); [discriminate|]. intros H. inversion H; subst.
  apply take_digits_length in E. lia.
Qed.

Lemma parse_exponent_length (s : string) (x : Z) (t : string) :
  parse_exponent s = Some (x, t) -> String.length t <= String.length s.
Proof.
  unfold parse_exponent.
  destruct s as [|c r]; [intros H; inversion H; subst; simpl; lia|].
  destruct ((N_of_ascii c =? 101) || (N_of_ascii c =? 69))%N.
  - destruct r as [|c' r'].
    + intros H. apply parse_exp_digits_length in H. simpl in *. lia.
    + destruct c' as [[] [] [] [] [] [] [] []];
        intros H; apply parse_exp_digits_length in H; simpl in *; lia.
  - intros H. inversion H; subst. simpl. lia.
Qed.

Lemma parse_number_length (s : string) (v : json) (r : string) :
  parse_number s = Some (v, r) -> String.length r < String.length s.
Proof.
  unfold parse_number.
  assert (Hsign : exists neg s1,
    match s with
    | String "-" r0 => (true, r0)
    | _ => (false, s)
    end = (neg, s1) /\ String.length s1 <= String.length s).
  { destruct s as [|c r0]; [exists false, ""; split; [reflexivity | simpl; lia]|].
    destruct c as [[] [] [] [] [] [] [] []];
      eexists; eexists; (split; [reflexivity | simpl; lia]). }
  destruct Hsign as [neg [s1 [Hs Hl]]]. rewrite Hs.
  destruct (take_digits s1) as [ip s2] eqn:Ei.
  destruct (ip =? "") eqn:Eip; cbn [orb]; [discriminate|].
  destruct (starts_with_zero ip); [discriminate|].
  destruct (parse_fraction s2) as [[fp s3]|] eqn:Ef; [|discriminate].
  destruct (parse_exponent s3) as [[x s4]|] eqn:Ee; [|discriminate].
  intros H. inversion H; subst.
  apply take_digits_length in Ei. apply parse_fraction_length in Ef.
  apply parse_exponent_length in Ee.
  assert (0 < String.length ip).
  { destruct ip; [discriminate | simpl; lia]. }
  lia.
Qed.

Lemma parse_literal_length (s : string) (v : json) (r : string) :
  parse_literal s = Some (v, r) -> String.length r < String.length s.
Proof.
  unfold parse_literal.
  destruct (strip_prefix "true" s) eqn:E1.
  { intros H. inversion H; subst. apply strip_prefix_length in E1. simpl in E1. lia. }
  destruct (strip_prefix "false" s) eqn:E2.
  { intros H. inversion H; subst. apply strip_prefix_length in E2. simpl in E2. lia. }
  destruct (strip_prefix "null" s) eqn:E3.
  { intros H. inversion H; subst. apply strip_prefix_length in E3. simpl in E3. lia. }
  apply parse_number_length.
Qed.

Lemma parsers_settled (n : nat) :
  settled (fun k (_ : unit) s => parse_value k s) n
  /\ settled parse_members n
  /\ settled parse_elements n.
Proof.
  induction n as [|n [IHv [IHm IHe]]].
  { split; [|split]; intros x s v r H; discriminate H. }
  split; [|split].
  - intros [] s v r H. cbv beta in H. rewrite parse_value_S in H.
    unfold value_step in H.
    destruct (skip_ws s) as [|c r0] eqn:Es; [discriminate|].
    pose proof (skip_ws_cons _ _ _ Es) as Hs. cbv zeta in H.
    destruct (N_of_ascii c =? 123)%N eqn:E1.
    { destruct (skip_ws r0) as [|c2 r2] eqn:Es2; [discriminate|].
      pose proof (skip_ws_cons _ _ _ Es2) as Hs2.
      destruct (N_of_ascii c2 =? 125)%N eqn:E2.
      - inversion H; subst. split; [lia|]. intros m Hm.
        destruct m as [|m]; [lia|].
        rewrite parse_value_S. unfold value_step. rewrite Es. cbv zeta.
        rewrite E1, Es2, E2. reflexivity.
      - destruct (IHm [] r0 v r H) as [Hl Hf]. split; [lia|]. intros m Hm.
        destruct m as [|m]; [lia|].
        rewrite parse_value_S. unfold value_step. rewrite Es. cbv zeta.
        rewrite E1, Es2, E2. apply Hf. lia. }
    destruct (N_of_ascii c =? 91)%N eqn:E3.
    { destruct (skip_ws r0) as [|c2 r2] eqn:Es2; [discriminate|].
      pose proof (skip_ws_cons _ _ _ Es2) as Hs2.
      destruct (N_of_ascii c2 =? 93)%N eqn:E2.
      - inversion H; subst. split; [lia|]. intros m Hm.
        destruct m as [|m]; [lia|].
        rewrite parse_value_S. unfold value_step. rewrite Es. cbv zeta.
        rewrite E1, E3, Es2, E2. reflexivity.
      - destruct (IHe [] r0 v r H) as [Hl Hf]. split; [lia|]. intros m Hm.
        destruct m as [|m]; [lia|].
        rewrite parse_value_S. unfold value_step. rewrite Es. cbv zeta.
        rewrite E1, E3, Es2, E2. apply Hf. lia. }
    destruct (N_of_ascii c =? 34)%N eqn:E4.
    { destruct (parse_string r0) as [[t r']|] eqn:Ep; [|discriminate].
      inversion H; subst. pose proof (parse_string_length _ _ _ Ep) as Hp.
      split; [lia|]. intros m Hm. destruct m as [|m]; [lia|].
      rewrite parse_value_S. unfold value_step. rewrite Es. cbv zeta.
      rewrite E1, E3, E4, Ep. reflexivity. }
    pose proof (parse_literal_length _ _ _ H) as Hp. simpl in Hp.
    split; [lia|]. intros m Hm. destruct m as [|m]; [lia|].
    rewrite parse_value_S. unfold value_step. rewrite Es. cbv zeta.
    rewrite E1, E3, E4. exact H.
  - intros acc s v r H. rewrite parse_members_S in H. unfold members_step in H.
    destruct (skip_ws s) as [|c r0] eqn:Es; [discriminate|].
    pose proof (skip_ws_cons _ _ _ Es) as Hs.
    destruct (N_of_ascii c =? 34)%N eqn:E1; [|discriminate].
    destruct (parse_string r0) as [[key r1]|] eqn:Ep; [|discriminate].
    pose proof (parse_string_length _ _ _ Ep) as Hp.
    destruct (skip_ws r1) as [|c1 r2] eqn:Es1; [discriminate|].
    pose proof (skip_ws_cons _ _ _ Es1) as Hs1.
    destruct (N_of_ascii c1 =? 58)%N eqn:E2; [|discriminate].
    destruct (parse_value n r2) as [[v0 r3]|] eqn:Ev; [|discriminate].
    destruct (IHv tt r2 v0 r3 Ev) as [Hlv Hfv]. cbv zeta in H.
    destruct (skip_ws r3) as [|c3 r4] eqn:Es3; [discriminate|].
    pose proof (skip_ws_cons _ _ _ Es3) as Hs3.
    destruct (N_of_ascii c3 =? 44)%N eqn:E3.
    + destruct (IHm _ r4 v r H) as [Hl Hf]. split; [lia|]. intros m Hm.
      destruct m as [|m]; [lia|].
      rewrite parse_members_S. unfold members_step.
      rewrite Es, E1, Ep, Es1, E2, (Hfv m ltac:(lia)). cbv zeta.
      rewrite Es3, E3. apply Hf. lia.
    + destruct (N_of_ascii c3 =? 125)%N eqn:E5; [|discriminate].
      inversion H; subst. split; [lia|]. intros m Hm.
      destruct m as [|m]; [lia|].
      rewrite parse_members_S. unfold members_step.
      rewrite Es, E1, Ep, Es1, E2, (Hfv m ltac:(lia)). cbv zeta.
      rewrite Es3, E3, E5. reflexivity.
  - intros acc s v r H. rewrite parse_elements_S in H. unfold elements_step in H.
    destruct (parse_value n s) as [[v0 r1]|] eqn:Ev; [|discriminate].
    destruct (IHv tt s v0 r1 Ev) as [Hlv Hfv].
    destruct (skip_ws r1) as [|c r'] eqn:Es; [discriminate|].
    pose proof (skip_ws_cons _ _ _ Es) as Hs.
    destruct (N_of_ascii c =? 44)%N eqn:E1.
    + destruct (IHe _ r' v r H) as [Hl Hf]. split; [lia|]. intros m Hm.
      destruct m as [|m]; [lia|].
      rewrite parse_elements_S. unfold elements_step.
      rewrite (Hfv m ltac:(lia)), Es, E1. apply Hf. lia.
    + destruct (N_of_ascii c =? 93)%N eqn:E2; [|discriminate].
      inversion H; subst. split; [lia|]. intros m Hm.
      destruct m as [|m]; [lia|].
      rewrite parse_elements_S. unfold elements_step.
      rewrite (Hfv m ltac:(lia)), Es, E1, E2. reflexivity.
Qed.

(** Whatever some fuel parses, the fuel that [JSON.parse] gives parses as
    well: a SyntaxError is never for want of fuel. *)
Lemma parse_fuel_suffices (n : nat) (s r : string) (v : json) :
  parse_value n s = Some (v, r) ->
  parse_value (S (String.length s)) s = Some (v, r).
Proof.
  intros H. destruct (parsers_settled n) as [Hv _].
  destruct (Hv tt s v r H) as [_ Hf]. apply Hf. lia.
Qed.

Lemma parse_SyntaxError (s : string) :
  JSON.parse s = Throw SyntaxError ->
  forall n v r, parse_value n s = Some (v, r) -> skip_ws r <> "".
Proof.
  unfold JSON.parse. intros H n v r Hn.
  rewrite (parse_fuel_suffices n s r v Hn) in H.
  destruct (skip_ws r =? "") eqn:E; [discriminate|].
  apply String.eqb_neq, E.
Qed.

End ParserFuel.

(** ** Sorting and filtering *)

Section Sorting.

Context {A : Type}.
Variable cmp : A -> A -> option Z.

Lemma insert_sorted_perm (x : A) (l : list A) :
  Permutation (insert_sorted cmp x l) (x :: l).
Proof.
  induction l as [|y rest IH]; simpl; [apply Permutation_refl|].
  destruct (compare_with cmp x y <=? 0)%Z; [apply Permutation_refl|].
  eapply perm_trans; [apply perm_skip, IH | apply perm_swap].
Qed.

Lemma sort_perm (l : list A) : Permutation (sort cmp l) l.
Proof.
  induction l as [|x rest IH]; simpl; [apply perm_nil|].
  eapply perm_trans; [apply insert_sorted_perm | apply perm_skip, IH].
Qed.

Lemma sort_In (l : list A) (x : A) : In x (sort cmp l) <-> In x l.
Proof.
  split; apply Permutation_in; [apply sort_perm | apply Permutation_sym, sort_perm].
Qed.

(** The comparator orders by a key, largest first, on the elements that
    have one. *)
Variable key : A -> Z.
Variable keyed : A -> Prop.
Hypothesis cmp_key :
  forall x y, keyed x -> keyed y -> compare_with cmp x y = (key y - key x)%Z.

Lemma insert_sorted_Forall (P : A -> Prop) (x : A) (l : list A) :
  P x -> Forall P l -> Forall P (insert_sorted cmp x l).
Proof.
  intros Hx Hl. apply Forall_forall. intros y Hy.
  apply (Permutation_in _ (insert_sorted_perm x l)) in Hy.
  destruct Hy as [<-|Hy]; [exact Hx|].
  rewrite Forall_forall in Hl. apply Hl, Hy.
Qed.

Lemma insert_sorted_desc (x : A) (l : list A) :
  keyed x -> Forall keyed l ->
  StronglySorted (key_desc key) l ->
  StronglySorted (key_desc key) (insert_sorted cmp x l).
Proof.
  intros Hx Hl Hs. induction Hs as [|y rest Hrest IH Hy]; simpl.
  - constructor; constructor.
  - inversion Hl as [|? ? Hky Hkrest]; subst.
    rewrite (cmp_key x y Hx Hky).
    destruct (key y - key x <=? 0)%Z eqn:E.
    + apply Z.leb_le in E. constructor; [constructor; assumption|].
      constructor; [unfold key_desc; lia|].
      eapply Forall_impl; [|exact Hy]. unfold key_desc. intros z Hz. lia.
    + apply Z.leb_gt in E. constructor; [apply IH, Hkrest|].
      apply insert_sorted_Forall; [unfold key_desc; lia | exact Hy].
Qed.

Lemma sort_desc (l : list A) :
  Forall keyed l -> StronglySorted (key_desc key) (sort cmp l).
Proof.
  induction l as [|x rest IH]; intros Hl; simpl; [constructor|].
  inversion Hl as [|? ? Hx Hrest]; subst.
  apply insert_sorted_desc; [exact Hx | | apply IH, Hrest].
  apply Forall_forall. intros y Hy. apply (proj1 (sort_In _ _)) in Hy.
  rewrite Forall_forall in Hrest. apply Hrest, Hy.
Qed.

(** Elements with the same key keep their relative order. *)
Lemma insert_sorted_stable (t : Z) (x : A) (l : list A) :
  keyed x -> Forall keyed l ->
  filter (fun a => key a =? t)%Z (insert_sorted cmp x l)
  = filter (fun a => key a =? t)%Z (x :: l).
Proof.
  intros Hx Hl. induction Hl as [|y rest Hy Hrest IH]; [reflexivity|].
  cbn [insert_sorted]. rewrite (cmp_key x y Hx Hy).
  destruct (key y - key x <=? 0)%Z eqn:E; [reflexivity|].
  apply Z.leb_gt in E.
  cbn [filter] in *. rewrite IH.
  destruct (key y =? t)%Z eqn:Ey, (key x =? t)%Z eqn:Ex; try reflexivity.
  apply Z.eqb_eq in Ey, Ex. lia.
Qed.

Lemma sort_stable (t : Z) (l : list A) :
  Forall keyed l ->
  filter (fun a => key a =? t)%Z (sort cmp l) = filter (fun a => key a =? t)%Z l.
Proof.
  induction l as [|x rest IH]; intros Hl; [reflexivity|].
  inversion Hl as [|? ? Hx Hrest]; subst.
  cbn [sort]. rewrite insert_sorted_stable.
  - cbn [filter]. rewrite (IH Hrest). reflexivity.
  - exact Hx.
  - apply Forall_forall. intros y Hy. apply (proj1 (sort_In _ _)) in Hy.
    rewrite Forall_forall in Hrest. apply Hrest, Hy.
Qed.

End Sorting.

Section Filtering.

Context {A : Type}.
Variable p : A -> exc value.


Lemma filter_exc_ok (l : list A) :
  Forall (fun x => exists v, p x = Ok v) l ->
  filter_exc p l = Ok (filter (keeps p) l).
Proof.
  induction 1 as [|x rest [v Hv] _ IH]; [reflexivity|].
  cbn [filter_exc filter]. unfold keeps at 1. rewrite Hv, IH. reflexivity.
Qed.

End Filtering.


Lemma filter_subsequence {A : Type} (f : A -> bool) (l : list A) :
  subsequence (filter f l) l.
Proof.
  induction l as [|x rest IH]; simpl; [constructor|].
  destruct (f x); constructor; exact IH.
Qed.

(** ** Properties of the session manager *)

Lemma restoreSession_absent (w : World) :
  crescentUser w = None \/ crescentUser w = Some "" ->
  restoreSession w = (Ok tt, with_loading false w).
Proof.
  intros H. unfold restoreSession, bind, getItem.
  destruct H as [H|H]; rewrite H; reflexivity.
Qed.

Lemma restoreSession_parsed (w : World) (s : string) (v : json) :
  crescentUser w = Some s -> s <> "" -> JSON.parse s = Ok v ->
  restoreSession w = (Ok tt, with_loading false (with_user v w)).
Proof.
  intros Hs Hne Hv. unfold restoreSession, bind, getItem, lift. rewrite Hs.
  apply String.eqb_neq in Hne. rewrite Hne. cbn [negb]. rewrite Hv. reflexivity.
Qed.

(** C1, as the code has it.  When the slot is absent or holds the empty
    string, the restore effect leaves the session empty, ends the loading
    phase and raises nothing.  When the slot holds text that [JSON.parse]
    accepts, the parsed value is installed as the session as it is, with no
    check that it has the shape of a session. *)
Theorem restoreSession_installs_unchecked (w : World) :
  (crescentUser w = None \/ crescentUser w = Some "" ->
   restoreSession w = (Ok tt, with_loading false w))
  /\ (forall s v, crescentUser w = Some s -> s <> "" -> JSON.parse s = Ok v ->
      restoreSession w = (Ok tt, with_loading false (with_user v w))).
Proof.
  split.
  - apply restoreSession_absent.
  - intros s v. apply restoreSession_parsed.
Qed.

Lemma restoreSession_installs_unchecked_witness :
  restoreSession (initial_world None)
  = (Ok tt, with_loading false (initial_world None))
  /\ restoreSession (initial_world (Some "[true]"))
     = (Ok tt, with_loading false
                 (with_user (JArr [JBool true]) (initial_world (Some "[true]")))).
Proof.
  split.
  - apply (proj1 (restoreSession_installs_unchecked (initial_world None))).
    left. reflexivity.
  - apply (proj2 (restoreSession_installs_unchecked (initial_world (Some "[true]")))
             "[true]" (JArr [JBool true])).
    + reflexivity.
    + discriminate.
    + reflexivity.
Defined.

(** C1 fails as stated.  The text [{oops] is not a session: no amount of
    fuel makes the parser accept it, the restore effect raises the
    SyntaxError of [JSON.parse] and never ends the loading phase.  The
    text [{}] parses, is not a well-formed session, and is installed all
    the same: the session state is not left empty. *)
Lemma restoreSession_malformed_counterexample :
  ((forall n, JSON.parse_value n "{oops" = None)
   /\ JSON.parse "{oops" = Throw SyntaxError
   /\ restoreSession (initial_world (Some "{oops"))
      = (Throw SyntaxError, initial_world (Some "{oops")))
  /\ (JSON.parse "{}" = Ok (JObj [])
      /\ well_formed_session (JObj []) = false
      /\ user (snd (restoreSession (initial_world (Some "{}")))) = JObj []
      /\ JObj [] <> JNull).
Proof.
  split; [split; [|split; reflexivity]|].
  - intros [|[|n]]; reflexivity.
  - repeat split. discriminate.
Qed.

Lemma find_match_Found (username password key : string) (r : json)
  (entries : list (string * json)) :
  find_match username password entries = Found key r ->
  In (key, r) entries /\ matches r username password = true /\ r <> JNull.
Proof.
  induction entries as [|[k x] rest IH]; [discriminate|].
  destruct (null_or_not x) as [->|Hx]; [discriminate|].
  rewrite (find_match_cons username password k x rest Hx).
  destruct (matches x username password) eqn:Hm.
  - intros H. inversion H; subst. repeat split; [left; reflexivity | exact Hm | exact Hx].
  - intros H. destruct (IH H) as [Hin Hrest]. split; [right; exact Hin | exact Hrest].
Qed.

Lemma probe_Found (env : Env) (path username password key : string) (r : json) :
  probe env path username password = Found key r ->
  exists c, dbGet_response env path = Ok c /\ truthy c = true
            /\ In (key, r) (own_props c)
            /\ matches r username password = true /\ r <> JNull.
Proof.
  unfold probe. destruct (dbGet_response env path) as [c|e]; [|discriminate].
  destruct (truthy c) eqn:Tc; [|discriminate].
  intros H. destruct (find_match_Found _ _ _ _ _ H) as [Hin [Hm Hr]].
  exists c. repeat split; assumption.
Qed.

Lemma probe_admin_Found (env : Env) (username password k : string) (a : json) :
  probe_admin env username password = Found k a ->
  dbGet_response env "users/admin" = Ok a /\ truthy a = true
  /\ matches a username password = true.
Proof.
  unfold probe_admin.
  destruct (dbGet_response env "users/admin") as [c|e]; [|discriminate].
  destruct (truthy c) eqn:Tc; cbn [andb]; [|discriminate].
  destruct (matches c username password) eqn:Hm; [|discriminate].
  intros H. inversion H; subst. repeat split; assumption.
Qed.

Lemma matches_username (r : json) (username password : string) :
  matches r username password = true ->
  field r "username" = Some (JStr username) /\ field r "password" = Some (JStr password).
Proof.
  unfold matches, strict_eq_str. intros H. apply andb_prop in H. destruct H as [Hu Hp].
  destruct (field r "username") as [[]|]; try discriminate.
  destruct (field r "password") as [[]|]; try discriminate.
  apply String.eqb_eq in Hu, Hp. subst. split; reflexivity.
Qed.

(** What a successful [login] leaves behind. *)
Lemma login_success (env : Env) (username password : string) (w w' : World)
  (r : LoginResult) :
  login env username password w = (Ok r, w') -> success r = true ->
  installed_by env username password (user w')
  /\ crescentUser w' = Some (JSON.stringify (user w'))
  /\ setItem_throws env = false.
Proof.
  rewrite login_run. unfold login_table, finish.
  destruct (probe_admin env username password) as [k a| |] eqn:Pa.
  - destruct (setItem_throws env); intros H Hs; inversion H; subst;
      [discriminate|].
    repeat split. cbn. eapply by_admin, Pa.
  - destruct (probe env "teachers" username password) as [key t| |] eqn:Pt.
    + destruct (setItem_throws env); intros H Hs; inversion H; subst;
        [discriminate|].
      repeat split. cbn. eapply by_teacher; eassumption.
    + destruct (probe env "students" username password) as [key s| |] eqn:Ps.
      * destruct (setItem_throws env); intros H Hs; inversion H; subst;
          [discriminate|].
        repeat split. cbn. eapply by_student; eassumption.
      * intros H Hs; inversion H; subst; discriminate.
      * intros H Hs; inversion H; subst; discriminate.
    + intros H Hs; inversion H; subst; discriminate.
  - intros H Hs; inversion H; subst; discriminate.
Qed.

Lemma field_obj_of (k : string) (kvs : list (string * value)) :
  field (JObj (obj_of kvs)) k
  = match supplied k kvs with
    | Some x => x
    | None => None
    end.
Proof. unfold field, obj_of. cbn [get_prop]. apply lookup_fold_assign. Qed.



Lemma updateUser_run (env : Env) (data : list (string * value)) (w : World) :
  updateUser env data w
  = if truthy (user w)
    then (if setItem_throws env
          then (Throw QuotaExceededError, with_user (spread_merge (user w) data) w)
          else (Ok tt, with_slot (Some (JSON.stringify (spread_merge (user w) data)))
                         (with_user (spread_merge (user w) data) w)))
    else (Ok tt, w).
Proof.
  unfold updateUser, bind, getUser. destruct (truthy (user w)); [|reflexivity].
  unfold setUser, setItem. cbn. destruct (setItem_throws env); reflexivity.
Qed.

Lemma updateUser_user (env : Env) (data : list (string * value)) (w : World) :
  truthy (user w) = true ->
  user (snd (updateUser env data w)) = spread_merge (user w) data.
Proof.
  intros Ht. rewrite updateUser_run, Ht.
  destruct (setItem_throws env); reflexivity.
Qed.

Lemma field_object (props : list (string * json)) (k : string) :
  field (JObj props) k = lookup k props.
Proof. reflexivity. Qed.

(** Reading a property of [{ ...user, ...data }]. *)
Lemma field_spread_merge (props : list (string * json)) (data : list (string * value))
  (k : string) :
  NoDup (map fst props) ->
  field (spread_merge (JObj props) data) k
  = match supplied k data with
    | Some x => x
    | None => field (JObj props) k
    end.
Proof.
  intros Hnd. unfold spread_merge. rewrite field_obj_of, supplied_app.
  cbn [own_props]. rewrite (supplied_as_values k props Hnd), field_object.
  destruct (supplied k data); [reflexivity|].
  destruct (lookup k props); reflexivity.
Qed.






(** C3.  When the admin record matches, [login] installs the admin session
    and reads nothing but [users/admin], whatever the teachers collection
    holds: in particular when a teacher record carries the same user name
    and password.  More generally the collections are read in the order
    admin, teachers, students, and no collection is read after the one
    that matched. *)
Theorem login_priority (env : Env) (username password : string) (w : World) :
  (forall a tc key t,
      dbGet_response env "users/admin" = Ok a -> truthy a = true ->
      matches a username password = true ->
      dbGet_response env "teachers" = Ok tc -> In (key, t) (own_props tc) ->
      matches t username password = true ->
      user (snd (login env username password w)) = admin_user a
      /\ field (user (snd (login env username password w))) "role" = Some (JStr "admin")
      /\ db_reads (snd (login env username password w)) = db_reads w ++ ["users/admin"]
      /\ (setItem_throws env = false ->
          fst (login env username password w) = Ok login_ok))
  /\ (forall k a,
      probe_admin env username password = Found k a ->
      user (snd (login env username password w)) = admin_user a
      /\ db_reads (snd (login env username password w)) = db_reads w ++ ["users/admin"])
  /\ (forall key t,
      probe_admin env username password = NotFound ->
      probe env "teachers" username password = Found key t ->
      user (snd (login env username password w)) = teacher_user key t
      /\ db_reads (snd (login env username password w))
         = db_reads w ++ ["users/admin"; "teachers"])
  /\ (forall key s,
      probe_admin env username password = NotFound ->
      probe env "teachers" username password = NotFound ->
      probe env "students" username password = Found key s ->
      user (snd (login env username password w)) = student_user key s
      /\ db_reads (snd (login env username password w))
         = db_reads w ++ ["users/admin"; "teachers"; "students"])
  /\ (probe_admin env username password = NotFound ->
      probe env "teachers" username password = NotFound ->
      probe env "students" username password = NotFound ->
      login env username password w
      = (Ok invalid_credentials,
         with_reads ["users/admin"; "teachers"; "students"] w)).
Proof.
  rewrite login_run. unfold login_table, finish.
  split; [|split; [|split; [|split]]].
  - intros a tc key t Ha Ta Ma _ _ _.
    unfold probe_admin. rewrite Ha, Ta, Ma. cbn [andb].
    assert (Hrole : field (admin_user a) "role" = Some (JStr "admin")).
    { unfold admin_user. rewrite field_obj_of. reflexivity. }
    destruct (setItem_throws env);
      cbn [fst snd user db_reads with_user with_slot with_reads];
      repeat split; intros; try assumption; try reflexivity; discriminate.
  - intros k a Pa. rewrite Pa. destruct (setItem_throws env); split; reflexivity.
  - intros key t Pa Pt. rewrite Pa, Pt.
    destruct (setItem_throws env); split; reflexivity.
  - intros key s Pa Pt Ps. rewrite Pa, Pt, Ps.
    destruct (setItem_throws env); split; reflexivity.
  - intros Pa Pt Ps. rewrite Pa, Pt, Ps. reflexivity.
Qed.

Lemma login_priority_witness :
  user (snd (login School.env "root" "pw" (initial_world None)))
  = admin_user School.admin_record
  /\ db_reads (snd (login School.env "root" "pw" (initial_world None)))
     = ["users/admin"]
  /\ fst (login School.env "root" "pw" (initial_world None)) = Ok login_ok.
Proof.
  destruct (proj1 (login_priority School.env "root" "pw" (initial_world None))
              School.admin_record School.teachers "t2"
              (JObj [("username", JStr "root"); ("password", JStr "pw");
                     ("name", JStr "Shadow"); ("subject", JStr "Art")]))
    as [Hu [_ [Hr Hs]]].
  - reflexivity.
  - reflexivity.
  - reflexivity.
  - reflexivity.
  - right. left. reflexivity.
  - reflexivity.
  - split; [exact Hu | split; [exact Hr | apply Hs; reflexivity]].
Defined.

(** C4.  The session built from the record that matched: its [role] names
    the collection, its [id] is the record's key (for the admin, the [id]
    the record declares), its [username] is the one that was typed, and
    [name], [classId] and [className] are the record's; [passwordChanged]
    is the record's, or [false] when the record has none.  The record that
    matched is the first one of its collection, in enumeration order,
    whose [username] and [password] are exactly the strings given. *)
Theorem login_session_fields (env : Env) (username password : string) (w : World) :
  (forall k a,
      probe_admin env username password = Found k a ->
      dbGet_response env "users/admin" = Ok a
      /\ matches a username password = true
      /\ field (user (snd (login env username password w))) "role" = Some (JStr "admin")
      /\ field (user (snd (login env username password w))) "id" = field a "id"
      /\ field (user (snd (login env username password w))) "username"
         = Some (JStr username)
      /\ field (user (snd (login env username password w))) "name" = field a "name")
  /\ (forall key t,
      probe_admin env username password = NotFound ->
      probe env "teachers" username password = Found key t ->
      (exists c, dbGet_response env "teachers" = Ok c /\ In (key, t) (own_props c))
      /\ matches t username password = true
      /\ field (user (snd (login env username password w))) "role" = Some (JStr "teacher")
      /\ field (user (snd (login env username password w))) "id" = Some (JStr key)
      /\ field (user (snd (login env username password w))) "username"
         = Some (JStr username)
      /\ field (user (snd (login env username password w))) "name" = field t "name")
  /\ (forall key s,
      probe_admin env username password = NotFound ->
      probe env "teachers" username password = NotFound ->
      probe env "students" username password = Found key s ->
      (exists c, dbGet_response env "students" = Ok c /\ In (key, s) (own_props c))
      /\ matches s username password = true
      /\ field (user (snd (login env username password w))) "role" = Some (JStr "student")
      /\ field (user (snd (login env username password w))) "id" = Some (JStr key)
      /\ field (user (snd (login env username password w))) "username"
         = Some (JStr username)
      /\ field (user (snd (login env username password w))) "name" = field s "name"
      /\ field (user (snd (login env username password w))) "classId" = field s "classId"
      /\ field (user (snd (login env username password w))) "className"
         = field s "className"
      /\ field (user (snd (login env username password w))) "passwordChanged"
         = or_false (field s "passwordChanged")
      /\ (forall b, field s "passwordChanged" = Some (JBool b) ->
          field (user (snd (login env username password w))) "passwordChanged"
          = Some (JBool b))).
Proof.
  rewrite login_run. unfold login_table, finish.
  split; [|split].
  - intros k a Pa. rewrite Pa.
    destruct (probe_admin_Found _ _ _ _ _ Pa) as [Ha [_ Hm]].
    destruct (matches_username _ _ _ Hm) as [Hu _].
    assert (Hfields :
      field (admin_user a) "role" = Some (JStr "admin")
      /\ field (admin_user a) "id" = field a "id"
      /\ field (admin_user a) "username" = Some (JStr username)
      /\ field (admin_user a) "name" = field a "name").
    { unfold admin_user. rewrite !field_obj_of. cbn. rewrite Hu. repeat split. }
    destruct (setItem_throws env); cbn [snd user with_user with_slot with_reads];
      repeat split; try assumption; apply Hfields.
  - intros key t Pa Pt. rewrite Pa, Pt.
    destruct (probe_Found _ _ _ _ _ _ Pt) as [c [Hc [_ [Hin [Hm _]]]]].
    destruct (matches_username _ _ _ Hm) as [Hu _].
    assert (Hfields :
      field (teacher_user key t) "role" = Some (JStr "teacher")
      /\ field (teacher_user key t) "id" = Some (JStr key)
      /\ field (teacher_user key t) "username" = Some (JStr username)
      /\ field (teacher_user key t) "name" = field t "name").
    { unfold teacher_user. rewrite !field_obj_of. cbn. rewrite Hu. repeat split. }
    split; [exists c; split; assumption|]. split; [exact Hm|].
    destruct (setItem_throws env); cbn [snd user with_user with_slot with_reads];
      apply Hfields.
  - intros key s Pa Pt Ps. rewrite Pa, Pt, Ps.
    destruct (probe_Found _ _ _ _ _ _ Ps) as [c [Hc [_ [Hin [Hm _]]]]].
    destruct (matches_username _ _ _ Hm) as [Hu _].
    assert (Hfields :
      field (student_user key s) "role" = Some (JStr "student")
      /\ field (student_user key s) "id" = Some (JStr key)
      /\ field (student_user key s) "username" = Some (JStr username)
      /\ field (student_user key s) "name" = field s "name"
      /\ field (student_user key s) "classId" = field s "classId"
      /\ field (student_user key s) "className" = field s "className"
      /\ field (student_user key s) "passwordChanged"
         = or_false (field s "passwordChanged")
      /\ (forall b, field s "passwordChanged" = Some (JBool b) ->
          field (student_user key s) "passwordChanged" = Some (JBool b))).
    { unfold student_user. rewrite !field_obj_of. cbn. rewrite Hu.
      repeat split. intros b Hb. rewrite Hb. destruct b; reflexivity. }
    split; [exists c; split; assumption|]. split; [exact Hm|].
    destruct (setItem_throws env); cbn [snd user with_user with_slot with_reads];
      apply Hfields.
Qed.

Lemma login_session_fields_witness :
  field (user School.bob_logged_in) "role" = Some (JStr "student")
  /\ field (user School.bob_logged_in) "id" = Some (JStr "s1")
  /\ field (user School.bob_logged_in) "classId" = Some (JStr "c1")
  /\ field (user School.bob_logged_in) "passwordChanged" = Some (JBool false).
Proof.
  destruct (proj2 (proj2 (login_session_fields School.env "bob" "b0b"
                            (initial_world None)))
              "s1" (JObj [("username", JStr "bob"); ("password", JStr "b0b");
                          ("name", JStr "Bob"); ("classId", JStr "c1");
                          ("className", JStr "Grade 1")]))
    as [_ [_ [Hrole [Hid [_ [_ [Hcid [_ [Hpc _]]]]]]]]].
  - reflexivity.
  - reflexivity.
  - reflexivity.
  - split; [exact Hrole | split; [exact Hid | split; [exact Hcid | exact Hpc]]].
Defined.

(** X1.  [login] always returns, and returns one of its three results. *)
Lemma login_returns (env : Env) (username password : string) (w : World) :
  exists r w', login env username password w = (Ok r, w')
               /\ (r = login_ok \/ r = invalid_credentials \/ r = login_failed).
Proof.
  rewrite login_run. unfold login_table, finish.
  destruct (probe_admin env username password);
    [| destruct (probe env "teachers" username password);
       [| destruct (probe env "students" username password) |] |];
    try destruct (setItem_throws env);
    eexists; eexists; (split; [reflexivity|]); auto.
Qed.

(** X2.  The generic failure is returned exactly when something was thrown:
    a read was rejected, a record was malformed, or the write was
    refused; the other failure, exactly when the three collections were
    read and none matched. *)
Lemma login_invalid_iff (env : Env) (username password : string) (w : World) :
  fst (login env username password w) = Ok invalid_credentials
  <-> probe_admin env username password = NotFound
      /\ probe env "teachers" username password = NotFound
      /\ probe env "students" username password = NotFound.
Proof.
  rewrite login_run. unfold login_table, finish.
  destruct (probe_admin env username password);
    [| destruct (probe env "teachers" username password);
       [| destruct (probe env "students" username password) |] |];
    try destruct (setItem_throws env); cbn [fst];
    (split; [intros H | intros [H1 [H2 H3]]]); try discriminate; repeat split.
Qed.

(** X3.  As long as [localStorage] accepts writes, a failed attempt leaves
    the session and the slot as they were. *)
Lemma login_failure_writes_nothing (env : Env) (username password : string)
  (w w' : World) (r : LoginResult) :
  setItem_throws env = false ->
  login env username password w = (Ok r, w') -> success r = false ->
  user w' = user w /\ crescentUser w' = crescentUser w.
Proof.
  intros Hw. rewrite login_run. unfold login_table, finish. rewrite Hw.
  destruct (probe_admin env username password);
    [| destruct (probe env "teachers" username password);
       [| destruct (probe env "students" username password) |] |];
    intros H Hs; inversion H; subst; try discriminate; split; reflexivity.
Qed.

(** C5, at the input where the code departs from it.  Ann is logged in;
    the admin's credentials are then submitted to a browser whose
    [localStorage] refuses the write.  [login] reports the generic
    failure, and yet the session has been replaced by the admin's: the
    session is installed before the write that throws.  The slot still
    holds Ann's session. *)
Lemma login_refused_write_replaces_session :
  fst (login School.env_storage_full "root" "pw" School.ann_logged_in) = Ok login_failed
  /\ user (snd (login School.env_storage_full "root" "pw" School.ann_logged_in))
     = admin_user School.admin_record
  /\ user School.ann_logged_in = teacher_user "t1"
       (JObj [("username", JStr "ann"); ("password", JStr "x");
              ("name", JStr "Ann"); ("subject", JStr "Maths")])
  /\ user (snd (login School.env_storage_full "root" "pw" School.ann_logged_in))
     <> user School.ann_logged_in
  /\ crescentUser (snd (login School.env_storage_full "root" "pw" School.ann_logged_in))
     = crescentUser School.ann_logged_in.
Proof.
  split; [reflexivity|]. split; [reflexivity|]. split; [reflexivity|].
  split; [|reflexivity]. cbv. discriminate.
Qed.

(** *** Concrete runs of the session manager *)

(** Credentials are compared exactly: a different capital is a different
    user name, and no collection matches. *)
Example login_is_case_sensitive :
  login School.env "Root" "pw" (initial_world None)
  = (Ok invalid_credentials,
     with_reads ["users/admin"; "teachers"; "students"] (initial_world None)).
Proof. reflexivity. Qed.

(** A rejected read ends the login with the generic failure. *)
Example login_store_unreachable :
  login {| dbGet_response := fun _ => Throw StoreError; setItem_throws := false |}
    "root" "pw" (initial_world None)
  = (Ok login_failed, with_reads ["users/admin"] (initial_world None)).
Proof. reflexivity. Qed.

(** So does a malformed record: a collection that came back as an array
    with a hole holds [null], and reading [null.username] throws. *)
Example login_malformed_record :
  login {| dbGet_response := fun path =>
             if path =? "teachers" then Ok (JArr [JNull; School.admin_record])
             else Ok JNull;
           setItem_throws := false |}
    "root" "pw" (initial_world None)
  = (Ok login_failed, with_reads ["users/admin"; "teachers"] (initial_world None)).
Proof. reflexivity. Qed.

(** [logout] empties the session and the slot, and doing it again changes
    nothing more. *)
Example logout_twice :
  logout School.bob_logged_in
  = (Ok tt, with_slot None (with_user JNull School.bob_logged_in))
  /\ logout (snd (logout School.bob_logged_in)) = logout School.bob_logged_in.
Proof. split; reflexivity. Qed.

(** ** Properties of the scope filter *)

(** An announcement whose [classId] is the empty string counts as naming
    no class: the supervisor of [c1] and [c3] sees it. *)
Example empty_classId_is_unset (engine : Engine) :
  announcements_listener engine School.supervisor
    (JObj [("a9", JObj [("title", JStr "All"); ("createdAt", JStr "2024-05-01");
                        ("classId", JStr "")])])
  = Ok [JObj [("id", JStr "a9"); ("title", JStr "All");
              ("createdAt", JStr "2024-05-01"); ("classId", JStr "")]].
Proof. reflexivity. Qed.


Lemma entities_objects (data : json) :
  Forall (fun x => exists props, x = JObj props) (entities data).
Proof.
  unfold entities. destruct (truthy data); [|constructor].
  apply Forall_forall. intros x Hx. apply in_map_iff in Hx.
  destruct Hx as [kv [<- _]]. eexists. reflexivity.
Qed.

Lemma assigned_includes_array (u : json) (l : list json) (x : value) :
  field u "assignedClassIds" = Some (JArr l) ->
  assigned_includes u (Ok x) = Ok (Some (JBool (existsb (same_value_zero x) l))).
Proof.
  unfold field, assigned_includes.
  destruct u; try discriminate; cbn [get_prop]; intros H; rewrite H; reflexivity.
Qed.

Lemma assigned_includes_none (u : json) (x : value) :
  u = JNull \/ field u "assignedClassIds" = None ->
  assigned_includes u (Ok x) = Ok None.
Proof.
  unfold field, assigned_includes. intros [->|H]; [reflexivity|].
  destruct u; try reflexivity. cbn [get_prop] in *. rewrite H. reflexivity.
Qed.

Lemma assigned_includes_callable (u : json) (x : value) :
  scope_callable u = true -> exists v, assigned_includes u (Ok x) = Ok v.
Proof.
  unfold scope_callable, field, assigned_includes.
  destruct u; cbn [get_prop]; try (intros _; eexists; reflexivity).
  destruct (lookup "assignedClassIds" props) as [[]|];
    try discriminate; intros _; eexists; reflexivity.
Qed.

Lemma includes_strings (v : value) (ids : list string) :
  existsb (same_value_zero v) (map JStr ids) = true
  <-> exists i, v = Some (JStr i) /\ In i ids.
Proof.
  rewrite existsb_exists. split.
  - intros [y [Hy Hv]]. apply in_map_iff in Hy. destruct Hy as [i [<- Hi]].
    destruct v as [[]|]; try discriminate. cbn in Hv.
    apply String.eqb_eq in Hv. subst. exists i. split; [reflexivity | exact Hi].
  - intros [i [-> Hi]]. exists (JStr i). split; [apply in_map, Hi|].
    cbn. apply String.eqb_refl.
Qed.

Section Listeners.

Variable u : json.
Variable data : json.

Lemma class_visible_object (props : list (string * json)) :
  class_visible u (JObj props) = assigned_includes u (Ok (field (JObj props) "id")).
Proof. reflexivity. Qed.

Lemma student_visible_object (props : list (string * json)) :
  student_visible u (JObj props)
  = assigned_includes u (Ok (field (JObj props) "classId")).
Proof. reflexivity. Qed.

Lemma announcement_visible_object (props : list (string * json)) :
  announcement_visible u (JObj props)
  = if classId_unset (JObj props) then Ok (Some (JBool true))
    else assigned_includes u (Ok (field (JObj props) "classId")).
Proof. reflexivity. Qed.

(** The three callbacks return whenever the chain can be evaluated. *)
Lemma callbacks_return :
  scope_callable u = true ->
  Forall (fun x => exists v, class_visible u x = Ok v) (entities data)
  /\ Forall (fun x => exists v, student_visible u x = Ok v) (entities data)
  /\ Forall (fun x => exists v, announcement_visible u x = Ok v) (entities data).
Proof.
  intros Hc. pose proof (entities_objects data) as Hobj.
  repeat split; eapply Forall_impl; try exact Hobj; intros x [props ->].
  - rewrite class_visible_object. apply assigned_includes_callable, Hc.
  - rewrite student_visible_object. apply assigned_includes_callable, Hc.
  - rewrite announcement_visible_object.
    destruct (classId_unset (JObj props)); [eexists; reflexivity|].
    apply assigned_includes_callable, Hc.
Qed.

Lemma listeners_run :
  scope_callable u = true ->
  classes_listener u data = Ok (filter (keeps (class_visible u)) (entities data))
  /\ students_listener u data = Ok (filter (keeps (student_visible u)) (entities data)).
Proof.
  intros Hc. destruct (callbacks_return Hc) as [H1 [H2 _]].
  unfold classes_listener, students_listener.
  rewrite (filter_exc_ok _ _ H1), (filter_exc_ok _ _ H2).
  split; reflexivity.
Qed.

Lemma announcements_run (engine : Engine) :
  scope_callable u = true ->
  announcements_listener engine u data
  = Ok (sort (by_date_desc engine)
          (filter (keeps (announcement_visible u)) (entities data))).
Proof.
  intros Hc. destruct (callbacks_return Hc) as [_ [_ H3]].
  unfold announcements_listener. rewrite (filter_exc_ok _ _ H3). reflexivity.
Qed.

End Listeners.

Lemma scope_callable_array (u : json) (l : list json) :
  field u "assignedClassIds" = Some (JArr l) -> scope_callable u = true.
Proof.
  unfold scope_callable. intros H. rewrite H. destruct u; reflexivity.
Qed.





Lemma by_date_desc_created (engine : Engine) (x y : json) :
  dated engine x -> dated engine y ->
  compare_with (by_date_desc engine) x y = (created engine y - created engine x)%Z.
Proof.
  unfold dated, compare_with, by_date_desc, created. intros Hx Hy.
  destruct (Date_getTime engine (createdAt y)); [|congruence].
  destruct (Date_getTime engine (createdAt x)); [|congruence].
  reflexivity.
Qed.

Lemma sorted_by_date (engine : Engine) (l : list json) :
  Forall (dated engine) l ->
  StronglySorted (fun a b => (created engine b <= created engine a)%Z)
    (sort (by_date_desc engine) l)
  /\ (forall t,
        filter (fun a => (created engine a =? t)%Z) (sort (by_date_desc engine) l)
        = filter (fun a => (created engine a =? t)%Z) l).
Proof.
  intros Hl. split.
  - exact (sort_desc (by_date_desc engine) (created engine) (dated engine)
             (by_date_desc_created engine) l Hl).
  - intros t.
    exact (sort_stable (by_date_desc engine) (created engine) (dated engine)
             (by_date_desc_created engine) t l Hl).
Qed.

(** An engine that follows the standard reads a date that the standard
    fixes as every other such engine does. *)
Lemma Date_getTime_standard (engine : Engine) (v : value) (t : Z) :
  standard engine -> Date_getTime ecma v = Some t -> Date_getTime engine v = Some t.
Proof.
  intros Hs. destruct v as [[]|]; cbn [Date_getTime Date_parse ecma];
    try (intros H; exact H); apply Hs.
Qed.

Lemma by_date_desc_standard (engine : Engine) (x y : json) :
  standard engine -> plainly_dated x -> plainly_dated y ->
  by_date_desc engine x y = by_date_desc ecma x y.
Proof.
  unfold plainly_dated, dated, by_date_desc. intros Hs Hx Hy.
  destruct (Date_getTime ecma (createdAt y)) as [ty|] eqn:Ey; [|congruence].
  destruct (Date_getTime ecma (createdAt x)) as [tx|] eqn:Ex; [|congruence].
  rewrite (Date_getTime_standard engine _ _ Hs Ey).
  rewrite (Date_getTime_standard engine _ _ Hs Ex). reflexivity.
Qed.

Lemma insert_sorted_ext {A : Type} (c1 c2 : A -> A -> option Z) (x : A) (l : list A) :
  (forall y, In y l -> c1 x y = c2 x y) ->
  insert_sorted c1 x l = insert_sorted c2 x l.
Proof.
  induction l as [|y rest IH]; intros H; [reflexivity|].
  cbn [insert_sorted]. unfold compare_with. rewrite (H y (or_introl eq_refl)).
  rewrite IH; [reflexivity|]. intros z Hz. apply H. right. exact Hz.
Qed.

Lemma sort_ext {A : Type} (c1 c2 : A -> A -> option Z) (l : list A) :
  (forall x y, In x l -> In y l -> c1 x y = c2 x y) ->
  sort c1 l = sort c2 l.
Proof.
  induction l as [|x rest IH]; intros H; [reflexivity|].
  cbn [sort]. rewrite IH.
  - apply insert_sorted_ext. intros y Hy. apply (proj1 (sort_In _ _ _)) in Hy.
    apply H; [left; reflexivity | right; exact Hy].
  - intros a b Ha Hb. apply H; right; assumption.
Qed.

(** On a snapshot whose visible announcements carry dates that the
    standard fixes, the engine makes no difference. *)
Lemma announcements_listener_standard (engine : Engine) (u data : json) :
  standard engine -> scope_callable u = true ->
  Forall plainly_dated (filter (keeps (announcement_visible u)) (entities data)) ->
  announcements_listener engine u data = announcements_listener ecma u data.
Proof.
  intros Hs Hc Hd. rewrite !(announcements_run u data _ Hc). f_equal.
  rewrite Forall_forall in Hd.
  apply sort_ext. intros x y Hx Hy. apply by_date_desc_standard; auto.
Qed.


Lemma Forall_filter {A : Type} (P : A -> Prop) (f : A -> bool) (l : list A) :
  Forall P l -> Forall P (filter f l).
Proof.
  intros H. apply Forall_forall. intros x Hx. apply filter_In in Hx.
  rewrite Forall_forall in H. apply H, Hx.
Qed.


(** C7.  The classes and students listeners hand over their visible
    entries in snapshot order.  The announcements listener hands over the
    visible announcements, and whenever the [createdAt] of each of them is
    a valid date for the engine (a time, not NaN), they come most recent
    first, and announcements of the same time stay in snapshot order.  On
    the three announcements of January, March and February the order that
    comes out is March, February, January, with every engine that follows
    the standard. *)
Theorem announcements_most_recent_first :
  (forall u data,
      scope_callable u = true ->
      exists cs ss,
        classes_listener u data = Ok cs
        /\ students_listener u data = Ok ss
        /\ subsequence cs (entities data)
        /\ subsequence ss (entities data))
  /\ (forall engine u data,
        scope_callable u = true ->
        Forall (dated engine)
          (filter (keeps (announcement_visible u)) (entities data)) ->
        exists anns,
          announcements_listener engine u data = Ok anns
          /\ Permutation anns (filter (keeps (announcement_visible u)) (entities data))
          /\ StronglySorted (fun a b => (created engine b <= created engine a)%Z) anns
          /\ (forall t,
                filter (fun a => (created engine a =? t)%Z) anns
                = filter (fun a => (created engine a =? t)%Z)
                    (filter (keeps (announcement_visible u)) (entities data))))
  /\ (forall engine,
        standard engine ->
        exists anns,
          announcements_listener engine School.supervisor School.three_announcements
          = Ok anns
          /\ map createdAt anns
             = [Some (JStr "2024-03-01"); Some (JStr "2024-02-01");
                Some (JStr "2024-01-01")]).
Proof.
  split; [|split].
  - intros u data Hc.
    destruct (listeners_run u data Hc) as [Hcs Hss].
    eexists. eexists.
    split; [exact Hcs|]. split; [exact Hss|].
    split; apply filter_subsequence.
  - intros engine u data Hc Hvis.
    destruct (sorted_by_date engine _ Hvis) as [Hsorted Hstable].
    eexists. split; [exact (announcements_run u data engine Hc)|].
    split; [apply sort_perm|]. split; [exact Hsorted | exact Hstable].
  - intros engine Hs.
    rewrite (announcements_listener_standard engine School.supervisor
               School.three_announcements Hs eq_refl).
    + eexists. split; reflexivity.
    + apply Forall_forall. intros x Hx. cbv in Hx.
      repeat (destruct Hx as [<-|Hx]; [cbv; intros H; inversion H|]). destruct Hx.
Qed.

Lemma announcements_most_recent_first_witness :
  (exists cs ss,
      classes_listener School.supervisor School.some_announcements = Ok cs
      /\ students_listener School.supervisor School.some_announcements = Ok ss
      /\ subsequence cs (entities School.some_announcements)
      /\ subsequence ss (entities School.some_announcements))
  /\ (exists anns,
        announcements_listener ecma School.supervisor School.some_announcements = Ok anns
        /\ Permutation anns
             (filter (keeps (announcement_visible School.supervisor))
                (entities School.some_announcements))
        /\ StronglySorted (fun a b => (created ecma b <= created ecma a)%Z) anns
        /\ (forall t,
              filter (fun a => (created ecma a =? t)%Z) anns
              = filter (fun a => (created ecma a =? t)%Z)
                  (filter (keeps (announcement_visible School.supervisor))
                     (entities School.some_announcements))))
  /\ (exists anns,
        announcements_listener ecma School.supervisor School.three_announcements
        = Ok anns
        /\ map createdAt anns
           = [Some (JStr "2024-03-01"); Some (JStr "2024-02-01");
              Some (JStr "2024-01-01")]).
Proof.
  split; [|split].
  - apply (proj1 announcements_most_recent_first
             School.supervisor School.some_announcements).
    reflexivity.
  - apply (proj1 (proj2 announcements_most_recent_first)
             ecma School.supervisor School.some_announcements).
    + reflexivity.
    + apply Forall_forall. intros x Hx. cbv in Hx.
      repeat (destruct Hx as [<-|Hx]; [cbv; intros H; inversion H|]). destruct Hx.
  - apply (proj2 (proj2 announcements_most_recent_first) ecma).
    intros s t H. exact H.
Defined.



(** Dates with a time of day and an offset are dates that the standard
    fixes: with no session, two announcements for everyone written at ten
    o'clock in January and in March come out March first, with every
    engine that follows the standard. *)
Example dates_with_time_most_recent_first (engine : Engine) :
  standard engine ->
  announcements_listener engine JNull
    (JObj [("a1", JObj [("createdAt", JStr "2024-01-01T10:00:00Z")]);
           ("a2", JObj [("createdAt", JStr "2024-03-01T10:00:00Z")])])
  = Ok [JObj [("id", JStr "a2"); ("createdAt", JStr "2024-03-01T10:00:00Z")];
        JObj [("id", JStr "a1"); ("createdAt", JStr "2024-01-01T10:00:00Z")]].
Proof.
  intros Hs.
  rewrite (announcements_listener_standard engine JNull
             (JObj [("a1", JObj [("createdAt", JStr "2024-01-01T10:00:00Z")]);
                    ("a2", JObj [("createdAt", JStr "2024-03-01T10:00:00Z")])])
             Hs eq_refl).
  - reflexivity.
  - apply Forall_forall. intros x Hx. cbv in Hx.
    repeat (destruct Hx as [<-|Hx]; [cbv; intros H; inversion H|]). destruct Hx.
Qed.

(** ** The slot read back *)

Ltac compute_object :=
  match goal with
  | |- context [obj_of ?l] =>
      let v := eval cbv in (obj_of l) in change (obj_of l) with v
  end.

Ltac read_back_flat :=
  compute_object;
  rewrite parse_stringify_flat_object;
  [reflexivity | discriminate | repeat constructor].

Lemma admin_user_round_trip (a : json) (username password : string) :
  matches a username password = true ->
  string_or_absent (field a "id") -> string_or_absent (field a "name") ->
  JSON.parse (JSON.stringify (admin_user a)) = Ok (admin_user a).
Proof.
  intros Hm Hi Hn. destruct (matches_username _ _ _ Hm) as [Hu _].
  unfold admin_user. rewrite Hu.
  destruct (field a "id") as [[]|]; try contradiction;
    destruct (field a "name") as [[]|]; try contradiction; read_back_flat.
Qed.

Lemma teacher_user_round_trip (key : string) (t : json) (username password : string) :
  matches t username password = true ->
  string_or_absent (field t "name") ->
  JSON.parse (JSON.stringify (teacher_user key t)) = Ok (teacher_user key t).
Proof.
  intros Hm Hn. destruct (matches_username _ _ _ Hm) as [Hu _].
  unfold teacher_user. rewrite Hu.
  destruct (field t "name") as [[]|]; try contradiction; read_back_flat.
Qed.

Lemma student_user_round_trip (key : string) (s : json) (username password : string) :
  matches s username password = true ->
  string_or_absent (field s "name") ->
  string_or_absent (field s "classId") ->
  string_or_absent (field s "className") ->
  bool_or_absent (field s "passwordChanged") ->
  JSON.parse (JSON.stringify (student_user key s)) = Ok (student_user key s).
Proof.
  intros Hm Hn Hc Hcn Hp. destruct (matches_username _ _ _ Hm) as [Hu _].
  unfold student_user. rewrite Hu.
  destruct (field s "name") as [[]|]; try contradiction;
    destruct (field s "classId") as [[]|]; try contradiction;
    destruct (field s "className") as [[]|]; try contradiction;
    destruct (field s "passwordChanged") as [[|[]| | | |]|]; try contradiction;
    read_back_flat.
Qed.

Lemma installed_round_trip (env : Env) (username password : string) (u : json) :
  store_typed env -> installed_by env username password u ->
  JSON.parse (JSON.stringify u) = Ok u /\ JSON.stringify u <> "".
Proof.
  intros [Hadmin [Hteachers Hstudents]] Hu.
  destruct Hu as [k a Pa | key t Pa Pt | key s Pa Pt Ps].
  - destruct (probe_admin_Found _ _ _ _ _ Pa) as [Ha [_ Hm]].
    destruct (Hadmin a Ha) as [Hi Hn].
    split; [eapply admin_user_round_trip; eassumption | discriminate].
  - destruct (probe_Found _ _ _ _ _ _ Pt) as [c [Hc [_ [Hin [Hm _]]]]].
    specialize (Hteachers c Hc). rewrite Forall_forall in Hteachers.
    specialize (Hteachers _ Hin).
    split; [eapply teacher_user_round_trip; eassumption | discriminate].
  - destruct (probe_Found _ _ _ _ _ _ Ps) as [c [Hc [_ [Hin [Hm _]]]]].
    specialize (Hstudents c Hc). rewrite Forall_forall in Hstudents.
    destruct (Hstudents _ Hin) as [Hn [Hcid [Hcn Hp]]].
    split; [eapply student_user_round_trip; eassumption | discriminate].
Qed.

(** C8.  After a successful [login] against a store whose records hold
    strings (and a boolean [passwordChanged]) in the fields that are
    copied, the slot holds a text from which the restore effect, run in a
    fresh process, installs a session equal to the one [login] installed. *)
Theorem login_restore_round_trip (env : Env) (username password : string)
  (w w' : World) (r : LoginResult) :
  store_typed env ->
  login env username password w = (Ok r, w') -> success r = true ->
  exists s,
    crescentUser w' = Some s
    /\ restoreSession (initial_world (Some s))
       = (Ok tt, with_loading false (with_user (user w') (initial_world (Some s))))
    /\ user (snd (restoreSession (initial_world (Some s)))) = user w'.
Proof.
  intros Htyped Hrun Hs.
  destruct (login_success _ _ _ _ _ _ Hrun Hs) as [Hu [Hslot _]].
  destruct (installed_round_trip _ _ _ _ Htyped Hu) as [Hparse Hne].
  exists (JSON.stringify (user w')). split; [exact Hslot|].
  assert (Hrestore :
    restoreSession (initial_world (Some (JSON.stringify (user w'))))
    = (Ok tt, with_loading false
                (with_user (user w') (initial_world (Some (JSON.stringify (user w'))))))).
  { apply (restoreSession_parsed _ (JSON.stringify (user w')));
      [reflexivity | exact Hne | exact Hparse]. }
  split; [exact Hrestore|]. rewrite Hrestore. reflexivity.
Qed.

Lemma store_typed_school : store_typed School.env.
Proof.
  split; [|split]; intros c Hc; cbn in Hc; inversion Hc; subst; cbn;
    repeat constructor.
Qed.

Lemma login_restore_round_trip_witness :
  exists s,
    crescentUser School.bob_logged_in = Some s
    /\ restoreSession (initial_world (Some s))
       = (Ok tt, with_loading false
                   (with_user (user School.bob_logged_in) (initial_world (Some s))))
    /\ user (snd (restoreSession (initial_world (Some s))))
       = user School.bob_logged_in.
Proof.
  apply (login_restore_round_trip School.env "bob" "b0b" (initial_world None)
           School.bob_logged_in login_ok).
  - exact store_typed_school.
  - reflexivity.
  - reflexivity.
Defined.

(** ** updateUser *)

(** C9.  With no session, [updateUser] changes nothing and raises
    nothing.  With a session, it installs the session overlaid with the
    partial record: a property the partial record supplies takes the
    supplied value, every other property keeps its value; and, the write
    being accepted, the slot receives the serialisation of the merged
    session.  In particular [updateUser({passwordChanged: true})] changes
    [passwordChanged] and nothing else. *)
Theorem updateUser_merges (env : Env) (w : World) :
  (forall data, truthy (user w) = false -> updateUser env data w = (Ok tt, w))
  /\ (forall data props,
      user w = JObj props -> NoDup (map fst props) ->
      user (snd (updateUser env data w)) = spread_merge (user w) data
      /\ (forall k,
            field (user (snd (updateUser env data w))) k
            = match supplied k data with
              | Some x => x
              | None => field (user w) k
              end)
      /\ (setItem_throws env = false ->
          updateUser env data w
          = (Ok tt, with_slot (Some (JSON.stringify (spread_merge (user w) data)))
                      (with_user (spread_merge (user w) data) w))))
  /\ (forall props,
      user w = JObj props -> NoDup (map fst props) ->
      field (user (snd (updateUser env [("passwordChanged", Some (JBool true))] w)))
        "passwordChanged" = Some (JBool true)
      /\ (forall k, k <> "passwordChanged" ->
            field (user (snd (updateUser env [("passwordChanged", Some (JBool true))] w))) k
            = field (user w) k)).
Proof.
  assert (Hmerge : forall data props,
    user w = JObj props -> NoDup (map fst props) ->
    user (snd (updateUser env data w)) = spread_merge (user w) data
    /\ (forall k,
          field (user (snd (updateUser env data w))) k
          = match supplied k data with
            | Some x => x
            | None => field (user w) k
            end)).
  { intros data props Hu Hnd.
    assert (Huser : user (snd (updateUser env data w)) = spread_merge (user w) data)
      by (apply updateUser_user; rewrite Hu; reflexivity).
    split; [exact Huser|]. intros k. rewrite Huser, Hu.
    apply field_spread_merge, Hnd. }
  split; [|split].
  - intros data Hf. rewrite updateUser_run, Hf. reflexivity.
  - intros data props Hu Hnd. destruct (Hmerge data props Hu Hnd) as [H1 H2].
    split; [exact H1|]. split; [exact H2|].
    intros Hw. rewrite updateUser_run, Hu, Hw. reflexivity.
  - intros props Hu Hnd.
    destruct (Hmerge [("passwordChanged", Some (JBool true))] props Hu Hnd) as [_ H2].
    split.
    + rewrite H2. reflexivity.
    + intros k Hk. rewrite H2. cbn [supplied].
      apply String.eqb_neq in Hk. rewrite Hk. reflexivity.
Qed.

Lemma updateUser_merges_witness :
  updateUser School.env [("passwordChanged", Some (JBool true))] (initial_world None)
  = (Ok tt, initial_world None)
  /\ field (user (snd (updateUser School.env [("passwordChanged", Some (JBool true))]
                         School.bob_logged_in))) "passwordChanged" = Some (JBool true)
  /\ field (user (snd (updateUser School.env [("passwordChanged", Some (JBool true))]
                         School.bob_logged_in))) "classId"
     = field (user School.bob_logged_in) "classId"
  /\ crescentUser (snd (updateUser School.env [("passwordChanged", Some (JBool true))]
                          School.bob_logged_in))
     = Some (JSON.stringify
               (spread_merge (user School.bob_logged_in)
                  [("passwordChanged", Some (JBool true))])).
Proof.
  assert (Hnd : NoDup (map fst
    [("id", JStr "s1"); ("username", JStr "bob"); ("name", JStr "Bob");
     ("role", JStr "student"); ("classId", JStr "c1");
     ("className", JStr "Grade 1"); ("passwordChanged", JBool false)])).
  { repeat constructor; cbn; intuition discriminate. }
  split; [|split; [|split]].
  - apply (proj1 (updateUser_merges School.env (initial_world None))). reflexivity.
  - apply (proj1 (proj2 (proj2 (updateUser_merges School.env School.bob_logged_in))
                    _ eq_refl Hnd)).
  - apply (proj2 (proj2 (proj2 (updateUser_merges School.env School.bob_logged_in))
                    _ eq_refl Hnd)).
    discriminate.
  - rewrite (proj2 (proj2 (proj1 (proj2 (updateUser_merges School.env School.bob_logged_in))
                             [("passwordChanged", Some (JBool true))] _ eq_refl Hnd))
               eq_refl).
    reflexivity.
Defined.

(** * Further properties *)

(** ** The session manager *)

Lemma login_failure_writes_nothing_witness :
  user (snd (login School.env "ann" "wrong" School.ann_logged_in))
  = user School.ann_logged_in
  /\ crescentUser (snd (login School.env "ann" "wrong" School.ann_logged_in))
     = crescentUser School.ann_logged_in.
Proof.
  apply (login_failure_writes_nothing School.env "ann" "wrong" School.ann_logged_in
           (snd (login School.env "ann" "wrong" School.ann_logged_in))
           invalid_credentials).
  - reflexivity.
  - reflexivity.
  - reflexivity.
Defined.

(** X4.  Nobody logs in without credentials that the store holds: when
    [login] reports success, the admin record or an entry of the teachers
    or of the students collection has a [username] and a [password] that
    are strings, and are exactly the two strings given. *)
Theorem login_success_needs_credentials (env : Env) (username password : string)
  (w w' : World) (r : LoginResult) :
  login env username password w = (Ok r, w') -> success r = true ->
  holds_credentials env username password.
Proof.
  intros Hrun Hs.
  destruct (login_success _ _ _ _ _ _ Hrun Hs) as [Hu _].
  destruct Hu as [k a Pa | key t Pa Pt | key s Pa Pt Ps].
  - destruct (probe_admin_Found _ _ _ _ _ Pa) as [Ha [_ Hm]].
    destruct (matches_username _ _ _ Hm) as [Hun Hpw].
    left. exists a. repeat split; assumption.
  - destruct (probe_Found _ _ _ _ _ _ Pt) as [c [Hc [_ [Hin [Hm _]]]]].
    destruct (matches_username _ _ _ Hm) as [Hun Hpw].
    right. exists "teachers", c, key, t.
    split; [left; reflexivity|]. repeat split; assumption.
  - destruct (probe_Found _ _ _ _ _ _ Ps) as [c [Hc [_ [Hin [Hm _]]]]].
    destruct (matches_username _ _ _ Hm) as [Hun Hpw].
    right. exists "students", c, key, s.
    split; [right; reflexivity|]. repeat split; assumption.
Qed.

Lemma login_success_needs_credentials_witness :
  holds_credentials School.env "bob" "b0b".
Proof.
  apply (login_success_needs_credentials School.env "bob" "b0b"
           (initial_world None) School.bob_logged_in login_ok).
  - reflexivity.
  - reflexivity.
Defined.

Lemma parse_only_SyntaxError (s : string) (e : error) :
  JSON.parse s = Throw e -> e = SyntaxError.
Proof.
  unfold JSON.parse.
  destruct (JSON.parse_value (S (String.length s)) s) as [[v r]|];
    [destruct (JSON.skip_ws r =? "")|]; intros H; inversion H; reflexivity.
Qed.

Lemma restoreSession_thrown (w : World) (s : string) :
  crescentUser w = Some s -> s <> "" -> JSON.parse s = Throw SyntaxError ->
  restoreSession w = (Throw SyntaxError, w).
Proof.
  intros Hs Hne Hp. unfold restoreSession, bind, getItem, lift. rewrite Hs.
  apply String.eqb_neq in Hne. rewrite Hne. cbn [negb]. rewrite Hp. reflexivity.
Qed.

(** X5.  The restore effect reads the slot and nothing else: it never
    writes the slot and never reads the remote store.  It either returns,
    and then the loading phase is over, or raises the SyntaxError of
    [JSON.parse], and then nothing at all has changed: the loading phase
    stays as it was. *)
Theorem restoreSession_frame (w : World) :
  crescentUser (snd (restoreSession w)) = crescentUser w
  /\ db_reads (snd (restoreSession w)) = db_reads w
  /\ ((fst (restoreSession w) = Ok tt /\ isLoading (snd (restoreSession w)) = false)
      \/ (fst (restoreSession w) = Throw SyntaxError
          /\ snd (restoreSession w) = w
          /\ exists s, crescentUser w = Some s /\ JSON.parse s = Throw SyntaxError)).
Proof.
  assert (Hok : forall w0 : World,
    crescentUser w0 = crescentUser w -> db_reads w0 = db_reads w ->
    isLoading w0 = false ->
    crescentUser (snd (Ok tt, w0)) = crescentUser w
    /\ db_reads (snd (@Ok unit tt, w0)) = db_reads w
    /\ ((fst (@Ok unit tt, w0) = Ok tt /\ isLoading (snd (@Ok unit tt, w0)) = false)
        \/ (fst (@Ok unit tt, w0) = Throw SyntaxError
            /\ snd (@Ok unit tt, w0) = w
            /\ exists s, crescentUser w = Some s
                         /\ JSON.parse s = Throw SyntaxError))).
  { intros w0 H1 H2 H3. split; [exact H1|]. split; [exact H2|].
    left. split; [reflexivity | exact H3]. }
  destruct (crescentUser w) as [s|] eqn:Es.
  - destruct (String.eqb_spec s "") as [->|Hne].
    + rewrite (restoreSession_absent w (or_intror Es)).
      apply Hok; [exact Es | reflexivity | reflexivity].
    + destruct (JSON.parse s) as [v|e] eqn:Ep.
      * rewrite (restoreSession_parsed w s v Es Hne Ep).
        apply Hok; [exact Es | reflexivity | reflexivity].
      * rewrite (parse_only_SyntaxError s e Ep) in Ep.
        rewrite (restoreSession_thrown w s Es Hne Ep).
        split; [exact Es|]. split; [reflexivity|]. right.
        split; [reflexivity|]. split; [reflexivity|].
        exists s. split; [reflexivity | exact Ep].
  - rewrite (restoreSession_absent w (or_introl Es)).
    apply Hok; [exact Es | reflexivity | reflexivity].
Qed.





(** X8.  A refused write is not caught by [updateUser]: the merged session
    is already installed in memory when [localStorage.setItem] throws, the
    error leaves [updateUser], and the slot keeps the text it had, so that
    the session in memory and the persisted one now differ. *)
Theorem updateUser_refused_write (env : Env) (data : list (string * value))
  (w : World) :
  setItem_throws env = true -> truthy (user w) = true ->
  fst (updateUser env data w) = Throw QuotaExceededError
  /\ user (snd (updateUser env data w)) = spread_merge (user w) data
  /\ crescentUser (snd (updateUser env data w)) = crescentUser w
  /\ isLoading (snd (updateUser env data w)) = isLoading w.
Proof.
  intros Hw Ht. rewrite updateUser_run, Ht, Hw. repeat split.
Qed.

Lemma updateUser_refused_write_witness :
  fst (updateUser School.env_storage_full password_changed School.bob_logged_in)
  = Throw QuotaExceededError
  /\ field (user (snd (updateUser School.env_storage_full password_changed
                         School.bob_logged_in))) "passwordChanged"
     = Some (JBool true)
  /\ crescentUser (snd (updateUser School.env_storage_full password_changed
                          School.bob_logged_in))
     = crescentUser School.bob_logged_in.
Proof.
  destruct (updateUser_refused_write School.env_storage_full password_changed
              School.bob_logged_in eq_refl eq_refl) as [Hr [Hu [Hs _]]].
  split; [exact Hr|]. split; [rewrite Hu; reflexivity | exact Hs].
Defined.






(** ** The listeners *)

(** X10.  The [id] of an entity is the key of its record, unless the
    record holds an [id] of its own, which then takes its place; every
    other property is the record's.  A record that is [null], a boolean or
    a number gives an entity with the key as its only property. *)
Theorem entity_identity (key : string) :
  (forall props k,
      NoDup (map fst props) ->
      field (with_id (key, JObj props)) k
      = if k =? "id"
        then Some (match lookup "id" props with
                   | Some v => v
                   | None => JStr key
                   end)
        else lookup k props)
  /\ (forall r, own_props r = [] -> with_id (key, r) = JObj [("id", JStr key)]).
Proof.
  split.
  - intros props k Hnd. unfold with_id. rewrite field_obj_of.
    cbn [fst snd own_props supplied].
    rewrite (supplied_as_values k props Hnd).
    destruct (k =? "id") eqn:E.
    + apply String.eqb_eq in E. subst k.
      destruct (lookup "id" props); reflexivity.
    + destruct (lookup k props); reflexivity.
  - intros r Hr. unfold with_id. cbn [fst snd]. rewrite Hr. reflexivity.
Qed.

Lemma entity_identity_witness :
  field (with_id ("k1", JObj [("id", JStr "c7"); ("name", JStr "Grade 7")])) "id"
  = Some (JStr "c7")
  /\ field (with_id ("k1", JObj [("name", JStr "Grade 7")])) "id" = Some (JStr "k1")
  /\ with_id ("k1", JNull) = JObj [("id", JStr "k1")].
Proof.
  split; [|split].
  - apply (proj1 (entity_identity "k1")
             [("id", JStr "c7"); ("name", JStr "Grade 7")] "id").
    repeat constructor; cbn; intuition discriminate.
  - apply (proj1 (entity_identity "k1") [("name", JStr "Grade 7")] "id").
    repeat constructor; cbn; intuition discriminate.
  - apply (proj2 (entity_identity "k1") JNull). reflexivity.
Defined.

Lemma existsb_same_elements {A : Type} (f : A -> bool) (l l' : list A) :
  incl l l' -> existsb f l = true -> existsb f l' = true.
Proof.
  intros Hincl H. apply existsb_exists in H. destruct H as [x [Hx Hf]].
  apply existsb_exists. exists x. split; [apply Hincl, Hx | exact Hf].
Qed.

Lemma existsb_ext_elements {A : Type} (f : A -> bool) (l l' : list A) :
  (forall x, In x l <-> In x l') -> existsb f l = existsb f l'.
Proof.
  intros H. destruct (existsb f l) eqn:E.
  - symmetry. eapply existsb_same_elements; [|exact E].
    intros x Hx. apply H, Hx.
  - destruct (existsb f l') eqn:E'; [|reflexivity].
    rewrite (existsb_same_elements f l' l) in E; [discriminate | | exact E'].
    intros x Hx. apply H, Hx.
Qed.

Lemma filter_exc_ext {A : Type} (p q : A -> exc value) (l : list A) :
  (forall x, p x = q x) -> filter_exc p l = filter_exc q l.
Proof.
  intros H. induction l as [|x rest IH]; [reflexivity|].
  cbn [filter_exc]. rewrite H, IH. reflexivity.
Qed.

Lemma assigned_includes_array_arg (u : json) (l : list json) (arg : exc value) :
  field u "assignedClassIds" = Some (JArr l) ->
  assigned_includes u arg
  = exc_bind arg (fun x => Ok (Some (JBool (existsb (same_value_zero x) l)))).
Proof.
  unfold field, assigned_includes.
  destruct u; try discriminate; cbn [get_prop]; intros H; rewrite H; reflexivity.
Qed.

Lemma keeps_array (u : json) (l : list json) (props : list (string * json)) :
  field u "assignedClassIds" = Some (JArr l) ->
  keeps (class_visible u) (JObj props)
  = existsb (same_value_zero (field (JObj props) "id")) l
  /\ keeps (student_visible u) (JObj props)
     = existsb (same_value_zero (field (JObj props) "classId")) l
  /\ keeps (announcement_visible u) (JObj props)
     = classId_unset (JObj props)
       || existsb (same_value_zero (field (JObj props) "classId")) l.
Proof.
  intros Hu. unfold keeps.
  rewrite class_visible_object, student_visible_object, announcement_visible_object.
  rewrite !(assigned_includes_array u l _ Hu).
  repeat split. destruct (classId_unset (JObj props)); reflexivity.
Qed.

(** X11.  What a session sees depends on which ids are among its
    [assignedClassIds], not on their order nor on how often each occurs:
    two arrays with the same values give the same three lists.  And
    assigning more classes never hides anything: what is visible with an
    array is visible with any array that holds at least the same values. *)
Theorem scope_is_a_set (engine : Engine) (u u' data : json) (l l' : list json) :
  field u "assignedClassIds" = Some (JArr l) ->
  field u' "assignedClassIds" = Some (JArr l') ->
  (same_elements l l' ->
   classes_listener u data = classes_listener u' data
   /\ students_listener u data = students_listener u' data
   /\ announcements_listener engine u data = announcements_listener engine u' data)
  /\ (incl l l' ->
      exists cs cs' ss ss' anns anns',
        classes_listener u data = Ok cs /\ classes_listener u' data = Ok cs'
        /\ students_listener u data = Ok ss /\ students_listener u' data = Ok ss'
        /\ announcements_listener engine u data = Ok anns
        /\ announcements_listener engine u' data = Ok anns'
        /\ incl cs cs' /\ incl ss ss' /\ incl anns anns').
Proof.
  intros Hu Hu'. split.
  - intros Hsame.
    assert (Hinc : forall arg, assigned_includes u arg = assigned_includes u' arg).
    { intros arg. rewrite (assigned_includes_array_arg u l arg Hu).
      rewrite (assigned_includes_array_arg u' l' arg Hu').
      destruct arg as [x|e]; [|reflexivity]. cbn [exc_bind].
      rewrite (existsb_ext_elements _ l l' Hsame). reflexivity. }
    unfold classes_listener, students_listener, announcements_listener.
    rewrite (filter_exc_ext (class_visible u) (class_visible u'));
      [|intros x; apply Hinc].
    rewrite (filter_exc_ext (student_visible u) (student_visible u'));
      [|intros x; apply Hinc].
    rewrite (filter_exc_ext (announcement_visible u) (announcement_visible u')).
    + repeat split.
    + intros x. unfold announcement_visible.
      destruct (get_prop x "classId") as [cid|e]; [|reflexivity]. cbn [exc_bind].
      destruct (negb (truthy_v cid)); [reflexivity | apply Hinc].
  - intros Hincl.
    destruct (listeners_run u data (scope_callable_array u _ Hu)) as [Hc Hs].
    destruct (listeners_run u' data (scope_callable_array u' _ Hu')) as [Hc' Hs'].
    pose proof (announcements_run u data engine (scope_callable_array u _ Hu)) as Ha.
    pose proof (announcements_run u' data engine (scope_callable_array u' _ Hu'))
      as Ha'.
    pose proof (entities_objects data) as Hobj. rewrite Forall_forall in Hobj.
    do 6 eexists.
    split; [exact Hc|]. split; [exact Hc'|]. split; [exact Hs|].
    split; [exact Hs'|]. split; [exact Ha|]. split; [exact Ha'|].
    split; [|split]; intros x Hx.
    + apply filter_In in Hx. destruct Hx as [Hin Hk]. apply filter_In.
      split; [exact Hin|]. destruct (Hobj x Hin) as [props ->].
      rewrite (proj1 (keeps_array u l props Hu)) in Hk.
      rewrite (proj1 (keeps_array u' l' props Hu')).
      eapply existsb_same_elements; eassumption.
    + apply filter_In in Hx. destruct Hx as [Hin Hk]. apply filter_In.
      split; [exact Hin|]. destruct (Hobj x Hin) as [props ->].
      rewrite (proj1 (proj2 (keeps_array u l props Hu))) in Hk.
      rewrite (proj1 (proj2 (keeps_array u' l' props Hu'))).
      eapply existsb_same_elements; eassumption.
    + apply (proj1 (sort_In _ _ _)) in Hx. apply (proj2 (sort_In _ _ _)).
      apply filter_In in Hx. destruct Hx as [Hin Hk]. apply filter_In.
      split; [exact Hin|]. destruct (Hobj x Hin) as [props ->].
      rewrite (proj2 (proj2 (keeps_array u l props Hu))) in Hk.
      rewrite (proj2 (proj2 (keeps_array u' l' props Hu'))).
      destruct (classId_unset (JObj props)); [reflexivity|]. cbn [orb] in *.
      eapply existsb_same_elements; eassumption.
Qed.

Lemma scope_is_a_set_witness :
  announcements_listener ecma School.supervisor School.some_announcements
  = announcements_listener ecma
      (JObj [("assignedClassIds", JArr [JStr "c3"; JStr "c1"; JStr "c1"])])
      School.some_announcements.
Proof.
  apply (proj1 (scope_is_a_set ecma School.supervisor
                  (JObj [("assignedClassIds", JArr [JStr "c3"; JStr "c1"; JStr "c1"])])
                  School.some_announcements
                  [JStr "c1"; JStr "c3"] [JStr "c3"; JStr "c1"; JStr "c1"]
                  eq_refl eq_refl)).
  intros x. cbn. tauto.
Defined.




(** X13.  When [assignedClassIds] is a string, [includes] is the method of
    strings: a class is kept when its id, as text, occurs anywhere in that
    string, and a student when its [classId] does. *)
Theorem string_scope_is_substring (u data : json) (s : string) :
  field u "assignedClassIds" = Some (JStr s) ->
  exists cs ss,
    classes_listener u data = Ok cs
    /\ students_listener u data = Ok ss
    /\ (forall c, In c cs <->
          In c (entities data)
          /\ contains (to_string_v (field c "id")) s = true)
    /\ (forall x, In x ss <->
          In x (entities data)
          /\ contains (to_string_v (field x "classId")) s = true).
Proof.
  intros Hu.
  assert (Hc : scope_callable u = true).
  { unfold scope_callable. rewrite Hu. destruct u; reflexivity. }
  assert (Hinc : forall x,
    assigned_includes u (Ok x) = Ok (Some (JBool (contains (to_string_v x) s)))).
  { intros x. unfold field, assigned_includes in *.
    destruct u; try discriminate. cbn [get_prop] in *. rewrite Hu. reflexivity. }
  destruct (listeners_run u data Hc) as [Hcs Hss].
  pose proof (entities_objects data) as Hobj. rewrite Forall_forall in Hobj.
  do 2 eexists. split; [exact Hcs|]. split; [exact Hss|].
  split; intros x; rewrite filter_In; split; intros [Hin Hk];
    (split; [exact Hin|]); destruct (Hobj x Hin) as [props ->];
    unfold keeps in *.
  - rewrite class_visible_object, Hinc in Hk. exact Hk.
  - rewrite class_visible_object, Hinc. exact Hk.
  - rewrite student_visible_object, Hinc in Hk. exact Hk.
  - rewrite student_visible_object, Hinc. exact Hk.
Qed.

Lemma string_scope_is_substring_witness :
  classes_listener (JObj [("assignedClassIds", JStr "c10")])
    (JObj [("c1", JObj [("name", JStr "Grade 1")]);
           ("c2", JObj [("name", JStr "Grade 2")])])
  = Ok [JObj [("id", JStr "c1"); ("name", JStr "Grade 1")]].
Proof.
  destruct (string_scope_is_substring
              (JObj [("assignedClassIds", JStr "c10")])
              (JObj [("c1", JObj [("name", JStr "Grade 1")]);
                     ("c2", JObj [("name", JStr "Grade 2")])])
              "c10" eq_refl) as [cs [ss [Hcs _]]].
  rewrite Hcs. f_equal.
  assert (H : Ok cs = Ok [JObj [("id", JStr "c1"); ("name", JStr "Grade 1")]])
    by (rewrite <- Hcs; reflexivity).
  inversion H. reflexivity.
Defined.

(** ** The forms and the cards *)

Section PanelProperties.
Import Panel PanelSpec.

Lemma blank_false (s : string) : s <> "" -> blank s = false.
Proof. intros H. apply String.eqb_neq, H. Qed.

Lemma blank_true (s : string) : s = "" -> blank s = true.
Proof. intros ->. reflexivity. Qed.

Lemma get_prop_field (x : json) (k : string) :
  x <> JNull -> get_prop x k = Ok (field x k).
Proof. intros Hx. destruct x; try congruence; reflexivity. Qed.

Lemma find_by_id_run (id : string) (l : list json) :
  no_null l -> find_by_id id l = Ok (first_with_id id l).
Proof.
  induction 1 as [|x rest Hx _ IH]; [reflexivity|].
  cbn [find_by_id first_with_id]. rewrite (get_prop_field x "id" Hx).
  destruct (strict_eq_str (field x "id") id); [reflexivity | exact IH].
Qed.

Lemma optional_name (x : option json) :
  optional_prop x "name"
  = Ok (match x with
        | Some j => field j "name"
        | None => None
        end).
Proof. destruct x as [[]|]; reflexivity. Qed.

Lemma author_run (user : json) : author user = Ok (author_text user).
Proof. destruct user; reflexivity. Qed.

Lemma toast_run (t : Toast) (d : Dash) : toast t d = (Ok tt, toasted t d).
Proof. reflexivity. Qed.

(** X14.  A handler whose form has an empty required field does one thing
    only: it raises the error toast.  Nothing is pushed, the form keeps
    what was typed and the panel stays as it is.  The announcement form
    requires a class: the priority alone is optional. *)
Theorem handlers_need_complete_forms (remote : Remote) (user : json) (d : Dash) :
  (tf_name (newTeacher d) = "" \/ tf_username (newTeacher d) = ""
   \/ tf_password (newTeacher d) = "" \/ tf_subject (newTeacher d) = "" ->
   handleAddTeacher remote d = (Ok tt, toasted fill_all_fields d))
  /\ (cf_name (newClass d) = "" \/ cf_grade (newClass d) = ""
      \/ cf_teacherId (newClass d) = "" ->
      handleAddClass remote user d = (Ok tt, toasted fill_all_fields d))
  /\ (sf_name (newStudent d) = "" \/ sf_username (newStudent d) = ""
      \/ sf_password (newStudent d) = "" \/ sf_classId (newStudent d) = "" ->
      handleAddStudent remote d = (Ok tt, toasted fill_all_fields d))
  /\ (af_title (newAnnouncement d) = "" \/ af_content (newAnnouncement d) = ""
      \/ af_classId (newAnnouncement d) = "" ->
      handleAddAnnouncement remote user d = (Ok tt, toasted fill_and_select d)).
Proof.
  split; [|split; [|split]].
  - intros H. unfold handleAddTeacher.
    assert (Hb : blank (tf_name (newTeacher d)) || blank (tf_username (newTeacher d))
                 || blank (tf_password (newTeacher d))
                 || blank (tf_subject (newTeacher d)) = true).
    { destruct H as [H|[H|[H|H]]]; rewrite (blank_true _ H);
        rewrite ?orb_true_r; reflexivity. }
    rewrite Hb. reflexivity.
  - intros H. unfold handleAddClass.
    assert (Hb : blank (cf_name (newClass d)) || blank (cf_grade (newClass d))
                 || blank (cf_teacherId (newClass d)) = true).
    { destruct H as [H|[H|H]]; rewrite (blank_true _ H);
        rewrite ?orb_true_r; reflexivity. }
    rewrite Hb. reflexivity.
  - intros H. unfold handleAddStudent.
    assert (Hb : blank (sf_name (newStudent d)) || blank (sf_username (newStudent d))
                 || blank (sf_password (newStudent d))
                 || blank (sf_classId (newStudent d)) = true).
    { destruct H as [H|[H|[H|H]]]; rewrite (blank_true _ H);
        rewrite ?orb_true_r; reflexivity. }
    rewrite Hb. reflexivity.
  - intros H. unfold handleAddAnnouncement.
    assert (Hb : blank (af_title (newAnnouncement d))
                 || blank (af_content (newAnnouncement d))
                 || blank (af_classId (newAnnouncement d)) = true).
    { destruct H as [H|[H|H]]; rewrite (blank_true _ H);
        rewrite ?orb_true_r; reflexivity. }
    rewrite Hb. reflexivity.
Qed.

Lemma handlers_need_complete_forms_witness :
  handleAddTeacher accepting initial_dash
  = (Ok tt, toasted fill_all_fields initial_dash)
  /\ handleAddAnnouncement accepting School.supervisor initial_dash
     = (Ok tt, toasted fill_and_select initial_dash).
Proof.
  split.
  - apply (proj1 (handlers_need_complete_forms accepting JNull initial_dash)).
    left. reflexivity.
  - apply (proj2 (proj2 (proj2 (handlers_need_complete_forms accepting
                                  School.supervisor initial_dash)))).
    right. right. reflexivity.
Defined.

Lemma teacher_complete_blank (f : TeacherForm) :
  teacher_complete f ->
  blank (tf_name f) || blank (tf_username f)
  || blank (tf_password f) || blank (tf_subject f) = false.
Proof.
  intros [H1 [H2 [H3 H4]]]. rewrite !blank_false by assumption. reflexivity.
Qed.

Lemma class_complete_blank (f : ClassForm) :
  class_complete f ->
  blank (cf_name f) || blank (cf_grade f) || blank (cf_teacherId f) = false.
Proof.
  intros [H1 [H2 H3]]. rewrite !blank_false by assumption. reflexivity.
Qed.

Lemma student_complete_blank (f : StudentForm) :
  student_complete f ->
  blank (sf_name f) || blank (sf_username f)
  || blank (sf_password f) || blank (sf_classId f) = false.
Proof.
  intros [H1 [H2 [H3 H4]]]. rewrite !blank_false by assumption. reflexivity.
Qed.

Lemma announcement_complete_blank (f : AnnouncementForm) :
  announcement_complete f ->
  blank (af_title f) || blank (af_content f) || blank (af_classId f) = false.
Proof.
  intros [H1 [H2 H3]]. rewrite !blank_false by assumption. reflexivity.
Qed.

(** X15.  None of the handlers catches a rejected push.  With a complete
    form, when [dbPush] rejects, the handler raises what [dbPush] raised
    and stops there: the form keeps what was typed, the panel stays open,
    no toast is raised; the call that was made is all that happened. *)
Theorem rejected_push_keeps_form (remote : Remote) (user : json) (d : Dash)
  (e : error) :
  (teacher_complete (newTeacher d) ->
   dbPush_response remote "teachers"
     (Some (teacher_payload remote (newTeacher d))) = Throw e ->
   handleAddTeacher remote d
   = (Throw e,
      pushed [("teachers", Some (teacher_payload remote (newTeacher d)))] d))
  /\ (class_complete (newClass d) -> no_null (teachers d) ->
      dbPush_response remote "classes"
        (Some (class_payload remote (newClass d)
                 (resolved_name (cf_teacherId (newClass d)) (teachers d)))) = Throw e ->
      handleAddClass remote user d
      = (Throw e,
         pushed [("classes",
                  Some (class_payload remote (newClass d)
                          (resolved_name (cf_teacherId (newClass d)) (teachers d))))] d))
  /\ (student_complete (newStudent d) -> no_null (classes d) ->
      dbPush_response remote "students"
        (Some (student_payload remote (newStudent d)
                 (resolved_name (sf_classId (newStudent d)) (classes d)))) = Throw e ->
      handleAddStudent remote d
      = (Throw e,
         pushed [("students",
                  Some (student_payload remote (newStudent d)
                          (resolved_name (sf_classId (newStudent d)) (classes d))))] d))
  /\ (announcement_complete (newAnnouncement d) ->
      dbPush_response remote "announcements"
        (Some (announcement_payload remote (newAnnouncement d) (author_text user)))
      = Throw e ->
      handleAddAnnouncement remote user d
      = (Throw e,
         pushed [("announcements",
                  Some (announcement_payload remote (newAnnouncement d)
                          (author_text user)))] d)).
Proof.
  split; [|split; [|split]].
  - intros Hc Hr. unfold handleAddTeacher.
    rewrite (teacher_complete_blank _ Hc). unfold bind, dbPush. rewrite Hr.
    reflexivity.
  - intros Hc Hn Hr. unfold handleAddClass.
    rewrite (class_complete_blank _ Hc). unfold bind at 1. unfold lift at 1.
    rewrite (find_by_id_run _ _ Hn). unfold bind at 1. unfold lift at 1.
    rewrite optional_name. unfold bind at 1. unfold dbPush at 1.
    unfold resolved_name in Hr. rewrite Hr. reflexivity.
  - intros Hc Hn Hr. unfold handleAddStudent.
    rewrite (student_complete_blank _ Hc). unfold bind at 1. unfold lift at 1.
    rewrite (find_by_id_run _ _ Hn). unfold bind at 1. unfold lift at 1.
    rewrite optional_name. unfold bind at 1. unfold dbPush at 1.
    unfold resolved_name in Hr. rewrite Hr. reflexivity.
  - intros Hc Hr. unfold handleAddAnnouncement.
    rewrite (announcement_complete_blank _ Hc). unfold bind at 1. unfold lift at 1.
    rewrite author_run. unfold bind at 1. unfold dbPush at 1. rewrite Hr.
    reflexivity.
Qed.

Lemma filled_complete :
  teacher_complete (newTeacher filled) /\ class_complete (newClass filled)
  /\ student_complete (newStudent filled)
  /\ announcement_complete (newAnnouncement filled).
Proof. repeat split; discriminate. Qed.

Lemma filled_no_null : no_null (teachers filled) /\ no_null (classes filled).
Proof. split; repeat constructor; discriminate. Qed.

Lemma rejected_push_keeps_form_witness :
  handleAddTeacher rejecting filled
  = (Throw StoreError,
     pushed [("teachers", Some (teacher_payload rejecting (newTeacher filled)))] filled)
  /\ newStudent (snd (handleAddStudent rejecting filled)) = newStudent filled.
Proof.
  split.
  - apply (proj1 (rejected_push_keeps_form rejecting JNull filled StoreError)).
    + exact (proj1 filled_complete).
    + reflexivity.
  - rewrite (proj1 (proj2 (proj2 (rejected_push_keeps_form rejecting JNull filled
                                    StoreError)))
               (proj1 (proj2 (proj2 filled_complete))) (proj2 filled_no_null) eq_refl).
    reflexivity.
Defined.


Lemma optional_id (user : json) :
  optional_prop (Some user) "id" = Ok (field user "id").
Proof. destruct user; reflexivity. Qed.

Lemma handleAddClass_first_push (remote : Remote) (user : json) (d : Dash) :
  class_complete (newClass d) -> no_null (teachers d) ->
  handleAddClass remote user d
  = match dbPush_response remote "classes" (Some (class_pushed remote d)) with
    | Throw e => (Throw e, pushed [("classes", Some (class_pushed remote d))] d)
    | Ok result =>
        match result, field user "id" with
        | Some r, Some i =>
            if truthy r && truthy i
            then match dbPush_response remote (assignment_path i) (field r "name") with
                 | Throw e =>
                     (Throw e,
                      pushed [("classes", Some (class_pushed remote d));
                              (assignment_path i, field r "name")] d)
                 | Ok _ =>
                     (Ok tt,
                      class_done
                        (pushed [("classes", Some (class_pushed remote d));
                                 (assignment_path i, field r "name")] d))
                 end
            else (Ok tt, class_done (pushed [("classes", Some (class_pushed remote d))] d))
        | _, _ =>
            (Ok tt, class_done (pushed [("classes", Some (class_pushed remote d))] d))
        end
    end.
Proof.
  intros Hc Hn. unfold handleAddClass, class_pushed.
  rewrite (class_complete_blank _ Hc). unfold bind at 1. unfold lift at 1.
  rewrite (find_by_id_run _ _ Hn). unfold bind at 1. unfold lift at 1.
  rewrite optional_name. unfold bind at 1. unfold dbPush at 1.
  fold (resolved_name (cf_teacherId (newClass d)) (teachers d)).
  destruct (dbPush_response remote "classes" _) as [result|e]; [|reflexivity].
  unfold bind at 1. unfold lift at 1. rewrite optional_id.
  destruct result as [r|]; [|reflexivity].
  destruct (field user "id") as [i|]; [|reflexivity].
  destruct (truthy r) eqn:Tr; [|reflexivity].
  destruct (truthy i) eqn:Ti; [|reflexivity]. cbn [andb].
  unfold bind at 1. unfold bind at 1. unfold bind at 1. unfold lift at 1.
  rewrite (get_prop_field r "name" (truthy_not_null r Tr)).
  unfold dbPush at 1. cbn [db_pushes].
  destruct (dbPush_response remote (assignment_path i) (field r "name")) as [a|e].
  - unfold bind, ret, setNewClass, setShowPanel, toast, class_done, pushed.
    cbn. rewrite <- app_assoc. reflexivity.
  - unfold pushed. cbn. rewrite <- app_assoc. reflexivity.
Qed.

(** X16.  A class is pushed before it is assigned, and it is assigned with
    the key that the first push returned, under the path of the session's
    [id].  When the first push returns nothing, or the session has no
    [id], the class is pushed and not assigned; the form is reset and the
    toast still says [Class created and assigned to you]. *)
Theorem handleAddClass_assigns (remote : Remote) (user : json) (d : Dash) :
  class_complete (newClass d) -> no_null (teachers d) ->
  (forall r i answer,
      dbPush_response remote "classes" (Some (class_pushed remote d)) = Ok (Some r) ->
      truthy r = true -> field user "id" = Some i -> truthy i = true ->
      dbPush_response remote (assignment_path i) (field r "name") = Ok answer ->
      handleAddClass remote user d
      = (Ok tt,
         class_done (pushed [("classes", Some (class_pushed remote d));
                             (assignment_path i, field r "name")] d)))
  /\ (forall result,
      dbPush_response remote "classes" (Some (class_pushed remote d)) = Ok result ->
      truthy_v result = false \/ truthy_v (field user "id") = false ->
      handleAddClass remote user d
      = (Ok tt, class_done (pushed [("classes", Some (class_pushed remote d))] d)))
  /\ field (class_pushed remote d) "teacherName"
     = resolved_name (cf_teacherId (newClass d)) (teachers d)
  /\ field (class_pushed remote d) "teacherId"
     = Some (JStr (cf_teacherId (newClass d))).
Proof.
  intros Hc Hn. split; [|split; [|split]].
  - intros r i answer H1 Tr Hi Ti H2.
    rewrite (handleAddClass_first_push remote user d Hc Hn), H1, Hi, Tr, Ti, H2.
    reflexivity.
  - intros result H1 Hf.
    rewrite (handleAddClass_first_push remote user d Hc Hn), H1.
    destruct result as [r|]; [|reflexivity].
    destruct (field user "id") as [i|]; [|reflexivity].
    cbn [truthy_v] in Hf.
    destruct Hf as [Hf|Hf]; rewrite Hf; rewrite ?andb_false_r; reflexivity.
  - unfold class_pushed, class_payload. rewrite field_obj_of. cbn [supplied].
    cbn. unfold resolved_name, or_unassigned.
    destruct (truthy_v _); reflexivity.
  - unfold class_pushed, class_payload. rewrite field_obj_of. reflexivity.
Qed.


Lemma handleAddClass_assigns_witness :
  handleAddClass accepting School.supervisor filled
  = (Ok tt,
     class_done (pushed [("classes", Some (class_pushed accepting filled));
                         ("supervisors/sv1/assignedClassIds", Some (JStr "-Nk1"))]
                   filled))
  /\ handleAddClass accepting JNull filled
     = (Ok tt, class_done (pushed [("classes", Some (class_pushed accepting filled))]
                             filled))
  /\ field (class_pushed accepting filled) "teacherName" = Some (JStr "Ann").
Proof.
  destruct (handleAddClass_assigns accepting School.supervisor filled
              (proj1 (proj2 filled_complete)) (proj1 filled_no_null))
    as [Hassign [_ [Hname _]]].
  destruct (handleAddClass_assigns accepting JNull filled
              (proj1 (proj2 filled_complete)) (proj1 filled_no_null))
    as [_ [Hnone _]].
  split; [|split].
  - apply (Hassign (JObj [("name", JStr "-Nk1")]) (JStr "sv1")
             (Some (JObj [("name", JStr "-Nk1")]))); reflexivity.
  - apply (Hnone (Some (JObj [("name", JStr "-Nk1")]))); [reflexivity|].
    right. reflexivity.
  - rewrite Hname. reflexivity.
Defined.

(** X17.  When the class was pushed and the push of its assignment is
    rejected, the handler raises and stops: the class exists in the store
    without being assigned to anyone, and the form still holds it, so that
    submitting again pushes the class a second time. *)
Theorem handleAddClass_assignment_rejected (remote : Remote) (user : json) (d : Dash)
  (r i : json) (e : error) :
  class_complete (newClass d) -> no_null (teachers d) ->
  dbPush_response remote "classes" (Some (class_pushed remote d)) = Ok (Some r) ->
  truthy r = true -> field user "id" = Some i -> truthy i = true ->
  dbPush_response remote (assignment_path i) (field r "name") = Throw e ->
  handleAddClass remote user d
  = (Throw e,
     pushed [("classes", Some (class_pushed remote d));
             (assignment_path i, field r "name")] d)
  /\ newClass (snd (handleAddClass remote user d)) = newClass d
  /\ class_pushed remote (snd (handleAddClass remote user d)) = class_pushed remote d.
Proof.
  intros Hc Hn H1 Tr Hi Ti H2.
  rewrite (handleAddClass_first_push remote user d Hc Hn), H1, Hi, Tr, Ti, H2.
  repeat split.
Qed.

Lemma handleAddClass_assignment_rejected_witness :
  handleAddClass half_accepting School.supervisor filled
  = (Throw StoreError,
     pushed [("classes", Some (class_pushed half_accepting filled));
             ("supervisors/sv1/assignedClassIds", Some (JStr "-Nk1"))] filled)
  /\ newClass (snd (handleAddClass half_accepting School.supervisor filled))
     = newClass filled.
Proof.
  destruct (handleAddClass_assignment_rejected half_accepting School.supervisor filled
              (JObj [("name", JStr "-Nk1")]) (JStr "sv1") StoreError
              (proj1 (proj2 filled_complete)) (proj1 filled_no_null)
              eq_refl eq_refl eq_refl eq_refl eq_refl) as [Hrun [Hform _]].
  split; [exact Hrun | exact Hform].
Defined.

Lemma truthy_string (s : string) : s <> "" -> truthy (JStr s) = true.
Proof. intros H. cbn. apply String.eqb_neq in H. rewrite H. reflexivity. Qed.

Lemma includes_string (s : string) (ids : list string) :
  existsb (same_value_zero (Some (JStr s))) (map JStr ids) = true <-> In s ids.
Proof.
  rewrite includes_strings. split.
  - intros [i [H Hi]]. inversion H; subst. exact Hi.
  - intros H. exists s. split; [reflexivity | exact H].
Qed.

(** X18.  An announcement posted from this dashboard always names a class,
    so it is never one for everyone: once it comes back in a snapshot,
    under whatever key, a session sees it exactly when that class is among
    its [assignedClassIds], and a session without [assignedClassIds] does
    not see it.  It carries the reading of the clock at the push as
    [createdAt]: its time in the sort is what the engine's [Date.parse]
    gives for that reading. *)
Theorem posted_announcement_visibility (engine : Engine) (remote : Remote)
  (user : json) (d : Dash) (answer : value) :
  announcement_complete (newAnnouncement d) ->
  dbPush_response remote "announcements"
    (Some (announcement_pushed remote user d)) = Ok answer ->
  handleAddAnnouncement remote user d
  = (Ok tt,
     announcement_done
       (pushed [("announcements", Some (announcement_pushed remote user d))] d))
  /\ (forall key, classId_unset (with_id (key, announcement_pushed remote user d)) = false)
  /\ (forall key u ids,
        field u "assignedClassIds" = Some (JArr (map JStr ids)) ->
        keeps (announcement_visible u) (with_id (key, announcement_pushed remote user d))
        = true
        <-> In (af_classId (newAnnouncement d)) ids)
  /\ (forall key u,
        u = JNull \/ field u "assignedClassIds" = None ->
        keeps (announcement_visible u) (with_id (key, announcement_pushed remote user d))
        = false)
  /\ (forall key t,
        Date_parse engine (now remote) = Some t ->
        created engine (with_id (key, announcement_pushed remote user d)) = t
        /\ dated engine (with_id (key, announcement_pushed remote user d))).
Proof.
  intros Hc Hr. destruct Hc as [Ht [Hco Hcl]].
  assert (Hcid : forall key,
    field (with_id (key, announcement_pushed remote user d)) "classId"
    = Some (JStr (af_classId (newAnnouncement d)))) by (intros key; reflexivity).
  assert (Hunset : forall key,
    classId_unset (with_id (key, announcement_pushed remote user d)) = false).
  { intros key. unfold classId_unset. rewrite Hcid. cbn [truthy_v].
    rewrite (truthy_string _ Hcl). reflexivity. }
  split; [|split; [exact Hunset | split; [|split]]].
  - unfold handleAddAnnouncement.
    rewrite (announcement_complete_blank _ (conj Ht (conj Hco Hcl))).
    unfold bind at 1. unfold lift at 1. rewrite author_run.
    unfold bind at 1. unfold dbPush at 1.
    fold (announcement_pushed remote user d). rewrite Hr. reflexivity.
  - intros key u ids Hu.
    pose proof (Hunset key) as Hun. pose proof (Hcid key) as Hci.
    change (with_id (key, announcement_pushed remote user d))
      with (JObj (obj_of (("id", Some (JStr key))
                          :: as_values (own_props (announcement_pushed remote user d)))))
      in *.
    rewrite (proj2 (proj2 (keeps_array u _ _ Hu))), Hun, Hci.
    cbn [orb]. apply includes_string.
  - intros key u Hu. unfold keeps.
    pose proof (Hunset key) as Hun.
    change (with_id (key, announcement_pushed remote user d))
      with (JObj (obj_of (("id", Some (JStr key))
                          :: as_values (own_props (announcement_pushed remote user d)))))
      in *.
    rewrite announcement_visible_object, Hun, (assigned_includes_none u _ Hu).
    reflexivity.
  - intros key t Hd.
    assert (Hcreated :
      Date_getTime engine
        (createdAt (with_id (key, announcement_pushed remote user d)))
      = Some t) by exact Hd.
    unfold created, dated. rewrite Hcreated. split; [reflexivity | discriminate].
Qed.

Lemma posted_announcement_visibility_witness :
  handleAddAnnouncement accepting School.supervisor filled
  = (Ok tt,
     announcement_done
       (pushed [("announcements",
                 Some (announcement_pushed accepting School.supervisor filled))] filled))
  /\ keeps (announcement_visible School.supervisor)
       (with_id ("a7", announcement_pushed accepting School.supervisor filled)) = true.
Proof.
  destruct (posted_announcement_visibility ecma accepting School.supervisor filled
              (Some (JObj [("name", JStr "-Nk1")]))
              (proj2 (proj2 (proj2 filled_complete))) eq_refl)
    as [Hrun [_ [Hvis _]]].
  split; [exact Hrun|].
  apply (Hvis "a7" School.supervisor ["c1"; "c3"] eq_refl).
  left. reflexivity.
Defined.

(** X19.  A student enrolled from this dashboard is pushed with the class
    that was chosen and with the name of that class as the dashboard knows
    it, ['Unassigned'] when the class is not among the classes the session
    sees.  Once the record comes back in a snapshot, under whatever key, a
    session sees the student exactly when the class is among its
    [assignedClassIds]. *)
Theorem enrolled_student_visibility (remote : Remote) (d : Dash) (answer : value) :
  student_complete (newStudent d) -> no_null (classes d) ->
  dbPush_response remote "students" (Some (student_pushed remote d)) = Ok answer ->
  handleAddStudent remote d
  = (Ok tt, student_done (pushed [("students", Some (student_pushed remote d))] d))
  /\ field (student_pushed remote d) "classId" = Some (JStr (sf_classId (newStudent d)))
  /\ field (student_pushed remote d) "className"
     = resolved_name (sf_classId (newStudent d)) (classes d)
  /\ (first_with_id (sf_classId (newStudent d)) (classes d) = None ->
      field (student_pushed remote d) "className" = Some (JStr "Unassigned"))
  /\ (forall key u ids,
        field u "assignedClassIds" = Some (JArr (map JStr ids)) ->
        keeps (student_visible u) (with_id (key, student_pushed remote d)) = true
        <-> In (sf_classId (newStudent d)) ids).
Proof.
  intros Hc Hn Hr.
  assert (Hname : field (student_pushed remote d) "className"
                  = resolved_name (sf_classId (newStudent d)) (classes d)).
  { unfold student_pushed, student_payload. rewrite field_obj_of. cbn.
    unfold resolved_name, or_unassigned. destruct (truthy_v _); reflexivity. }
  split; [|split; [|split; [exact Hname | split]]].
  - unfold handleAddStudent.
    rewrite (student_complete_blank _ Hc). unfold bind at 1. unfold lift at 1.
    rewrite (find_by_id_run _ _ Hn). unfold bind at 1. unfold lift at 1.
    rewrite optional_name. unfold bind at 1. unfold dbPush at 1.
    fold (resolved_name (sf_classId (newStudent d)) (classes d)).
    fold (student_pushed remote d). rewrite Hr. reflexivity.
  - unfold student_pushed, student_payload. rewrite field_obj_of. reflexivity.
  - intros Hnone. rewrite Hname. unfold resolved_name. rewrite Hnone. reflexivity.
  - intros key u ids Hu.
    assert (Hcid : field (with_id (key, student_pushed remote d)) "classId"
                   = Some (JStr (sf_classId (newStudent d)))).
    { unfold student_pushed, student_payload.
      destruct (resolved_name (sf_classId (newStudent d)) (classes d)); reflexivity. }
    change (with_id (key, student_pushed remote d))
      with (JObj (obj_of (("id", Some (JStr key))
                          :: as_values (own_props (student_pushed remote d))))) in *.
    rewrite (proj1 (proj2 (keeps_array u _ _ Hu))).
    rewrite Hcid. apply includes_string.
Qed.

Lemma enrolled_student_visibility_witness :
  field (student_pushed accepting filled) "className" = Some (JStr "Grade 1")
  /\ keeps (student_visible School.supervisor)
       (with_id ("s9", student_pushed accepting filled)) = true.
Proof.
  destruct (enrolled_student_visibility accepting filled
              (Some (JObj [("name", JStr "-Nk1")]))
              (proj1 (proj2 (proj2 filled_complete))) (proj2 filled_no_null) eq_refl)
    as [_ [_ [Hname [_ Hvis]]]].
  split; [rewrite Hname; reflexivity|].
  apply (Hvis "s9" School.supervisor ["c1"; "c3"] eq_refl).
  left. reflexivity.
Defined.

Lemma sorted_firstn_skipn {A : Type} (R : A -> A -> Prop) (n : nat) (l : list A) :
  StronglySorted R l ->
  forall a b, In a (firstn n l) -> In b (skipn n l) -> R a b.
Proof.
  revert l. induction n as [|n IH]; intros l Hs a b Ha Hb; [destruct Ha|].
  destruct l as [|x rest]; [destruct Ha|].
  inversion Hs as [|? ? Hrest Hx]; subst.
  cbn [firstn skipn] in Ha, Hb. destruct Ha as [<-|Ha].
  - rewrite Forall_forall in Hx. apply Hx.
    rewrite <- (firstn_skipn n rest). apply in_or_app. right. exact Hb.
  - exact (IH rest Hrest a b Ha Hb).
Qed.

Lemma sorted_firstn {A : Type} (R : A -> A -> Prop) (n : nat) (l : list A) :
  StronglySorted R l -> StronglySorted R (firstn n l).
Proof.
  revert l. induction n as [|n IH]; intros l Hs; [constructor|].
  destruct l as [|x rest]; [constructor|].
  inversion Hs as [|? ? Hrest Hx]; subst. cbn [firstn].
  constructor; [apply IH, Hrest|].
  apply Forall_forall. intros y Hy. rewrite Forall_forall in Hx. apply Hx.
  rewrite <- (firstn_skipn n rest). apply in_or_app. left. exact Hy.
Qed.

(** X20.  When a snapshot of announcements arrives, the dashboard stores
    the visible ones and the card of recent announcements shows the first
    four of the stored list, or all of them when they are fewer.  The stat
    card counts every visible announcement, not only the four shown, and
    the other three counts do not move.  Whenever the [createdAt] of each
    visible announcement is a valid date for the engine, the ones shown
    are most recent first, and no announcement that the card leaves out is
    more recent than one it shows. *)
Theorem recent_announcements_are_most_recent (engine : Engine) (u data : json)
  (d : Dash) :
  scope_callable u = true ->
  exists d',
    on_announcements engine u data d = (Ok tt, d')
    /\ announcements d' = recent_announcements d' ++ skipn 4 (announcements d')
    /\ List.length (recent_announcements d')
       = Nat.min 4 (List.length (filter (keeps (announcement_visible u))
                                   (entities data)))
    /\ stat_values d'
       = (List.length (students d), List.length (teachers d),
          List.length (classes d),
          List.length (filter (keeps (announcement_visible u)) (entities data)))
    /\ (Forall (dated engine)
          (filter (keeps (announcement_visible u)) (entities data)) ->
        StronglySorted (key_desc (created engine)) (recent_announcements d')
        /\ (forall a b,
              In a (recent_announcements d') -> In b (skipn 4 (announcements d')) ->
              (created engine b <= created engine a)%Z)).
Proof.
  intros Hc.
  pose proof (announcements_run u data engine Hc) as Hanns.
  pose proof (Permutation_length
                (sort_perm (by_date_desc engine)
                   (filter (keeps (announcement_visible u)) (entities data))))
    as Hlen.
  eexists. split.
  { unfold on_announcements, bind, lift. rewrite Hanns. reflexivity. }
  unfold recent_announcements, stat_values. cbn [announcements students teachers classes].
  split; [symmetry; apply firstn_skipn|].
  split; [rewrite length_firstn, Hlen; reflexivity|].
  split; [rewrite Hlen; reflexivity|].
  intros Hvis. destruct (sorted_by_date engine _ Hvis) as [Hsorted _].
  split; [apply sorted_firstn, Hsorted | exact (sorted_firstn_skipn _ 4 _ Hsorted)].
Qed.

Lemma recent_announcements_are_most_recent_witness :
  exists d',
    on_announcements ecma School.supervisor six_announcements initial_dash = (Ok tt, d')
    /\ map createdAt (recent_announcements d')
       = [Some (JStr "2024-04-01"); Some (JStr "2024-03-01");
          Some (JStr "2024-02-02"); Some (JStr "2024-01-01")]
    /\ stat_values d' = (0, 0, 0, 5)
    /\ StronglySorted (key_desc (created ecma)) (recent_announcements d').
Proof.
  destruct (recent_announcements_are_most_recent ecma School.supervisor
              six_announcements initial_dash eq_refl)
    as [d' [Hrun [_ [_ [Hstat Horder]]]]].
  exists d'. split; [exact Hrun|].
  assert (Hd' : d' = snd (on_announcements ecma School.supervisor six_announcements
                             initial_dash)) by (rewrite Hrun; reflexivity).
  split; [rewrite Hd'; reflexivity|].
  split; [exact Hstat|].
  apply Horder.
  apply Forall_forall. intros x Hx. cbv in Hx.
  repeat (destruct Hx as [<-|Hx]; [cbv; intros H; inversion H|]). destruct Hx.
Defined.

End PanelProperties.
